(** * SolGOGO backend: the RPC access layer of [backend/main.go]

    A shallow embedding of the Go code of the Solana dashboard proxy:
    the Retry-After parser, the per-method rate limiter, the retrying
    caller, the result cache, the block-time estimator and the metric
    derivations of the [/api/metrics] handler.

    Conventions.
    - Go's [int], [int64] and [time.Duration] are 64-bit two's complement
      integers (the backend is built for a 64-bit target); they are
      modelled by [Z] with the wrap-around of each operation written out.
    - Go's [float64] is the kernel's binary64 type [float].
    - A [time.Time] is an instant counted in nanoseconds on one clock.
    - [interface{}] values are the dynamic values that the JSON decoder
      produces, see [iface].
    - The mutex of [SolanaRPCClient] is not modelled: every method below is
      one atomic step on the client, and the writes of other goroutines are
      an explicit part of the environment. *)

From Stdlib Require Import ZArith Floats String Ascii List Bool Lia.
From stdpp Require Import gmap strings pretty.
Import ListNotations.

#[local] Open Scope string_scope.
#[local] Open Scope list_scope.
#[local] Open Scope Z_scope.
#[local] Set Warnings "-inexact-float,-register-all".

(** ** Go integers *)

Module GoInt.

Definition minInt64 : Z := - 2 ^ 63.
Definition maxInt64 : Z := 2 ^ 63 - 1.

Definition inInt64 (z : Z) : bool := (minInt64 <=? z) && (z <=? maxInt64).

(** The value a 64-bit signed operation keeps of the exact result [z]. *)
Definition wrap64 (z : Z) : Z := (z + 2 ^ 63) mod 2 ^ 64 - 2 ^ 63.

Definition mul64 (a b : Z) : Z := wrap64 (a * b).

End GoInt.

(** ** Go float64 *)

Module Float64.

(** [float64(n)] for an integer [n]: the nearest binary64 value. *)
Definition ofInt (n : Z) : float :=
  SF2Prim (SpecFloat.binary_normalize 53 1024 n 0 false).

(** The integer part of a finite float, [None] for NaN and infinities. *)
Definition truncate (f : float) : option Z :=
  match Prim2SF f with
  | SpecFloat.S754_zero _ => Some 0
  | SpecFloat.S754_finite s m e =>
      let mag := if 0 <=? e then Z.pos m * 2 ^ e else Z.pos m / 2 ^ (- e) in
      Some (if s then - mag else mag)
  | _ => None
  end.

(** [int64(f)]. Go leaves the result open when the value does not fit;
    amd64 yields the smallest int64 there. *)
Definition toInt64 (f : float) : Z :=
  match truncate f with
  | Some z => if GoInt.inInt64 z then z else GoInt.minInt64
  | None => GoInt.minInt64
  end.

(** [uint64(f)]. Go leaves the result open when the value does not fit.
    The amd64 compiler converts a value below 2^63 as it converts to int64
    and keeps the 64 bits, so that a negative value wraps around modulo 2^64
    ([uint64(-1.0)] is 18446744073709551615); a value from 2^63 on is
    converted as [f - 2^63] and the top bit is set. NaN, the infinities and
    the values beyond the range give 2^63. *)
Definition toUint64 (f : float) : Z :=
  let cutoff := 9223372036854775808%float in
  if PrimFloat.ltb f cutoff then toInt64 f mod 2 ^ 64
  else Z.lor (toInt64 (PrimFloat.sub f cutoff) mod 2 ^ 64) (2 ^ 63).

(** [math.Pow(2, float64(n))] for an integer [n]: the power of two is
    computed without rounding. *)
Definition pow2 (n : Z) : float := Z.ldexp 1%float n.

Definition gt (a b : float) : bool := PrimFloat.ltb b a.
Definition ge (a b : float) : bool := PrimFloat.leb b a.
Definition le (a b : float) : bool := PrimFloat.leb a b.

End Float64.

(** ** package time *)

Module Time.

(** Nanoseconds. A [Duration] is an int64; a [Time] is an instant. *)
Definition Duration : Type := Z.
Definition Time : Type := Z.

Definition Nanosecond : Duration := 1.
Definition Second : Duration := 1000000000.
Definition Minute : Duration := 60 * Second.

Definition minDuration : Duration := GoInt.minInt64.
Definition maxDuration : Duration := GoInt.maxInt64.

(** [time.Time{}]: January 1, year 1, relative to the Unix epoch. *)
Definition zeroTime : Time := - 62135596800 * Second.

Definition Add (t : Time) (d : Duration) : Time := t + d.

(** [t.Sub(u)] saturates at the ends of the Duration range. *)
Definition Sub (t u : Time) : Duration :=
  Z.max minDuration (Z.min maxDuration (t - u)).

Definition After (t u : Time) : bool := u <? t.

(** [time.Since] and [time.Until] read the clock, here [now]. *)
Definition Since (now t : Time) : Duration := Sub now t.
Definition Until (now t : Time) : Duration := Sub t now.

(** The layouts of package time that the backend names. *)
Definition RFC1123 : string := "Mon, 02 Jan 2006 15:04:05 MST".
Definition RFC822 : string := "02 Jan 06 15:04 MST".
Definition RFC822Z : string := "02 Jan 06 15:04 -0700".
Definition RFC850 : string := "Monday, 02-Jan-06 15:04:05 MST".
Definition RFC3339 : string := "2006-01-02T15:04:05Z07:00".

End Time.

Import Time.

(** ** package strconv *)

Module Strconv.

Definition digit (c : ascii) : option Z :=
  let n := Z.of_N (N_of_ascii c) in
  if (48 <=? n) && (n <=? 57) then Some (n - 48) else None.

Fixpoint digits (s : string) (acc : Z) : option Z :=
  match s with
  | EmptyString => Some acc
  | String c rest =>
      match digit c with
      | Some d => digits rest (acc * 10 + d)
      | None => None
      end
  end.

(** [strconv.Atoi]: an optional sign, then one or more decimal digits, and
    the value has to fit the 64-bit [int]. [None] is a non-nil error. *)
Definition Atoi (s : string) : option Z :=
  let '(neg, body) :=
    match s with
    | String "-" rest => (true, rest)
    | String "+" rest => (false, rest)
    | _ => (false, s)
    end in
  match body with
  | EmptyString => None
  | _ =>
      match digits body 0 with
      | Some n =>
          let v := if neg then - n else n in
          if GoInt.inInt64 v then Some v else None
      | None => None
      end
  end.

End Strconv.

Import Strconv.

(** ** Errors and results *)

Definition error : Type := string.

(** A Go result pair [(A, error)] of which exactly one side is set. *)
Inductive OrError (A : Type) : Type :=
  | Ok (a : A)
  | Err (e : error).

Arguments Ok {A} a.
Arguments Err {A} e.

(** ** Retry-After parser *)

Section RetryAfter.

(** [time.Parse layout value]; [None] is a non-nil error. *)
Variable timeParse : string -> string -> option Time.

(** The clock reading of [time.Until]. *)
Variable now : Time.

Definition fallbackFormats : list string :=
  [RFC822; RFC822Z; RFC850; RFC3339].

(** The [for _, format := range formats] loop of [parseRetryAfter]. *)
Fixpoint parseFallback (formats : list string) (retryAfter : string)
  : option Duration :=
  match formats with
  | [] => None
  | format :: rest =>
      match timeParse format retryAfter with
      | Some retryTime =>
          let duration := Until now retryTime in
          if (0 <? duration) && (duration <=? 5 * Minute)
          then Some duration
          else parseFallback rest retryAfter
      | None => parseFallback rest retryAfter
      end
  end.

Definition parseRetryAfter (retryAfter : string) : OrError Duration :=
  match Atoi retryAfter with
  | Some seconds =>
      let duration := GoInt.mul64 seconds Second in
      if 5 * Minute <? duration then Ok (5 * Minute) else Ok duration
  | None =>
      let primary :=
        match timeParse RFC1123 retryAfter with
        | Some retryTime =>
            let duration := Until now retryTime in
            if (0 <? duration) && (duration <=? 5 * Minute)
            then Some duration
            else None
        | None => None
        end in
      match primary with
      | Some duration => Ok duration
      | None =>
          match parseFallback fallbackFormats retryAfter with
          | Some duration => Ok duration
          | None =>
              Err (String.append "unable to parse Retry-After header: " retryAfter)
          end
      end
  end.

End RetryAfter.

(** ** Dynamic values and the client *)

(** The dynamic values held by an [interface{}]: what [encoding/json]
    decodes into it ([nil], [bool], [float64], [string], [[]interface{}],
    [map[string]interface{}]). *)
Inductive iface : Type :=
  | INil
  | IBool (b : bool)
  | IFloat64 (f : float)
  | IString (s : string)
  | ISlice (l : list iface)
  | IMap (m : gmap string iface).

Record CacheEntry : Type := {
  Data : iface;
  ExpiresAt : Time
}.

Record RPCResponse : Type := {
  Result : iface;
  Error : iface
}.

Record SolanaRPCClient : Type := {
  URL : string;
  rateLimiter : gmap string Time;
  cache : gmap string CacheEntry;
  lastBlockTime : float;
  lastBlockTimeCheck : Time
}.

(** The struct literal of [NewSolanaClient]. The constructor also starts a
    first [updateBlockTimeInBackground] run, which is a step of its own. *)
Definition NewSolanaClient (url : string) : SolanaRPCClient :=
  {| URL := url;
     rateLimiter := ∅;
     cache := ∅;
     lastBlockTime := 0.4%float;
     lastBlockTimeCheck := zeroTime |}.

Definition withRateLimiter (s : SolanaRPCClient) (r : gmap string Time)
  : SolanaRPCClient :=
  {| URL := URL s;
     rateLimiter := r;
     cache := cache s;
     lastBlockTime := lastBlockTime s;
     lastBlockTimeCheck := lastBlockTimeCheck s |}.

Definition withCache (s : SolanaRPCClient) (c : gmap string CacheEntry)
  : SolanaRPCClient :=
  {| URL := URL s;
     rateLimiter := rateLimiter s;
     cache := c;
     lastBlockTime := lastBlockTime s;
     lastBlockTimeCheck := lastBlockTimeCheck s |}.

Definition withBlockTime (s : SolanaRPCClient) (blockTime : float) (at_ : Time)
  : SolanaRPCClient :=
  {| URL := URL s;
     rateLimiter := rateLimiter s;
     cache := cache s;
     lastBlockTime := blockTime;
     lastBlockTimeCheck := at_ |}.

(** ** The upstream and the world *)

(** What the HTTP exchange of [makeRPCCall] hands back: the status code,
    [resp.Header.Get("Retry-After")] (empty when the header is absent), and
    the outcome of decoding the body into an [RPCResponse]: the struct as
    the decoder left it and the decoder's error, if any. *)
Record HTTPResponse : Type := {
  StatusCode : Z;
  RetryAfter : string;
  Body : RPCResponse;
  DecodeError : option error
}.

(** [PostFailed] stands for a non-nil error of [json.Marshal] or of
    [http.Post]: [makeRPCCall] returns [nil, err] on both. *)
Inductive PostOutcome : Type :=
  | PostFailed (e : error)
  | PostReplied (resp : HTTPResponse).

Record Exchange : Type := {
  latency : Duration;
  reply : PostOutcome
}.

(** Everything outside of the calling goroutine. [post n method params] is
    the upstream's answer to the [n]-th request of the run. [others t r] is
    the rate-limit ledger at the instant [t] at which the goroutine wakes up
    from a sleep, given the ledger [r] it left: the writes that concurrent
    callers of [updateRateLimit] made meanwhile. *)
Record Environment : Type := {
  post : nat -> string -> list iface -> Exchange;
  others : Time -> gmap string Time -> gmap string Time
}.

Record World : Type := {
  client : SolanaRPCClient;
  clock : Time;
  requests : nat
}.

(** What a run does that its caller can observe from outside. [Iteration]
    marks the entry of the loop body of [makeRPCCallWithRetry] with the
    value of [attempt]. [Spawn] is a [go] statement: the routine named is
    started and the caller goes on without waiting for it. *)
Inductive Event : Type :=
  | Iteration (attempt : Z)
  | Sleep (d : Duration)
  | Post (method : string) (outcome : OrError RPCResponse)
  | Spawn (routine : string).

(** State passing with a trace. *)
Definition M (A : Type) : Type := World -> A * World * list Event.

Definition ret {A} (a : A) : M A := fun w => (a, w, []).

Definition bind {A B} (m : M A) (k : A -> M B) : M B :=
  fun w =>
    let '(a, w1, t1) := m w in
    let '(b, w2, t2) := k a w1 in
    (b, w2, t1 ++ t2).

Notation "'let*' x ':=' m 'in' k" := (bind m (fun x => k))
  (at level 10, x name, m at level 100, k at level 200).
Notation "'run' m 'in' k" := (bind m (fun _ => k))
  (at level 10, m at level 100, k at level 200).

Definition emit (e : Event) : M unit := fun w => (tt, w, [e]).

Definition getClock : M Time := fun w => (clock w, w, []).

Definition getClient : M SolanaRPCClient := fun w => (client w, w, []).

Definition setClient (s : SolanaRPCClient) : M unit :=
  fun w => (tt, {| client := s; clock := clock w; requests := requests w |}, []).

Definition valueOf {A} (r : A * World * list Event) : A := fst (fst r).
Definition worldOf {A} (r : A * World * list Event) : World := snd (fst r).
Definition traceOf {A} (r : A * World * list Event) : list Event := snd r.

Section Client.

Variable timeParse : string -> string -> option Time.
Variable env : Environment.

(** [time.Sleep d] returns at once when [d <= 0]. *)
Definition timeSleep (d : Duration) : M unit :=
  fun w =>
    let t := clock w + Z.max 0 d in
    let s := client w in
    (tt,
     {| client := withRateLimiter s (others env t (rateLimiter s));
        clock := t;
        requests := requests w |},
     [Sleep d]).

(** *** Rate limiter *)

Definition checkRateLimit (method : string) : M bool :=
  let* s := getClient in
  let* t := getClock in
  match rateLimiter s !! method with
  | Some lastCall =>
      if Since t lastCall <? 2 * Second then ret false else ret true
  | None => ret true
  end.

Definition updateRateLimit (method : string) : M unit :=
  let* s := getClient in
  let* t := getClock in
  setClient (withRateLimiter s (<[method := t]> (rateLimiter s))).

(** *** Cache *)

Definition getFromCache (key : string) : M (iface * bool) :=
  let* s := getClient in
  let* t := getClock in
  match cache s !! key with
  | Some entry =>
      if After t (ExpiresAt entry) then ret (INil, false)
      else ret (Data entry, true)
  | None => ret (INil, false)
  end.

Definition setCache (key : string) (data : iface) (duration : Duration)
  : M unit :=
  let* s := getClient in
  let* t := getClock in
  setClient
    (withCache s
       (<[key := {| Data := data; ExpiresAt := Add t duration |}]> (cache s))).

(** *** Transport *)

(** [makeRPCCall]. The log lines of the 429 branch have no effect on the
    result and are left out. *)
Definition makeRPCCall (method : string) (params : list iface)
  : M (OrError RPCResponse) :=
  fun w =>
    let x := post env (requests w) method params in
    let w1 := {| client := client w;
                 clock := clock w + Z.max 0 (latency x);
                 requests := S (requests w) |} in
    let out :=
      match reply x with
      | PostFailed e => Err e
      | PostReplied resp =>
          if StatusCode resp =? 429 then
            let retryAfter := RetryAfter resp in
            let rpcResp := Body resp in
            match DecodeError resp with
            | None =>
                match Error rpcResp with
                | IMap errorMap =>
                    if negb (String.eqb retryAfter "") then
                      Ok {| Result := Result rpcResp;
                            Error := IMap (<["retryAfter" := IString retryAfter]>
                                             errorMap) |}
                    else Ok rpcResp
                | _ => Ok rpcResp
                end
            | Some _ => Ok rpcResp
            end
          else
            match DecodeError resp with
            | Some e => Err e
            | None => Ok (Body resp)
            end
      end in
    (out, w1, [Post method out]).

(** *** Retrying caller *)

Definition maxRetries : Z := 3.
Definition baseDelay : Duration := 1 * Second.

(** [time.Duration(float64(baseDelay) * math.Pow(2, float64(n)))]. *)
Definition backoff (n : Z) : Duration :=
  Float64.toInt64 (PrimFloat.mul (Float64.ofInt baseDelay) (Float64.pow2 n)).

(** How one pass through the loop body ends. *)
Inductive Flow : Type :=
  | Continue
  | Return (r : OrError RPCResponse).

(** [code, exists := errorMap["code"]; exists && code == float64(429)] *)
Definition codeIs429 (errorMap : gmap string iface) : bool :=
  match errorMap !! "code" with
  | Some (IFloat64 code) => PrimFloat.eqb code 429%float
  | _ => false
  end.

(** The delay of the 429 branch, lines 239 to 251. *)
Definition throttleDelay (errorMap : gmap string iface) (attempt : Z)
  : M Duration :=
  match errorMap !! "retryAfter" with
  | Some (IString retryAfter) =>
      let* t := getClock in
      match parseRetryAfter timeParse t retryAfter with
      | Ok parsedDelay => ret parsedDelay
      | Err _ => ret (backoff (attempt + 1))
      end
  | _ => ret (backoff (attempt + 1))
  end.

(** The loop body from line 223 on: what follows
    [resp, err := s.makeRPCCall(method, params)]. *)
Definition settle (attempt : Z) (r : OrError RPCResponse) : M Flow :=
  match r with
  | Err err =>
      if attempt =? maxRetries - 1 then ret (Return (Err err))
      else
        let delay := backoff attempt in
        run timeSleep delay in
        ret Continue
  | Ok resp =>
      match Error resp with
      | IMap errorMap =>
          if codeIs429 errorMap then
            if attempt =? maxRetries - 1 then ret (Return (Ok resp))
            else
              let* delay := throttleDelay errorMap attempt in
              run timeSleep delay in
              ret Continue
          else ret (Return (Ok resp))
      | _ => ret (Return (Ok resp))
      end
  end.

(** The body of the [for] loop of [makeRPCCallWithRetry]. *)
Definition iteration (method : string) (params : list iface) (attempt : Z)
  : M Flow :=
  run emit (Iteration attempt) in
  let* eligible := checkRateLimit method in
  if negb eligible then
    run timeSleep (2 * Second) in
    ret Continue
  else
    run updateRateLimit method in
    let* r := makeRPCCall method params in
    settle attempt r.

(** [for attempt := 0; attempt < maxRetries; attempt++]: [remaining] is
    [maxRetries - attempt], and a [continue] runs the post statement
    [attempt++] as every pass does. *)
Fixpoint retryLoop (method : string) (params : list iface) (remaining : nat)
  : M (OrError RPCResponse) :=
  match remaining with
  | O => ret (Err "max retries exceeded")
  | S rest =>
      let attempt := maxRetries - Z.of_nat remaining in
      let* flow := iteration method params attempt in
      match flow with
      | Return r => ret r
      | Continue => retryLoop method params rest
      end
  end.

Definition makeRPCCallWithRetry (method : string) (params : list iface)
  : M (OrError RPCResponse) :=
  retryLoop method params (Z.to_nat maxRetries).

(** *** Chain height *)

Definition GetSlot : M (OrError Z) :=
  let* r := makeRPCCall "getSlot" [] in
  match r with
  | Err err => ret (Err err)
  | Ok resp =>
      match Result resp with
      | IFloat64 slot => ret (Ok (Float64.toUint64 slot))
      | _ => ret (Err "invalid slot response")
      end
  end.

(** *** Block-time estimator *)

(** The guard of line 396. *)
Definition plausible (blockTime : float) : bool :=
  Float64.ge blockTime 0.1%float && Float64.le blockTime 2.0%float.

Definition updateBlockTimeInBackground : M unit :=
  let* r1 := GetSlot in
  match r1 with
  | Err _ => ret tt
  | Ok currentSlot =>
      run timeSleep (3 * Second) in
      let* r2 := GetSlot in
      match r2 with
      | Err _ => ret tt
      | Ok laterSlot =>
          if laterSlot <=? currentSlot then ret tt
          else
            let slotDifference :=
              Float64.ofInt ((laterSlot - currentSlot) mod 2 ^ 64) in
            let timeDifference := 3.0%float in
            let blockTime := PrimFloat.div timeDifference slotDifference in
            if plausible blockTime then
              let* s := getClient in
              let* t := getClock in
              setClient (withBlockTime s blockTime t)
            else ret tt
      end
  end.

(** [GetCachedBlockTime]. When the estimate is not fresh, line 361 starts a
    run of the estimator with [go s.updateBlockTimeInBackground()]: the
    reader records the start and reads the estimate again without waiting.
    The run writes the estimate, if at all, after its two requests and its
    wait of 3 s, so the second reading sees what the first one saw. *)
Definition GetCachedBlockTime : M float :=
  let* s := getClient in
  let* t := getClock in
  if (Since t (lastBlockTimeCheck s) <? 30 * Second)
     && Float64.gt (lastBlockTime s) 0%float
  then ret (lastBlockTime s)
  else
    run emit (Spawn "updateBlockTimeInBackground") in
    let* s := getClient in
    if Float64.gt (lastBlockTime s) 0%float then ret (lastBlockTime s)
    else ret 0.4%float.

(** The routines that a trace started, carried out one after the other once
    the caller is done. The estimator is the only routine that the backend
    starts with [go]. *)
Fixpoint background (t : list Event) : M unit :=
  match t with
  | [] => ret tt
  | Spawn _ :: rest =>
      run updateBlockTimeInBackground in
      background rest
  | _ :: rest => background rest
  end.

End Client.

(** ** Metrics aggregator *)

(** The body of the loop of [calculateTPS]. *)
Definition addSample (totalTPS : float) (sample : gmap string iface) : float :=
  match sample !! "numTransactions" with
  | Some (IFloat64 numTransactions) =>
      match sample !! "samplePeriodSecs" with
      | Some (IFloat64 samplePeriodSecs) =>
          if Float64.gt samplePeriodSecs 0%float
          then PrimFloat.add totalTPS (PrimFloat.div numTransactions samplePeriodSecs)
          else totalTPS
      | _ => totalTPS
      end
  | _ => totalTPS
  end.

Definition calculateTPS (samples : list (gmap string iface)) : float :=
  if (Z.of_nat (length samples) =? 0) then 0%float
  else
    let totalTPS := fold_left addSample samples 0%float in
    PrimFloat.div totalTPS (Float64.ofInt (Z.of_nat (length samples))).

(** [v, _ := m[key].(float64)]: the zero value when the assertion fails. *)
Definition float64Field (m : gmap string iface) (key : string) : float :=
  match m !! key with
  | Some (IFloat64 v) => v
  | _ => 0%float
  end.

(** A float64 computation together with the divisors of the divisions it
    evaluated, in order. *)
Definition Divided (A : Type) : Type := A * list float.

Definition quotient (a b : float) : Divided float := (PrimFloat.div a b, [b]).

(** Lines 675 to 678 of the [/api/metrics] handler. *)
Definition epochProgress (slotIndex slotsInEpoch : float) : Divided float :=
  if Float64.gt slotsInEpoch 0%float then
    let '(q, ds) := quotient slotIndex slotsInEpoch in
    (PrimFloat.mul q 100%float, ds)
  else (0%float, []).

Definition epochProgressOf (epochInfo : gmap string iface) : Divided float :=
  let slotIndex := float64Field epochInfo "slotIndex" in
  let slotsInEpoch := float64Field epochInfo "slotsInEpoch" in
  epochProgress slotIndex slotsInEpoch.

(** Lines 680 to 689 of the [/api/metrics] handler. *)
Definition networkHealth (tps : float) (validatorCount : Z) : string :=
  if Float64.gt tps 100%float && (1000 <? validatorCount) then "Healthy"
  else if Float64.gt tps 50%float && (500 <? validatorCount) then "Good"
  else if Float64.gt tps 10%float then "Fair"
  else "Poor".

(** ** The documented reading of the parser and of the metric rules *)

(** The wait a date form may return: strictly positive, at most 5 minutes. *)
Definition acceptableWait (d : Duration) : bool :=
  (0 <? d) && (d <=? 5 * Minute).

(** Form 1: a plain integer of seconds, with the upper clamp. *)
Definition integerForm (s : string) : option Duration :=
  match Atoi s with
  | Some n => Some (Z.min (GoInt.mul64 n Second) (5 * Minute))
  | None => None
  end.

(** Forms 2 and 3: a date in the given layout, under the acceptance rule. *)
Definition dateForm (timeParse : string -> string -> option Time) (now : Time)
  (layout s : string) : option Duration :=
  match timeParse layout s with
  | Some t => if acceptableWait (Until now t) then Some (Until now t) else None
  | None => None
  end.

Definition retryAfterForms (timeParse : string -> string -> option Time)
  (now : Time) : list (string -> option Duration) :=
  integerForm :: dateForm timeParse now RFC1123
    :: map (dateForm timeParse now) fallbackFormats.

(** The first form of the list that succeeds wins. *)
Fixpoint firstSuccess (forms : list (string -> option Duration)) (s : string)
  : option Duration :=
  match forms with
  | [] => None
  | form :: rest =>
      match form s with
      | Some d => Some d
      | None => firstSuccess rest s
      end
  end.

(** The health rules in the order of evaluation; the first rule whose
    condition holds gives the label, "Poor" when none does. *)
Definition healthRules : list ((float -> Z -> bool) * string) :=
  [ (fun tps validators => Float64.gt tps 100%float && (1000 <? validators),
     "Healthy");
    (fun tps validators => Float64.gt tps 50%float && (500 <? validators),
     "Good");
    (fun tps _ => Float64.gt tps 10%float, "Fair") ].

Fixpoint firstMatch (rules : list ((float -> Z -> bool) * string))
  (tps : float) (validators : Z) : string :=
  match rules with
  | [] => "Poor"
  | (holds, label) :: rest =>
      if holds tps validators then label else firstMatch rest tps validators
  end.

(** The rate of a sample: transactions over period, for a sample that has
    both numbers and a positive period. *)
Definition sampleRate (sample : gmap string iface) : option float :=
  match sample !! "numTransactions", sample !! "samplePeriodSecs" with
  | Some (IFloat64 numTransactions), Some (IFloat64 samplePeriodSecs) =>
      if Float64.gt samplePeriodSecs 0%float
      then Some (PrimFloat.div numTransactions samplePeriodSecs)
      else None
  | _, _ => None
  end.

Definition sumFloats (l : list float) : float := fold_left PrimFloat.add l 0%float.

(** The average of the rates over the samples that have a rate. *)
Definition averageOfValidRates (samples : list (gmap string iface)) : float :=
  match samples with
  | [] => 0%float
  | _ =>
      let rates := omap sampleRate samples in
      PrimFloat.div (sumFloats rates) (Float64.ofInt (Z.of_nat (length rates)))
  end.

(** The sum of the rates over the number of all samples of the window. *)
Definition sumOfRatesOverWindow (samples : list (gmap string iface)) : float :=
  match samples with
  | [] => 0%float
  | _ =>
      PrimFloat.div (sumFloats (omap sampleRate samples))
        (Float64.ofInt (Z.of_nat (length samples)))
  end.

(** ** Reading a trace *)

(** The outcomes of the requests of a trace, in order. *)
Definition posts (t : list Event) : list (OrError RPCResponse) :=
  omap (fun e => match e with Post _ out => Some out | _ => None end) t.

(** The values of [attempt] with which the loop body was entered. *)
Definition iterations (t : list Event) : list Z :=
  omap (fun e => match e with Iteration attempt => Some attempt | _ => None end) t.

(** The passes that went to sleep right away: the rate-limited ones, as a
    dispatching pass makes its request first. *)
Fixpoint rateLimitedPasses (t : list Event) : nat :=
  match t with
  | [] => O
  | Iteration _ :: rest =>
      match rest with
      | Sleep _ :: _ => S (rateLimitedPasses rest)
      | _ => rateLimitedPasses rest
      end
  | _ :: rest => rateLimitedPasses rest
  end.

(** The outcome of the request made in the pass numbered [attempt]. *)
Fixpoint postOf (attempt : Z) (t : list Event) : option (OrError RPCResponse) :=
  match t with
  | [] => None
  | Iteration a :: rest =>
      if a =? attempt then
        match rest with
        | Post _ out :: _ => Some out
        | _ => None
        end
      else postOf attempt rest
  | _ :: rest => postOf attempt rest
  end.

(** [l] counts up from [a] in steps of one. *)
Fixpoint countsFrom (a : Z) (l : list Z) : Prop :=
  match l with
  | [] => True
  | x :: rest => x = a /\ countsFrom (a + 1) rest
  end.

(** A JSON-RPC response whose error object has the numeric code 429. *)
Definition isThrottled (resp : RPCResponse) : bool :=
  match Error resp with
  | IMap errorMap => codeIs429 errorMap
  | _ => false
  end.

(** The outcomes after which the loop goes on when attempts remain. *)
Definition retryable (out : OrError RPCResponse) : bool :=
  match out with
  | Err _ => true
  | Ok resp => isThrottled resp
  end.

(** The runs of the loop from the pass [attempt] on with [remaining] passes
    left, as a trace and a result. *)
Inductive Passes (method : string)
  : Z -> nat -> list Event -> OrError RPCResponse -> Prop :=
  | PassesExhausted attempt :
      Passes method attempt 0 [] (Err "max retries exceeded")
  | PassesRateLimited attempt remaining t r :
      Passes method (attempt + 1) remaining t r ->
      Passes method attempt (S remaining)
        (Iteration attempt :: Sleep (2 * Second) :: t) r
  | PassesReturned attempt remaining out :
      attempt = maxRetries - 1 \/ retryable out = false ->
      Passes method attempt (S remaining)
        [Iteration attempt; Post method out] out
  | PassesBackedOff attempt remaining out delay t r :
      attempt <> maxRetries - 1 ->
      retryable out = true ->
      Passes method (attempt + 1) remaining t r ->
      Passes method attempt (S remaining)
        (Iteration attempt :: Post method out :: Sleep delay :: t) r.

(** ** The life of a client *)

(** The same world at a later (or other) reading of the clock. *)
Definition atTime (t : Time) (w : World) : World :=
  {| client := client w; clock := t; requests := requests w |}.

(** The published block-time pair of [s'] is the one of [s]. *)
Definition sameEstimate (s s' : SolanaRPCClient) : Prop :=
  lastBlockTime s' = lastBlockTime s
  /\ lastBlockTimeCheck s' = lastBlockTimeCheck s.

(** The worlds a client lives through: it is built by [NewSolanaClient],
    and then estimator runs, calls, cache writes and ledger writes follow
    one another in any order while the clock moves on. *)
Inductive Reachable (timeParse : string -> string -> option Time)
  (env : Environment) : World -> Prop :=
  | ReachNew url t :
      Reachable timeParse env
        {| client := NewSolanaClient url; clock := t; requests := 0 |}
  | ReachEstimate w :
      Reachable timeParse env w ->
      Reachable timeParse env (worldOf (updateBlockTimeInBackground env w))
  | ReachRetry method params w :
      Reachable timeParse env w ->
      Reachable timeParse env
        (worldOf (makeRPCCallWithRetry timeParse env method params w))
  | ReachCall method params w :
      Reachable timeParse env w ->
      Reachable timeParse env (worldOf (makeRPCCall env method params w))
  | ReachSetCache key data duration w :
      Reachable timeParse env w ->
      Reachable timeParse env (worldOf (setCache key data duration w))
  | ReachUpdateRateLimit method w :
      Reachable timeParse env w ->
      Reachable timeParse env (worldOf (updateRateLimit method w))
  | ReachSleep d w :
      Reachable timeParse env w ->
      Reachable timeParse env (worldOf (timeSleep env d w))
  | ReachLater t w :
      Reachable timeParse env w ->
      clock w <= t ->
      Reachable timeParse env (atTime t w).

(** ** Concrete environments *)

(** A [time.Parse] that knows one RFC1123 date, the Unix epoch. *)
Definition epochOnly (layout s : string) : option Time :=
  if String.eqb layout RFC1123
     && String.eqb s "Thu, 01 Jan 1970 00:00:00 GMT"
  then Some 0
  else None.

Definition perfSample (numTransactions samplePeriodSecs : float)
  : gmap string iface :=
  <["numTransactions" := IFloat64 numTransactions]>
    (<["samplePeriodSecs" := IFloat64 samplePeriodSecs]> ∅).

(** The window of the TPS example. *)
Definition steadyWindow : list (gmap string iface) :=
  [perfSample 100%float 10%float; perfSample 50%float 5%float].

(** A window whose second sample has no positive period. *)
Definition gappyWindow : list (gmap string iface) :=
  [perfSample 100%float 10%float; perfSample 50%float 0%float].

(** A client that has just been built, at the instant [t]. *)
Definition freshWorld (t : Time) : World :=
  {| client := NewSolanaClient "https://api.mainnet-beta.solana.com";
     clock := t;
     requests := 0 |}.

(** An upstream that refuses every connection after [lag]; no concurrent
    callers. *)
Definition unreachable (lag : Duration) : Environment :=
  {| post := fun _ _ _ =>
               {| latency := lag; reply := PostFailed "connection refused" |};
     others := fun _ ledger => ledger |}.

(** The JSON-RPC body of a throttling upstream. *)
Definition throttledResponse : RPCResponse :=
  {| Result := INil;
     Error := IMap (<["code" := IFloat64 429%float]>
                      (<["message" := IString "Too many requests"]> ∅)) |}.

(** An upstream that answers every request at once with HTTP 429, the
    given Retry-After header and the body [throttledResponse]. *)
Definition throttling (retryAfter : string) : Environment :=
  {| post := fun _ _ _ =>
               {| latency := 0;
                  reply := PostReplied {| StatusCode := 429;
                                          RetryAfter := retryAfter;
                                          Body := throttledResponse;
                                          DecodeError := None |} |};
     others := fun _ ledger => ledger |}.

(** One nanosecond after a dispatch of "getSlot" on a new client. *)
Definition justCalled : World :=
  atTime 1 (worldOf (updateRateLimit "getSlot" (freshWorld 0))).

(** A node that answers the [n]-th request at once with the slot
    [height n]. *)
Definition node (height : nat -> float) : Environment :=
  {| post := fun n _ _ =>
               {| latency := 0;
                  reply := PostReplied
                             {| StatusCode := 200;
                                RetryAfter := "";
                                Body := {| Result := IFloat64 (height n);
                                           Error := INil |};
                                DecodeError := None |} |};
     others := fun _ ledger => ledger |}.

(** Slot 1000 at the first request and [1000 + delta] at the second. *)
Definition advancing (delta : float) (n : nat) : float :=
  match n with
  | O => 1000%float
  | S _ => PrimFloat.add 1000%float delta
  end.

(** ** Queries of the access layer *)

(** Type assertions on an [interface{}]: [v.(map[string]interface{})]. *)
Definition asMap (v : iface) : option (gmap string iface) :=
  match v with
  | IMap m => Some m
  | _ => None
  end.

(** [v != nil]. *)
Definition notNil (v : iface) : bool :=
  match v with
  | INil => false
  | _ => true
  end.

(** [v, _ := m[key].(bool)] and [v, _ := m[key].(string)]. *)
Definition boolField (m : gmap string iface) (key : string) : bool :=
  match m !! key with
  | Some (IBool v) => v
  | _ => false
  end.

Definition stringField (m : gmap string iface) (key : string) : string :=
  match m !! key with
  | Some (IString v) => v
  | _ => ""
  end.

(** [m[key]]: the nil interface when the key is missing. *)
Definition index (m : gmap string iface) (key : string) : iface :=
  default INil (m !! key).

(** A Go value of the static type [[]map[string]interface{}] that is held
    by an [interface{}], as the cache holds the lists of samples and of token
    holders: the slice of its maps. [asMaps] is the type assertion
    [v.([]map[string]interface{})] on such a value. *)
Definition mapsValue (l : list (gmap string iface)) : iface :=
  ISlice (IMap <$> l).

Definition asMaps (v : iface) : option (list (gmap string iface)) :=
  match v with
  | ISlice l => mapM asMap l
  | _ => None
  end.

(** [strconv.ParseUint(s, 10, 64)]: one or more decimal digits, no sign,
    and the value has to fit 64 bits. *)
Definition ParseUint (s : string) : option Z :=
  match s with
  | EmptyString => None
  | _ =>
      match Strconv.digits s 0 with
      | Some n => if n <? 2 ^ 64 then Some n else None
      | None => None
      end
  end.

Record AccountInfo : Type := {
  Address : string;
  Balance : float;
  Executable : bool;
  Owner : string;
  RentEpoch : Z;
  Lamports : Z;
  DataLength : Z;
  IsValid : bool
}.

(** [&AccountInfo{Address: address, IsValid: false}] *)
Definition invalidAccount (address : string) : AccountInfo :=
  {| Address := address;
     Balance := 0%float;
     Executable := false;
     Owner := "";
     RentEpoch := 0;
     Lamports := 0;
     DataLength := 0;
     IsValid := false |}.

Module TokenInfo.

Record t : Type := {
  MintAddress : string;
  Supply : Z;
  Decimals : Z;
  IsInitialized : bool;
  FreezeAuthority : option string;
  MintAuthority : option string;
  IsValid : bool;
  ActualSupply : float
}.

(** [&TokenInfo{MintAddress: mintAddress, IsValid: false}] *)
Definition invalid (mintAddress : string) : t :=
  {| MintAddress := mintAddress;
     Supply := 0;
     Decimals := 0;
     IsInitialized := false;
     FreezeAuthority := None;
     MintAuthority := None;
     IsValid := false;
     ActualSupply := 0%float |}.

Definition initialized (info : t) : t :=
  {| MintAddress := MintAddress info;
     Supply := Supply info;
     Decimals := Decimals info;
     IsInitialized := true;
     FreezeAuthority := FreezeAuthority info;
     MintAuthority := MintAuthority info;
     IsValid := IsValid info;
     ActualSupply := ActualSupply info |}.

End TokenInfo.

(** [fmt.Sprintf("token_holders_%s_%d", mintAddress, limit)] *)
Definition holdersKey (mintAddress : string) (limit : Z) : string :=
  String.append "token_holders_"
    (String.append mintAddress (String.append "_" (pretty limit))).

(** [fmt.Sprintf("performance_%s_%d", timeRange, limit)] *)
Definition performanceKey (timeRange : string) (limit : Z) : string :=
  String.append "performance_"
    (String.append timeRange (String.append "_" (pretty limit))).

(** Whether the character [c] occurs in [s]; used to tell the fields of a
    cache key apart. *)
Fixpoint mentions (c : ascii) (s : string) : bool :=
  match s with
  | EmptyString => false
  | String c' rest => Ascii.eqb c c' || mentions c rest
  end.

(** The entry of a token holder, lines 593 to 601. *)
Definition holderOf (accountMap : gmap string iface) : gmap string iface :=
  <["address" := index accountMap "address"]>
    (<["balance" :=
         IMap (<["address" := index accountMap "address"]>
                 (<["amount" := index accountMap "amount"]>
                    (<["decimals" := index accountMap "decimals"]>
                       (<["uiAmount" := index accountMap "uiAmount"]> ∅))))]> ∅).

(** The loop of [GetTokenAccountsByMint], lines 588 to 604; [i] is the
    index of the head of [value]. *)
Fixpoint collectHolders (limit i : Z) (value : list iface)
  : list (gmap string iface) :=
  match value with
  | [] => []
  | account :: rest =>
      if limit <=? i then []
      else
        match account with
        | IMap accountMap =>
            holderOf accountMap :: collectHolders limit (i + 1) rest
        | _ => collectHolders limit (i + 1) rest
        end
  end.

Section Queries.

Variable timeParse : string -> string -> option Time.
Variable env : Environment.

(** The verb [%v] of package fmt on a dynamic value. *)
Variable formatValue : iface -> string.

(** [math.Pow]. *)
Variable mathPow : float -> float -> float.

Definition GetEpochInfo : M (OrError (gmap string iface)) :=
  let* r := makeRPCCall env "getEpochInfo" [] in
  match r with
  | Err err => ret (Err err)
  | Ok resp =>
      match Result resp with
      | IMap epochInfo => ret (Ok epochInfo)
      | _ => ret (Err "invalid epoch info response")
      end
  end.

Definition GetValidatorCount : M (OrError Z) :=
  let* r := makeRPCCall env "getVoteAccounts" [] in
  match r with
  | Err err => ret (Err err)
  | Ok resp =>
      match Result resp with
      | IMap voteAccounts =>
          match voteAccounts !! "current" with
          | Some (ISlice current) => ret (Ok (Z.of_nat (length current)))
          | _ => ret (Err "invalid current validators")
          end
      | _ => ret (Err "invalid vote accounts response")
      end
  end.

(** [GetPerformanceSamples]; the [int] of [[]interface{}{limit}] travels as
    its JSON number. *)
Definition GetPerformanceSamples (limit : Z)
  : M (OrError (list (gmap string iface))) :=
  let params := [IFloat64 (Float64.ofInt limit)] in
  let* r := makeRPCCall env "getRecentPerformanceSamples" params in
  match r with
  | Err err => ret (Err err)
  | Ok resp =>
      match Result resp with
      | ISlice samples => ret (Ok (omap asMap samples))
      | _ => ret (Err "invalid performance samples response")
      end
  end.

Definition GetAccountInfo (address : string) : M (OrError AccountInfo) :=
  let params := [IString address] in
  let* r := makeRPCCall env "getAccountInfo" params in
  match r with
  | Err err => ret (Err err)
  | Ok resp =>
      if notNil (Error resp) then ret (Ok (invalidAccount address))
      else if negb (notNil (Result resp)) then ret (Ok (invalidAccount address))
      else
        match Result resp with
        | IMap result =>
            match result !! "value" with
            | Some (IMap value) =>
                let lamports := float64Field value "lamports" in
                let executable := boolField value "executable" in
                let owner := stringField value "owner" in
                let rentEpoch := float64Field value "rentEpoch" in
                let dataLength :=
                  match value !! "data" with
                  | Some (ISlice (IString dataStr :: _)) =>
                      Z.of_nat (String.length dataStr)
                  | _ => 0
                  end in
                let balance := PrimFloat.div lamports 1e9%float in
                ret (Ok {| Address := address;
                           Balance := balance;
                           Executable := executable;
                           Owner := owner;
                           RentEpoch := Float64.toUint64 rentEpoch;
                           Lamports := Float64.toUint64 lamports;
                           DataLength := dataLength;
                           IsValid := true |})
            | _ => ret (Ok (invalidAccount address))
            end
        | _ => ret (Ok (invalidAccount address))
        end
  end.

Definition GetBalance (address : string) : M (OrError float) :=
  let params := [IString address] in
  let* r := makeRPCCall env "getBalance" params in
  match r with
  | Err err => ret (Err err)
  | Ok resp =>
      if notNil (Error resp)
      then ret (Err (String.append "RPC error: " (formatValue (Error resp))))
      else
        match Result resp with
        | IMap result =>
            match result !! "value" with
            | Some (IFloat64 value) => ret (Ok (PrimFloat.div value 1e9%float))
            | _ => ret (Err "invalid balance value")
            end
        | _ => ret (Err "invalid balance response")
        end
  end.

Definition GetTokenSupply (mintAddress : string) : M (OrError TokenInfo.t) :=
  let params := [IString mintAddress] in
  let* r := makeRPCCall env "getTokenSupply" params in
  match r with
  | Err err => ret (Err err)
  | Ok resp =>
      if notNil (Error resp) then ret (Ok (TokenInfo.invalid mintAddress))
      else
        match Result resp with
        | IMap result =>
            match result !! "value" with
            | Some (IMap value) =>
                let amount := stringField value "amount" in
                let decimals := float64Field value "decimals" in
                let supply :=
                  match ParseUint amount with
                  | Some n => n
                  | None => 0
                  end in
                let actualSupply :=
                  PrimFloat.div (Float64.ofInt supply)
                    (mathPow 10%float decimals) in
                let tokenInfo :=
                  {| TokenInfo.MintAddress := mintAddress;
                     TokenInfo.Supply := supply;
                     TokenInfo.Decimals := Float64.toInt64 decimals;
                     TokenInfo.IsInitialized := false;
                     TokenInfo.FreezeAuthority := None;
                     TokenInfo.MintAuthority := None;
                     TokenInfo.IsValid := true;
                     TokenInfo.ActualSupply := actualSupply |} in
                let* mintAccountInfo := GetAccountInfo mintAddress in
                match mintAccountInfo with
                | Ok info =>
                    if IsValid info
                    then ret (Ok (TokenInfo.initialized tokenInfo))
                    else ret (Ok tokenInfo)
                | Err _ => ret (Ok tokenInfo)
                end
            | _ => ret (Ok (TokenInfo.invalid mintAddress))
            end
        | _ => ret (Ok (TokenInfo.invalid mintAddress))
        end
  end.

(** [GetTokenAccountsByMint]. The log lines are left out; the empty slice of
    the failure paths and the nil slice of a result without holders are both
    the empty list. *)
Definition GetTokenAccountsByMint (mintAddress : string) (limit : Z)
  : M (OrError (list (gmap string iface))) :=
  let cacheKey := holdersKey mintAddress limit in
  let* c := getFromCache cacheKey in
  match (if snd c then asMaps (fst c) else None) with
  | Some holders => ret (Ok holders)
  | None =>
      let* eligible := checkRateLimit "getTokenLargestAccounts" in
      if negb eligible then ret (Ok [])
      else
        let params := [IString mintAddress] in
        let* r := makeRPCCallWithRetry timeParse env
                    "getTokenLargestAccounts" params in
        match r with
        | Err _ => ret (Ok [])
        | Ok resp =>
            if notNil (Error resp) then ret (Ok [])
            else
              match Result resp with
              | IMap result =>
                  match result !! "value" with
                  | Some (ISlice value) =>
                      let tokenHolders := collectHolders limit 0 value in
                      run setCache cacheKey (mapsValue tokenHolders)
                            (5 * Minute) in
                      ret (Ok tokenHolders)
                  | _ => ret (Ok [])
                  end
              | _ => ret (Ok [])
              end
        end
  end.

End Queries.

(** ** The handlers of [main] *)

Record SolanaMetrics : Type := {
  TPS : float;
  AverageBlockTime : float;
  CurrentSlot : Z;
  Epoch : Z;
  ValidatorCount : Z;
  Timestamp : Time;
  EpochProgress : float;
  SlotsInEpoch : Z;
  SlotIndex : Z;
  NetworkHealth : string;
  ConnectionStatus : string
}.

(** [encoding/json] refuses a float64 that is NaN or infinite. *)
Definition encodable (f : float) : bool := PrimFloat.is_finite f.

(** What a handler hands to [c.JSON]: the status and the object.
    [Unencodable] stands for an object that [encoding/json] refuses, so that
    no JSON body is written. The backend computes the floats of the metrics
    and of a token itself, and they can leave the finite range; the floats
    that it passes on from a decoded reply are finite. *)
Inductive Payload : Type :=
  | Unencodable
  | ErrorPayload (message : string)
  | MetricsPayload (metrics : SolanaMetrics)
  | PerformancePayload (samples : list (gmap string iface))
      (timeRange : string) (limit : Z) (cached : bool)
  | AccountPayload (account : AccountInfo)
  | BalancePayload (address : string) (balance : float)
  | TokenPayload (token : TokenInfo.t)
  | HoldersPayload (mintAddress : string)
      (holders : list (gmap string iface)).

Record Response : Type := {
  Status : Z;
  Body_ : Payload
}.

(** The floats of a [SolanaMetrics]. *)
Definition encodableMetrics (m : SolanaMetrics) : bool :=
  encodable (TPS m) && encodable (AverageBlockTime m)
  && encodable (EpochProgress m).

Definition StatusOK : Z := 200.
Definition StatusBadRequest : Z := 400.
Definition StatusInternalServerError : Z := 500.

(** [c.DefaultQuery(key, defaultValue)] on the query string of the request. *)
Definition DefaultQuery (query : gmap string string) (key defaultValue : string)
  : string :=
  default defaultValue (query !! key).

(** The [limit] of [/api/performance], lines 712 to 737. *)
Definition performanceLimit (timeRange limitStr : string) : Z :=
  let limit :=
    if negb (String.eqb limitStr "") then
      match Atoi limitStr with
      | Some n => n
      | None => 50
      end
    else if String.eqb timeRange "5m" then 5
    else if String.eqb timeRange "20m" then 20
    else if String.eqb timeRange "1h" then 60
    else if String.eqb timeRange "6h" then 360
    else 20 in
  if 360 <? limit then 360 else limit.

(** The [cacheDuration] of [/api/performance], lines 759 to 771. *)
Definition performanceCacheDuration (timeRange : string) : Duration :=
  if String.eqb timeRange "5m" then 15 * Second
  else if String.eqb timeRange "20m" then 30 * Second
  else if String.eqb timeRange "1h" then 1 * Minute
  else if String.eqb timeRange "6h" then 2 * Minute
  else 30 * Second.

Section Handlers.

Variable timeParse : string -> string -> option Time.
Variable env : Environment.
Variable formatValue : iface -> string.
Variable mathPow : float -> float -> float.

(** [GET /api/metrics]. *)
Definition metricsHandler : M Response :=
  let* r1 := GetSlot env in
  match r1 with
  | Err _ =>
      ret {| Status := StatusInternalServerError;
             Body_ := ErrorPayload "Failed to get slot" |}
  | Ok slot =>
      let* r2 := GetEpochInfo env in
      match r2 with
      | Err _ =>
          ret {| Status := StatusInternalServerError;
                 Body_ := ErrorPayload "Failed to get epoch info" |}
      | Ok epochInfo =>
          let* r3 := GetValidatorCount env in
          match r3 with
          | Err _ =>
              ret {| Status := StatusInternalServerError;
                     Body_ := ErrorPayload "Failed to get validator count" |}
          | Ok validatorCount =>
              let* r4 := GetPerformanceSamples env 150 in
              match r4 with
              | Err _ =>
                  ret {| Status := StatusInternalServerError;
                         Body_ :=
                           ErrorPayload "Failed to get performance samples" |}
              | Ok samples =>
                  let tps := calculateTPS samples in
                  let* avgBlockTime := GetCachedBlockTime in
                  let epoch := float64Field epochInfo "epoch" in
                  let slotIndex := float64Field epochInfo "slotIndex" in
                  let slotsInEpoch := float64Field epochInfo "slotsInEpoch" in
                  let progress := fst (epochProgress slotIndex slotsInEpoch) in
                  let health := networkHealth tps validatorCount in
                  let* t := getClock in
                  let metrics :=
                    {| TPS := tps;
                       AverageBlockTime := avgBlockTime;
                       CurrentSlot := slot;
                       Epoch := Float64.toUint64 epoch;
                       ValidatorCount := validatorCount;
                       Timestamp := t;
                       EpochProgress := progress;
                       SlotsInEpoch := Float64.toUint64 slotsInEpoch;
                       SlotIndex := Float64.toUint64 slotIndex;
                       NetworkHealth := health;
                       ConnectionStatus := "Connected" |} in
                  ret {| Status := StatusOK;
                         Body_ := if encodableMetrics metrics
                                  then MetricsPayload metrics
                                  else Unencodable |}
              end
          end
      end
  end.


(** [GET /api/account/:address]. *)
Definition accountHandler (address : string) : M Response :=
  if String.eqb address "" then
    ret {| Status := StatusBadRequest;
           Body_ := ErrorPayload "Address parameter is required" |}
  else
    let* r := GetAccountInfo env address in
    match r with
    | Err _ =>
        ret {| Status := StatusInternalServerError;
               Body_ := ErrorPayload "Failed to get account info" |}
    | Ok accountInfo =>
        ret {| Status := StatusOK; Body_ := AccountPayload accountInfo |}
    end.

(** [GET /api/balance/:address]. *)
Definition balanceHandler (address : string) : M Response :=
  if String.eqb address "" then
    ret {| Status := StatusBadRequest;
           Body_ := ErrorPayload "Address parameter is required" |}
  else
    let* r := GetBalance env formatValue address in
    match r with
    | Err _ =>
        ret {| Status := StatusInternalServerError;
               Body_ := ErrorPayload "Failed to get balance" |}
    | Ok balance =>
        ret {| Status := StatusOK; Body_ := BalancePayload address balance |}
    end.

(** [GET /api/token/:mintAddress]. *)
Definition tokenHandler (mintAddress : string) : M Response :=
  if String.eqb mintAddress "" then
    ret {| Status := StatusBadRequest;
           Body_ := ErrorPayload "Mint address parameter is required" |}
  else
    let* r := GetTokenSupply env mathPow mintAddress in
    match r with
    | Err _ =>
        ret {| Status := StatusInternalServerError;
               Body_ := ErrorPayload "Failed to get token info" |}
    | Ok tokenInfo =>
        ret {| Status := StatusOK;
               Body_ := if encodable (TokenInfo.ActualSupply tokenInfo)
                        then TokenPayload tokenInfo
                        else Unencodable |}
    end.

(** [GET /api/token/:mintAddress/holders]. *)
Definition holdersHandler (mintAddress : string) (query : gmap string string)
  : M Response :=
  if String.eqb mintAddress "" then
    ret {| Status := StatusBadRequest;
           Body_ := ErrorPayload "Mint address parameter is required" |}
  else
    let limitStr := DefaultQuery query "limit" "10" in
    let limit :=
      match Atoi limitStr with
      | Some n => n
      | None => 10
      end in
    let* r := GetTokenAccountsByMint timeParse env mintAddress limit in
    match r with
    | Err _ =>
        ret {| Status := StatusInternalServerError;
               Body_ := ErrorPayload "Failed to get token holders" |}
    | Ok holders =>
        ret {| Status := StatusOK;
               Body_ := HoldersPayload mintAddress holders |}
    end.

End Handlers.

(** What a lookup of [key] in the cache gives a handler that expects a list
    of maps: the list of an entry that has not expired, if it is one. *)
Definition cachedMaps (key : string) (w : World)
  : option (list (gmap string iface)) :=
  let c := valueOf (getFromCache key w) in
  if snd c then asMaps (fst c) else None.

(** The list of accounts that a reply to "getTokenLargestAccounts" carries:
    the "value" of its result, when there is no error object. *)
Definition holdersValue (out : OrError RPCResponse) : option (list iface) :=
  match out with
  | Err _ => None
  | Ok resp =>
      if notNil (Error resp) then None
      else
        match Result resp with
        | IMap result =>
            match result !! "value" with
            | Some (ISlice value) => Some value
            | _ => None
            end
        | _ => None
        end
  end.

(** The methods of the requests of a trace, in order. *)
Definition methodsOf (t : list Event) : list string :=
  omap (fun e => match e with Post method _ => Some method | _ => None end) t.

(** ** Further concrete environments *)

(** Nobody but the calling goroutine writes the ledger entry of [method]. *)
Definition soleCaller (env : Environment) (method : string) : Prop :=
  forall t ledger, others env t ledger !! method = ledger !! method.


(** A node that answers every request at once with HTTP 200 and the given
    result, or the given error object. *)
Definition answering (result error : iface) : Environment :=
  {| post := fun _ _ _ =>
               {| latency := 0;
                  reply := PostReplied
                             {| StatusCode := 200;
                                RetryAfter := "";
                                Body := {| Result := result; Error := error |};
                                DecodeError := None |} |};
     others := fun _ ledger => ledger |}.

(** The value of an account of 1.5 SOL that a node reports. *)
Definition walletValue : gmap string iface :=
  <["lamports" := IFloat64 1500000000%float]>
    (<["owner" := IString "11111111111111111111111111111111"]>
       (<["executable" := IBool false]>
          (<["rentEpoch" := IFloat64 361%float]>
             (<["data" := ISlice [IString ""; IString "base64"]]> ∅)))).

Definition walletResult : iface :=
  IMap (<["value" := IMap walletValue]> ∅).

(** A [%v] that prints every value alike; enough to run [GetBalance]. *)
Definition opaqueValue (v : iface) : string := "<value>".

(** A node that knows one mint: it reports the supply "123456" with 2
    decimals, and knows no account. *)
Definition mintOnly : Environment :=
  {| post := fun _ method _ =>
               {| latency := 0;
                  reply :=
                    PostReplied
                      {| StatusCode := 200;
                         RetryAfter := "";
                         Body :=
                           if String.eqb method "getTokenSupply" then
                             {| Result :=
                                  IMap (<["value" :=
                                            IMap (<["amount" := IString "123456"]>
                                                    (<["decimals" :=
                                                         IFloat64 2%float]> ∅))]>
                                          ∅);
                                Error := INil |}
                           else
                             {| Result := IMap (<["value" := INil]> ∅);
                                Error := INil |};
                         DecodeError := None |} |};
     others := fun _ ledger => ledger |}.

(** A [math.Pow] that knows the squares of ten only; enough for [mintOnly]. *)
Definition powOfTen (x y : float) : float :=
  if PrimFloat.eqb y 2%float then PrimFloat.mul x x else 1%float.

(** One nanosecond after a dispatch of "getTokenLargestAccounts". *)
Definition holdersJustCalled : World :=
  atTime 1 (worldOf (updateRateLimit "getTokenLargestAccounts" (freshWorld 0))).

(** The reply of a node that knows two large accounts of a mint. *)
Definition largestAccounts : iface :=
  IMap (<["value" :=
            ISlice [IMap (<["address" := IString "holderA"]>
                            (<["amount" := IString "900"]> ∅));
                    IMap (<["address" := IString "holderB"]>
                            (<["amount" := IString "100"]> ∅))]]> ∅).

(** A node that answers the four queries of [/api/metrics] at once: the
    slot 250000000, 25 of the 100 slots of the epoch 600, three current
    validators and the given window of performance samples. *)
Definition cluster (window : list (gmap string iface)) : Environment :=
  {| post := fun _ method _ =>
               {| latency := 0;
                  reply :=
                    PostReplied
                      {| StatusCode := 200;
                         RetryAfter := "";
                         Body :=
                           {| Result :=
                                if String.eqb method "getSlot" then
                                  IFloat64 250000000%float
                                else if String.eqb method "getEpochInfo" then
                                  IMap (<["epoch" := IFloat64 600%float]>
                                          (<["slotIndex" := IFloat64 25%float]>
                                             (<["slotsInEpoch" :=
                                                  IFloat64 100%float]> ∅)))
                                else if String.eqb method "getVoteAccounts" then
                                  IMap (<["current" := ISlice [INil; INil; INil]]> ∅)
                                else ISlice (IMap <$> window);
                              Error := INil |};
                         DecodeError := None |} |};
     others := fun _ ledger => ledger |}.

(** * Properties *)

(** ** Integers *)

Lemma wrap64_id z :
  GoInt.minInt64 <= z <= GoInt.maxInt64 -> GoInt.wrap64 z = z.
Proof.
  unfold GoInt.wrap64, GoInt.minInt64, GoInt.maxInt64. intros H.
  rewrite Z.mod_small by lia. lia.
Qed.

Lemma mul64_seconds n :
  -9223372036 <= n <= 9223372036 -> GoInt.mul64 n Second = n * Second.
Proof.
  intros H. unfold GoInt.mul64. apply wrap64_id.
  unfold GoInt.minInt64, GoInt.maxInt64, Second. lia.
Qed.

(** ** Retry-After parser *)

Section RetryAfterFacts.

Variable timeParse : string -> string -> option Time.
Variable now : Time.

Lemma parseFallback_forms formats s :
  parseFallback timeParse now formats s
  = firstSuccess (map (dateForm timeParse now) formats) s.
Proof.
  induction formats as [|format rest IH]; simpl; [reflexivity|].
  unfold dateForm at 1, acceptableWait.
  destruct (timeParse format s) as [t|]; [|exact IH].
  destruct ((0 <? Until now t) && (Until now t <=? 5 * Minute));
    [reflexivity | exact IH].
Qed.

Lemma parseRetryAfter_firstSuccess s :
  parseRetryAfter timeParse now s
  = match firstSuccess (retryAfterForms timeParse now) s with
    | Some d => Ok d
    | None => Err (String.append "unable to parse Retry-After header: " s)
    end.
Proof.
  unfold parseRetryAfter, retryAfterForms.
  cbn [firstSuccess]. unfold integerForm.
  destruct (Atoi s) as [n|].
  - destruct (Z.ltb_spec (5 * Minute) (GoInt.mul64 n Second)).
    + rewrite Z.min_r by lia. reflexivity.
    + rewrite Z.min_l by lia. reflexivity.
  - rewrite parseFallback_forms. unfold dateForm at 1 2, acceptableWait.
    destruct (timeParse RFC1123 s) as [t|]; [|reflexivity].
    destruct ((0 <? Until now t) && (Until now t <=? 5 * Minute));
      reflexivity.
Qed.

Lemma parseFallback_none formats s :
  (forall layout, In layout formats -> timeParse layout s = None) ->
  parseFallback timeParse now formats s = None.
Proof.
  induction formats as [|format rest IH]; intros H; simpl; [reflexivity|].
  rewrite (H format) by (left; reflexivity).
  apply IH. intros layout Hin. apply H. right. exact Hin.
Qed.

Lemma parseRetryAfter_integer s n :
  Atoi s = Some n ->
  parseRetryAfter timeParse now s
  = Ok (Z.min (GoInt.mul64 n Second) (5 * Minute)).
Proof.
  intros H. rewrite parseRetryAfter_firstSuccess.
  unfold retryAfterForms. cbn [firstSuccess]. unfold integerForm.
  rewrite H. reflexivity.
Qed.

Lemma Until_past t : t <= now -> Until now t <= 0.
Proof.
  unfold Until, Sub, minDuration, maxDuration, GoInt.minInt64, GoInt.maxInt64.
  lia.
Qed.

Lemma parseRetryAfter_past_date s t :
  Atoi s = None ->
  timeParse RFC1123 s = Some t ->
  t <= now ->
  (forall layout, In layout fallbackFormats -> timeParse layout s = None) ->
  parseRetryAfter timeParse now s
  = Err (String.append "unable to parse Retry-After header: " s).
Proof.
  intros Hint Hdate Hpast Hfall. unfold parseRetryAfter.
  rewrite Hint, Hdate.
  pose proof (Until_past t Hpast) as Hle.
  replace (0 <? Until now t) with false by (symmetry; apply Z.ltb_ge; lia).
  cbn [andb]. rewrite (parseFallback_none _ _ Hfall). reflexivity.
Qed.

Lemma parseRetryAfter_unparseable s :
  Atoi s = None ->
  (forall layout, timeParse layout s = None) ->
  parseRetryAfter timeParse now s
  = Err (String.append "unable to parse Retry-After header: " s).
Proof.
  intros Hint Hnone. unfold parseRetryAfter.
  rewrite Hint, (Hnone RFC1123).
  rewrite parseFallback_none by (intros; apply Hnone). reflexivity.
Qed.

End RetryAfterFacts.

(** C3, as amended. [parseRetryAfter] returns what the first successful
    form of [retryAfterForms] returns, in the order: integer seconds with the
    upper clamp of 5 minutes, the RFC1123 date, then the fallback layouts, a
    date counting only when its wait is strictly positive and at most 5
    minutes; with no successful form the result is the parse error. The wait
    of an integer [n] is the int64 product [n * time.Second] of the code with
    the clamp: it is at most 5 minutes for every [n], and it is
    min(n s, 5 min) whenever n seconds fit an int64 of nanoseconds, that is
    for [-9223372036 <= n <= 9223372036]. "120" gives 120 s, "400" gives
    300 s, a date that is not in the future is rejected, and a string that
    no form parses gives the parse error. *)
Theorem parseRetryAfter_tries_forms_in_order
  (timeParse : string -> string -> option Time) (now : Time) :
  (forall s,
      parseRetryAfter timeParse now s
      = match firstSuccess (retryAfterForms timeParse now) s with
        | Some d => Ok d
        | None => Err (String.append "unable to parse Retry-After header: " s)
        end)
  /\ (forall s n, Atoi s = Some n ->
        exists d, parseRetryAfter timeParse now s = Ok d
                  /\ d = Z.min (GoInt.mul64 n Second) (5 * Minute)
                  /\ d <= 5 * Minute
                  /\ (-9223372036 <= n <= 9223372036 ->
                      d = Z.min (n * Second) (5 * Minute)))
  /\ parseRetryAfter timeParse now "120" = Ok (120 * Second)
  /\ parseRetryAfter timeParse now "400" = Ok (300 * Second)
  /\ (forall s t,
        Atoi s = None -> timeParse RFC1123 s = Some t -> t <= now ->
        dateForm timeParse now RFC1123 s = None
        /\ ((forall layout, In layout fallbackFormats ->
                            timeParse layout s = None) ->
            parseRetryAfter timeParse now s
            = Err (String.append "unable to parse Retry-After header: " s)))
  /\ (forall s,
        Atoi s = None -> (forall layout, timeParse layout s = None) ->
        parseRetryAfter timeParse now s
        = Err (String.append "unable to parse Retry-After header: " s)).
Proof.
  split; [apply parseRetryAfter_firstSuccess|].
  split.
  { intros s n H. eexists. split; [apply parseRetryAfter_integer; exact H|].
    split; [reflexivity|]. split; [lia|].
    intros Hn. rewrite mul64_seconds by exact Hn. reflexivity. }
  split; [reflexivity|]. split; [reflexivity|].
  split; [|apply parseRetryAfter_unparseable].
  intros s t Hint Hdate Hpast. split.
  - unfold dateForm. rewrite Hdate. unfold acceptableWait.
    pose proof (Until_past now t Hpast).
    replace (0 <? Until now t) with false by (symmetry; apply Z.ltb_ge; lia).
    reflexivity.
  - intros Hfall. eapply parseRetryAfter_past_date; eassumption.
Qed.

(** The hypotheses of the statement above are met by [epochOnly]: the
    date of the Unix epoch is in the past of [now = 1000 s], and no form
    parses "soon". *)
Lemma parseRetryAfter_tries_forms_in_order_witness :
  parseRetryAfter epochOnly (1000 * Second) "Thu, 01 Jan 1970 00:00:00 GMT"
  = Err "unable to parse Retry-After header: Thu, 01 Jan 1970 00:00:00 GMT"
  /\ parseRetryAfter epochOnly (1000 * Second) "soon"
     = Err "unable to parse Retry-After header: soon"
  /\ exists d, parseRetryAfter epochOnly (1000 * Second) "7" = Ok d
               /\ d <= 5 * Minute
               /\ d = Z.min (7 * Second) (5 * Minute).
Proof.
  destruct (parseRetryAfter_tries_forms_in_order epochOnly (1000 * Second))
    as (_ & Hint & _ & _ & Hpast & Hnone).
  split; [|split].
  - apply (Hpast "Thu, 01 Jan 1970 00:00:00 GMT" 0);
      [reflexivity | reflexivity | unfold Second; lia |].
    intros layout [<-|[<-|[<-|[<-|[]]]]]; reflexivity.
  - apply (Hnone "soon"); [reflexivity|].
    intros layout. unfold epochOnly.
    destruct (String.eqb layout RFC1123); reflexivity.
  - destruct (Hint "7" 7 eq_refl) as (d & Hd & _ & Hle & Hmin).
    exists d. split; [exact Hd|]. split; [exact Hle|]. apply Hmin. lia.
Defined.

(** The header "9223372037" parses as an integer of seconds, the int64
    product with [time.Second] wraps around to a negative value, which is
    below the clamp, and the parser returns it: a negative wait, where
    min(n s, 5 min) is 5 minutes. *)
Lemma parseRetryAfter_large_integer_wraps :
  Atoi "9223372037" = Some 9223372037
  /\ GoInt.mul64 9223372037 Second = -9223372036709551616
  /\ parseRetryAfter epochOnly 0 "9223372037" = Ok (-9223372036709551616)
  /\ Z.min (9223372037 * Second) (5 * Minute) = 5 * Minute.
Proof. repeat split. Qed.

(** C10, as amended. A string that parses as an integer [n <= 0] never gives
    a parse error; when [n] seconds fit an int64 of nanoseconds
    ([-9223372036 <= n]) the result is that non-positive duration: the
    integer branch has the upper clamp only. *)
Theorem parseRetryAfter_nonpositive_integer
  (timeParse : string -> string -> option Time) (now : Time) (s : string) (n : Z) :
  Atoi s = Some n -> n <= 0 ->
  (exists d, parseRetryAfter timeParse now s = Ok d)
  /\ (-9223372036 <= n ->
      parseRetryAfter timeParse now s = Ok (n * Second) /\ n * Second <= 0).
Proof.
  intros Hint Hn. rewrite (parseRetryAfter_integer _ _ _ _ Hint).
  split; [eexists; reflexivity|].
  intros Hlow. rewrite mul64_seconds by lia.
  unfold Minute, Second. split; [|lia].
  rewrite Z.min_l by lia. reflexivity.
Qed.

Lemma parseRetryAfter_nonpositive_integer_witness :
  (exists d, parseRetryAfter epochOnly 0 "-5" = Ok d)
  /\ parseRetryAfter epochOnly 0 "-5" = Ok (-5 * Second)
  /\ parseRetryAfter epochOnly 0 "0" = Ok 0.
Proof.
  split; [|split].
  - apply (parseRetryAfter_nonpositive_integer epochOnly 0 "-5" (-5));
      [reflexivity | lia].
  - apply (parseRetryAfter_nonpositive_integer epochOnly 0 "-5" (-5));
      [reflexivity | lia | lia].
  - apply (parseRetryAfter_nonpositive_integer epochOnly 0 "0" 0);
      [reflexivity | lia | lia].
Defined.

(** The header "-9223372037" parses as a negative integer, the int64 product
    with [time.Second] wraps around to a positive value, and the parser
    returns the 5 minutes of the clamp: a positive duration. *)
Lemma parseRetryAfter_negative_integer_wraps :
  Atoi "-9223372037" = Some (-9223372037)
  /\ GoInt.mul64 (-9223372037) Second = 9223372036709551616
  /\ parseRetryAfter epochOnly 0 "-9223372037" = Ok (5 * Minute)
  /\ 0 < 5 * Minute.
Proof. repeat split. Qed.

(** ** Metrics aggregator *)

(** C9. The health label is the label of the first rule of [healthRules]
    that holds: TPS > 100 and validators > 1000 give "Healthy", else TPS > 50
    and validators > 500 give "Good", else TPS > 10 gives "Fair", otherwise
    "Poor"; (101, 1001) is "Healthy", (60, 600) is "Good", (11, 10) is "Fair"
    and a TPS of 5 is "Poor" with any number of validators. *)
Theorem networkHealth_first_match (tps : float) (validatorCount : Z) :
  networkHealth tps validatorCount = firstMatch healthRules tps validatorCount
  /\ networkHealth 101%float 1001 = "Healthy"
  /\ networkHealth 60%float 600 = "Good"
  /\ networkHealth 11%float 10 = "Fair"
  /\ networkHealth 5%float validatorCount = "Poor".
Proof.
  split.
  - unfold networkHealth, healthRules, firstMatch.
    destruct (Float64.gt tps 100 && (1000 <? validatorCount)); [reflexivity|].
    destruct (Float64.gt tps 50 && (500 <? validatorCount)); [reflexivity|].
    destruct (Float64.gt tps 10); reflexivity.
  - repeat split; reflexivity.
Qed.

(** C8. Epoch progress is (slotIndex / slotsInEpoch) * 100 when slotsInEpoch
    is positive and 0 otherwise, and every division that the computation
    evaluates has a positive divisor; (25, 100) gives 25.0, and a
    slotsInEpoch of 0, or an epoch descriptor without the field, gives 0
    without any division. *)
Theorem epochProgress_guarded (slotIndex slotsInEpoch : float) :
  fst (epochProgress slotIndex slotsInEpoch)
  = (if Float64.gt slotsInEpoch 0%float
     then PrimFloat.mul (PrimFloat.div slotIndex slotsInEpoch) 100%float
     else 0%float)
  /\ Forall (fun divisor => Float64.gt divisor 0%float = true)
       (snd (epochProgress slotIndex slotsInEpoch))
  /\ epochProgress 25%float 100%float = (25%float, [100%float])
  /\ epochProgress slotIndex 0%float = (0%float, [])
  /\ (forall epochInfo,
        epochInfo !! "slotsInEpoch" = None ->
        epochProgressOf epochInfo = (0%float, [])).
Proof.
  split; [|split; [|split; [reflexivity|split; [reflexivity|]]]].
  - unfold epochProgress, quotient.
    destruct (Float64.gt slotsInEpoch 0); reflexivity.
  - unfold epochProgress, quotient.
    destruct (Float64.gt slotsInEpoch 0) eqn:Hpos; cbn [snd].
    + constructor; [exact Hpos | constructor].
    + constructor.
  - intros epochInfo Hnone. unfold epochProgressOf, float64Field.
    rewrite Hnone. reflexivity.
Qed.

Lemma epochProgress_guarded_witness :
  epochProgressOf (<["slotIndex" := IFloat64 25%float]> ∅) = (0%float, []).
Proof.
  apply (proj2 (proj2 (proj2 (proj2 (epochProgress_guarded 0%float 0%float))))).
  reflexivity.
Defined.

Lemma fold_addSample samples acc :
  fold_left addSample samples acc
  = fold_left PrimFloat.add (omap sampleRate samples) acc.
Proof.
  revert acc. induction samples as [|sample rest IH]; intros acc;
    [reflexivity|].
  cbn [fold_left omap list_omap]. rewrite IH.
  unfold addSample, sampleRate.
  destruct (sample !! "numTransactions") as [[| | numTransactions | | |]|];
    try reflexivity;
    destruct (sample !! "samplePeriodSecs") as [[| | samplePeriodSecs | | |]|];
    try reflexivity.
  destruct (Float64.gt samplePeriodSecs 0); reflexivity.
Qed.

(** C2, as amended. [calculateTPS] adds up transactions / period over the
    samples that have a positive period and divides the sum by the number of
    all samples of the window, the samples without a rate included; the empty
    window gives 0, and the window [{100, 10}; {50, 5}] gives 10. *)
Theorem calculateTPS_sum_over_window (samples : list (gmap string iface)) :
  calculateTPS samples = sumOfRatesOverWindow samples
  /\ calculateTPS [] = 0%float
  /\ calculateTPS steadyWindow = 10%float.
Proof.
  split; [|split; vm_compute; reflexivity].
  unfold calculateTPS, sumOfRatesOverWindow, sumFloats.
  destruct samples as [|sample rest]; [reflexivity|].
  replace (Z.of_nat (length (sample :: rest)) =? 0) with false
    by (symmetry; apply Z.eqb_neq; cbn [length]; lia).
  rewrite fold_addSample. reflexivity.
Qed.

(** On [gappyWindow] one sample of the two has a rate, 10: the average of
    the valid rates is 10, and [calculateTPS] returns 10 / 2 = 5. *)
Lemma calculateTPS_counts_invalid_samples :
  calculateTPS gappyWindow = 5%float
  /\ averageOfValidRates gappyWindow = 10%float
  /\ PrimFloat.eqb (calculateTPS gappyWindow) (averageOfValidRates gappyWindow)
     = false.
Proof. repeat split; vm_compute; reflexivity. Qed.

(** ** Cache *)

Lemma getFromCache_lookup key w :
  getFromCache key w
  = (match cache (client w) !! key with
     | Some entry =>
         if After (clock w) (ExpiresAt entry) then (INil, false)
         else (Data entry, true)
     | None => (INil, false)
     end, w, []).
Proof.
  unfold getFromCache, bind, getClient, getClock, ret. cbn.
  destruct (cache (client w) !! key) as [entry|]; [|reflexivity].
  destruct (After (clock w) (ExpiresAt entry)); reflexivity.
Qed.

Lemma setCache_cache key data duration w :
  cache (client (worldOf (setCache key data duration w)))
  = <[key := {| Data := data; ExpiresAt := clock w + duration |}]>
      (cache (client w)).
Proof. reflexivity. Qed.

(** C6, as amended. After [setCache key value ttl] at the instant [now], a
    [getFromCache key] at any instant up to and including [now + ttl] returns
    (value, true), and one at any instant strictly after the stored expiry
    returns (nil, false), as does a lookup of a key that the cache does not
    hold; [setCache] replaces whatever entry the key had and leaves the other
    keys alone. *)
Theorem cache_set_then_get (w : World) (key : string) (value : iface)
  (ttl : Duration) :
  let stored := worldOf (setCache key value ttl w) in
  (forall t, t <= clock w + ttl ->
             valueOf (getFromCache key (atTime t stored)) = (value, true))
  /\ (forall t, clock w + ttl < t ->
                valueOf (getFromCache key (atTime t stored)) = (INil, false))
  /\ (forall key', cache (client w) !! key' = None ->
                   valueOf (getFromCache key' w) = (INil, false))
  /\ cache (client stored) !! key
     = Some {| Data := value; ExpiresAt := clock w + ttl |}
  /\ (forall key', key' <> key ->
                   cache (client stored) !! key' = cache (client w) !! key').
Proof.
  intros stored.
  assert (Hentry : cache (client stored) !! key
                   = Some {| Data := value; ExpiresAt := clock w + ttl |}).
  { unfold stored. rewrite setCache_cache. apply lookup_insert_eq. }
  repeat split.
  - intros t Ht. rewrite getFromCache_lookup. cbn [valueOf fst atTime client clock].
    rewrite Hentry. cbn [ExpiresAt Data]. unfold After.
    replace (clock w + ttl <? t) with false by (symmetry; apply Z.ltb_ge; lia).
    reflexivity.
  - intros t Ht. rewrite getFromCache_lookup. cbn [valueOf fst atTime client clock].
    rewrite Hentry. cbn [ExpiresAt Data]. unfold After.
    replace (clock w + ttl <? t) with true by (symmetry; apply Z.ltb_lt; lia).
    reflexivity.
  - intros key' Hnone. rewrite getFromCache_lookup. cbn [valueOf fst].
    rewrite Hnone. reflexivity.
  - exact Hentry.
  - intros key' Hne. unfold stored. rewrite setCache_cache.
    apply lookup_insert_ne. congruence.
Qed.

Lemma cache_set_then_get_witness :
  valueOf (getFromCache "k"
             (atTime (1 * Second)
                (worldOf (setCache "k" (IString "v") (1 * Second) (freshWorld 0)))))
  = (IString "v", true)
  /\ valueOf (getFromCache "k"
                (atTime (1 * Second + 1)
                   (worldOf (setCache "k" (IString "v") (1 * Second) (freshWorld 0)))))
     = (INil, false)
  /\ valueOf (getFromCache "other" (freshWorld 0)) = (INil, false)
  /\ cache (client (worldOf (setCache "k" (IString "v") (1 * Second) (freshWorld 0))))
       !! "other"
     = cache (client (freshWorld 0)) !! "other".
Proof.
  destruct (cache_set_then_get (freshWorld 0) "k" (IString "v") (1 * Second))
    as (Hhit & Hmiss & Hnever & _ & Hother).
  split; [|split; [|split]].
  - apply Hhit. cbn. lia.
  - apply Hmiss. cbn. lia.
  - apply Hnever. reflexivity.
  - apply Hother. discriminate.
Defined.

(** An entry stored at instant 0 for 1 s is still returned when the clock
    reads exactly 1 s, the stored expiry: [After] is strict. *)
Lemma getFromCache_hit_at_expiry :
  ExpiresAt <$> (cache (client (worldOf (setCache "k" (IString "v") (1 * Second)
                                           (freshWorld 0)))) !! "k")
  = Some (1 * Second)
  /\ valueOf (getFromCache "k"
                (atTime (1 * Second)
                   (worldOf (setCache "k" (IString "v") (1 * Second)
                               (freshWorld 0)))))
     = (IString "v", true).
Proof. split; vm_compute; reflexivity. Qed.

(** ** Rate limiter *)

Lemma checkRateLimit_lookup method w :
  valueOf (checkRateLimit method w)
  = match rateLimiter (client w) !! method with
    | Some lastCall => negb (Since (clock w) lastCall <? 2 * Second)
    | None => true
    end.
Proof.
  unfold checkRateLimit, bind, getClient, getClock, ret. cbn.
  destruct (rateLimiter (client w) !! method) as [lastCall|]; [|reflexivity].
  destruct (Since (clock w) lastCall <? 2 * Second); reflexivity.
Qed.

(** X1. Once [updateRateLimit method] has recorded a dispatch at the instant
    [now], [checkRateLimit method] refuses at every instant less than 2 s
    after [now] and accepts from [now + 2 s] on, as long as nobody else writes
    the entry; a method without an entry is eligible. *)
Theorem rate_limit_quiescence (method : string) (w : World) :
  let recorded := worldOf (updateRateLimit method w) in
  (forall t, t - clock w < 2 * Second ->
             valueOf (checkRateLimit method (atTime t recorded)) = false)
  /\ (forall t, 2 * Second <= t - clock w ->
                valueOf (checkRateLimit method (atTime t recorded)) = true)
  /\ (forall w0 m, rateLimiter (client w0) !! m = None ->
                   valueOf (checkRateLimit m w0) = true).
Proof.
  intros recorded.
  assert (Hentry : forall t, rateLimiter (client (atTime t recorded)) !! method
                             = Some (clock w))
    by (intros t; apply lookup_insert_eq).
  split; [|split].
  - intros t Hsoon. rewrite checkRateLimit_lookup, Hentry.
    cbn [atTime clock]. apply negb_false_iff, Z.ltb_lt.
    unfold Since, Sub, minDuration, maxDuration, GoInt.minInt64, GoInt.maxInt64,
      Second in *. lia.
  - intros t Hlate. rewrite checkRateLimit_lookup, Hentry.
    cbn [atTime clock]. apply negb_true_iff, Z.ltb_ge.
    unfold Since, Sub, minDuration, maxDuration, GoInt.minInt64, GoInt.maxInt64,
      Second in *. lia.
  - intros w0 m Hnone. rewrite checkRateLimit_lookup, Hnone. reflexivity.
Qed.

Lemma rate_limit_quiescence_witness :
  valueOf (checkRateLimit "getSlot"
             (atTime (2 * Second - 1)
                (worldOf (updateRateLimit "getSlot" (freshWorld 0)))))
  = false
  /\ valueOf (checkRateLimit "getSlot"
                (atTime (2 * Second)
                   (worldOf (updateRateLimit "getSlot" (freshWorld 0)))))
     = true
  /\ valueOf (checkRateLimit "getSlot" (freshWorld 0)) = true.
Proof.
  destruct (rate_limit_quiescence "getSlot" (freshWorld 0))
    as (Hsoon & Hlate & Hnew).
  split; [|split].
  - apply Hsoon. cbn. lia.
  - apply Hlate. cbn. lia.
  - apply Hnew. reflexivity.
Defined.

(** ** Retrying caller *)

Lemma backoff_values :
  backoff 0 = 1 * Second /\ backoff 1 = 2 * Second /\ backoff 2 = 4 * Second.
Proof. repeat split; vm_compute; reflexivity. Qed.

Lemma checkRateLimit_pure method w :
  checkRateLimit method w = (valueOf (checkRateLimit method w), w, []).
Proof.
  unfold checkRateLimit, bind, getClient, getClock, ret. cbn.
  destruct (rateLimiter (client w) !! method) as [lastCall|]; [|reflexivity].
  destruct (Since (clock w) lastCall <? 2 * Second); reflexivity.
Qed.

Section RetryFacts.

Variable timeParse : string -> string -> option Time.
Variable env : Environment.

Lemma makeRPCCall_trace method params w :
  traceOf (makeRPCCall env method params w)
  = [Post method (valueOf (makeRPCCall env method params w))].
Proof. reflexivity. Qed.

Lemma throttleDelay_pure errorMap attempt w :
  throttleDelay timeParse errorMap attempt w
  = (valueOf (throttleDelay timeParse errorMap attempt w), w, []).
Proof.
  unfold throttleDelay.
  destruct (errorMap !! "retryAfter") as [[| | | retryAfter | |]|];
    try reflexivity.
  unfold bind, getClock. cbn.
  destruct (parseRetryAfter timeParse (clock w) retryAfter); reflexivity.
Qed.

Lemma throttleDelay_hint errorMap attempt w retryAfter delay :
  errorMap !! "retryAfter" = Some (IString retryAfter) ->
  parseRetryAfter timeParse (clock w) retryAfter = Ok delay ->
  valueOf (throttleDelay timeParse errorMap attempt w) = delay.
Proof.
  intros Hra Hparse. unfold throttleDelay. rewrite Hra.
  unfold bind, getClock. cbn. rewrite Hparse. reflexivity.
Qed.

Lemma throttleDelay_no_hint errorMap attempt w :
  (forall retryAfter,
      errorMap !! "retryAfter" = Some (IString retryAfter) ->
      exists e, parseRetryAfter timeParse (clock w) retryAfter = Err e) ->
  valueOf (throttleDelay timeParse errorMap attempt w) = backoff (attempt + 1).
Proof.
  intros Hno. unfold throttleDelay.
  destruct (errorMap !! "retryAfter") as [[| | | retryAfter | |]|];
    try reflexivity.
  destruct (Hno retryAfter eq_refl) as [e He].
  unfold bind, getClock. cbn. rewrite He. reflexivity.
Qed.

(** What the rest of the loop body does with a transport error. *)
Lemma settle_transport_error attempt e w :
  settle timeParse env attempt (Err e) w
  = if attempt =? maxRetries - 1 then (Return (Err e), w, [])
    else (Continue, worldOf (timeSleep env (backoff attempt) w),
          [Sleep (backoff attempt)]).
Proof.
  unfold settle. destruct (attempt =? maxRetries - 1); reflexivity.
Qed.

(** What it does with a response that carries the error code 429. *)
Lemma settle_throttled attempt resp w :
  isThrottled resp = true ->
  settle timeParse env attempt (Ok resp) w
  = if attempt =? maxRetries - 1 then (Return (Ok resp), w, [])
    else
      let delay :=
        match Error resp with
        | IMap errorMap => valueOf (throttleDelay timeParse errorMap attempt w)
        | _ => 0
        end in
      (Continue, worldOf (timeSleep env delay w), [Sleep delay]).
Proof.
  unfold isThrottled, settle.
  destruct (Error resp) as [| | | | |errorMap]; try discriminate.
  intros ->. destruct (attempt =? maxRetries - 1); [reflexivity|].
  unfold bind at 1. rewrite throttleDelay_pure. reflexivity.
Qed.

(** Any other response is returned at once. *)
Lemma settle_other attempt resp w :
  isThrottled resp = false ->
  settle timeParse env attempt (Ok resp) w = (Return (Ok resp), w, []).
Proof.
  unfold isThrottled, settle.
  destruct (Error resp) as [| | | | |errorMap]; try reflexivity.
  intros ->. reflexivity.
Qed.

Lemma iteration_rate_limited method params attempt w :
  valueOf (checkRateLimit method w) = false ->
  iteration timeParse env method params attempt w
  = (Continue, worldOf (timeSleep env (2 * Second) w),
     [Iteration attempt; Sleep (2 * Second)]).
Proof.
  intros H. unfold iteration, bind at 1 2, emit.
  rewrite checkRateLimit_pure, H. reflexivity.
Qed.

Lemma iteration_dispatch method params attempt w :
  valueOf (checkRateLimit method w) = true ->
  iteration timeParse env method params attempt w
  = let call := makeRPCCall env method params (worldOf (updateRateLimit method w)) in
    let rest := settle timeParse env attempt (valueOf call) (worldOf call) in
    (valueOf rest, worldOf rest,
     Iteration attempt :: Post method (valueOf call) :: traceOf rest).
Proof.
  intros H. unfold iteration, bind at 1 2, emit.
  rewrite checkRateLimit_pure, H. cbn [negb].
  unfold bind, updateRateLimit, getClient, getClock, setClient. cbn.
  destruct (settle _ _ _ _ _) as [[flow w'] t]. reflexivity.
Qed.

Lemma retryLoop_step method params remaining w :
  retryLoop timeParse env method params (S remaining) w
  = let pass := iteration timeParse env method params
                  (maxRetries - Z.of_nat (S remaining)) w in
    match valueOf pass with
    | Return r => (r, worldOf pass, traceOf pass)
    | Continue =>
        let rest := retryLoop timeParse env method params remaining
                      (worldOf pass) in
        (valueOf rest, worldOf rest, traceOf pass ++ traceOf rest)
    end.
Proof.
  cbn [retryLoop]. unfold bind at 1.
  destruct (iteration _ _ _ _ _ w) as [[flow w1] t1].
  cbn [valueOf worldOf traceOf fst snd].
  destruct flow as [|r].
  - destruct (retryLoop _ _ _ _ remaining w1) as [[r w2] t2]. reflexivity.
  - unfold ret. rewrite app_nil_r. reflexivity.
Qed.

(** Every run of the loop is one of the runs that [Passes] describes. *)
Lemma retryLoop_passes method params remaining w :
  Passes method (maxRetries - Z.of_nat remaining) remaining
    (traceOf (retryLoop timeParse env method params remaining w))
    (valueOf (retryLoop timeParse env method params remaining w)).
Proof.
  revert w. induction remaining as [|remaining IH]; intros w.
  { apply PassesExhausted. }
  rewrite retryLoop_step.
  set (attempt := maxRetries - Z.of_nat (S remaining)).
  assert (Hnext : maxRetries - Z.of_nat remaining = attempt + 1)
    by (unfold attempt; lia).
  rewrite Hnext in IH.
  destruct (valueOf (checkRateLimit method w)) eqn:Hcheck.
  - rewrite iteration_dispatch by exact Hcheck.
    set (call := makeRPCCall env method params _).
    cbn zeta. cbn [valueOf worldOf traceOf fst snd].
    destruct (valueOf call) as [resp|e] eqn:Hcall.
    + destruct (isThrottled resp) eqn:Hthrottled.
      * rewrite settle_throttled by exact Hthrottled.
        destruct (attempt =? maxRetries - 1) eqn:Hlast.
        -- cbn. apply PassesReturned. left. apply Z.eqb_eq. exact Hlast.
        -- cbn. apply PassesBackedOff;
             [apply Z.eqb_neq; exact Hlast | exact Hthrottled | apply IH].
      * rewrite settle_other by exact Hthrottled. cbn.
        apply PassesReturned. right. exact Hthrottled.
    + rewrite settle_transport_error.
      destruct (attempt =? maxRetries - 1) eqn:Hlast.
      * cbn. apply PassesReturned. left. apply Z.eqb_eq. exact Hlast.
      * cbn. apply PassesBackedOff;
          [apply Z.eqb_neq; exact Hlast | reflexivity | apply IH].
  - rewrite iteration_rate_limited by exact Hcheck. cbn.
    apply PassesRateLimited. apply IH.
Qed.

Lemma makeRPCCallWithRetry_passes method params w :
  Passes method 0 3%nat
    (traceOf (makeRPCCallWithRetry timeParse env method params w))
    (valueOf (makeRPCCallWithRetry timeParse env method params w)).
Proof. exact (retryLoop_passes method params 3%nat w). Qed.

End RetryFacts.

Lemma Passes_counts method attempt remaining t r :
  Passes method attempt remaining t r ->
  (length (posts t) + rateLimitedPasses t = length (iterations t))%nat
  /\ (length (iterations t) <= remaining)%nat
  /\ countsFrom attempt (iterations t).
Proof.
  induction 1 as [attempt
                 |attempt remaining t r _ (IHsum & IHlen & IHcount)
                 |attempt remaining out _
                 |attempt remaining out delay t r _ _ _ (IHsum & IHlen & IHcount)].
  - cbn. repeat split. lia.
  - change (posts (Iteration attempt :: Sleep (2 * Second) :: t)) with (posts t).
    change (iterations (Iteration attempt :: Sleep (2 * Second) :: t))
      with (attempt :: iterations t).
    change (rateLimitedPasses (Iteration attempt :: Sleep (2 * Second) :: t))
      with (S (rateLimitedPasses t)).
    cbn [length countsFrom]. repeat split; try lia. exact IHcount.
  - cbn. repeat split; lia.
  - change (posts (Iteration attempt :: Post method out :: Sleep delay :: t))
      with (out :: posts t).
    change (iterations (Iteration attempt :: Post method out :: Sleep delay :: t))
      with (attempt :: iterations t).
    change (rateLimitedPasses
              (Iteration attempt :: Post method out :: Sleep delay :: t))
      with (rateLimitedPasses t).
    cbn [length countsFrom]. repeat split; try lia. exact IHcount.
Qed.

(** Case analysis of a run of at most three passes. *)
Ltac passes_cases :=
  repeat match goal with
         | H : Passes _ _ _ _ _ |- _ => inversion H; clear H; subst
         end.

(** C1, as amended. When [checkRateLimit] finds the method not eligible, the
    pass sleeps the cooldown of 2 s and the loop goes on with the next value
    of [attempt]: the pass uses up one of the 3 attempts as a dispatching pass
    does. In every run the passes are numbered 0, 1, 2 in a row, there are at
    most 3 of them, and the requests made plus the rate-limited passes add up
    to the number of passes. *)
Theorem rate_limited_pass_uses_attempt
  (timeParse : string -> string -> option Time) (env : Environment)
  (method : string) (params : list iface) (w : World) :
  (forall remaining,
      valueOf (checkRateLimit method w) = false ->
      retryLoop timeParse env method params (S remaining) w
      = let rest := retryLoop timeParse env method params remaining
                      (worldOf (timeSleep env (2 * Second) w)) in
        (valueOf rest, worldOf rest,
         Iteration (maxRetries - Z.of_nat (S remaining))
           :: Sleep (2 * Second) :: traceOf rest))
  /\ let t := traceOf (makeRPCCallWithRetry timeParse env method params w) in
     (length (posts t) + rateLimitedPasses t = length (iterations t))%nat
     /\ (length (iterations t) <= 3)%nat
     /\ countsFrom 0 (iterations t).
Proof.
  split.
  - intros remaining Hcheck. rewrite retryLoop_step.
    rewrite iteration_rate_limited by exact Hcheck. reflexivity.
  - exact (Passes_counts _ _ _ _ _
             (makeRPCCallWithRetry_passes timeParse env method params w)).
Qed.

Lemma rate_limited_pass_uses_attempt_witness :
  valueOf (checkRateLimit "getSlot" justCalled) = false
  /\ retryLoop epochOnly (unreachable 0) "getSlot" [] 3%nat justCalled
     = (valueOf (retryLoop epochOnly (unreachable 0) "getSlot" [] 2%nat
                   (worldOf (timeSleep (unreachable 0) (2 * Second) justCalled))),
        worldOf (retryLoop epochOnly (unreachable 0) "getSlot" [] 2%nat
                   (worldOf (timeSleep (unreachable 0) (2 * Second) justCalled))),
        Iteration 0 :: Sleep (2 * Second)
          :: traceOf (retryLoop epochOnly (unreachable 0) "getSlot" [] 2%nat
                        (worldOf (timeSleep (unreachable 0) (2 * Second)
                                    justCalled)))).
Proof.
  split; [reflexivity|].
  apply (proj1 (rate_limited_pass_uses_attempt epochOnly (unreachable 0)
                  "getSlot" [] justCalled) 2%nat).
  reflexivity.
Defined.

(** On a new client and an upstream that refuses connections at once, the
    pass 0 dispatches and backs off for 1 s, the pass 1 is rate limited by
    the dispatch of the pass 0, and the pass 2 dispatches and returns the
    error: the call makes two requests, not three. *)
Lemma rate_limited_pass_takes_slot :
  traceOf (makeRPCCallWithRetry epochOnly (unreachable 0) "getSlot" []
             (freshWorld 0))
  = [Iteration 0; Post "getSlot" (Err "connection refused"); Sleep (1 * Second);
     Iteration 1; Sleep (2 * Second);
     Iteration 2; Post "getSlot" (Err "connection refused")]
  /\ valueOf (makeRPCCallWithRetry epochOnly (unreachable 0) "getSlot" []
                (freshWorld 0))
     = Err "connection refused"
  /\ length (posts (traceOf (makeRPCCallWithRetry epochOnly (unreachable 0)
                               "getSlot" [] (freshWorld 0)))) = 2%nat.
Proof. repeat split; vm_compute; reflexivity. Qed.

(** C4. When the pass of the last attempt dispatches and receives a response
    whose error object has the code 429, the call returns that response and
    no error; when the three requests of a call all fail in the transport,
    the call returns the error of the last one and no response; a caller
    tells the two results apart. *)
Theorem exhaustion_modes
  (timeParse : string -> string -> option Time) (env : Environment)
  (method : string) (params : list iface) (w : World) :
  let r := makeRPCCallWithRetry timeParse env method params w in
  (forall resp,
      postOf (maxRetries - 1) (traceOf r) = Some (Ok resp) ->
      isThrottled resp = true ->
      valueOf r = Ok resp)
  /\ (forall e1 e2 e3,
        posts (traceOf r) = [Err e1; Err e2; Err e3] ->
        valueOf r = Err e3)
  /\ (forall (resp : RPCResponse) (e : error), Ok resp <> Err e).
Proof.
  intros r. unfold r. clear r.
  pose proof (makeRPCCallWithRetry_passes timeParse env method params w) as HP.
  revert HP.
  generalize (traceOf (makeRPCCallWithRetry timeParse env method params w)).
  generalize (valueOf (makeRPCCallWithRetry timeParse env method params w)).
  intros r t HP. split; [|split].
  - intros resp Hpost _.
    passes_cases; vm_compute in Hpost; try discriminate; try congruence;
      exfalso; match goal with H : _ <> maxRetries - 1 |- _ => apply H end;
      reflexivity.
  - intros e1 e2 e3 Hposts.
    passes_cases; cbn in Hposts; try discriminate; try congruence;
      exfalso; match goal with H : _ <> maxRetries - 1 |- _ => apply H end;
      reflexivity.
  - discriminate.
Qed.

Lemma exhaustion_modes_witness :
  valueOf (makeRPCCallWithRetry epochOnly (throttling "") "getSlot" []
             (freshWorld 0))
  = Ok throttledResponse
  /\ valueOf (makeRPCCallWithRetry epochOnly (unreachable (1 * Second)) "getSlot"
                [] (freshWorld 0))
     = Err "connection refused".
Proof.
  split.
  - apply (proj1 (exhaustion_modes epochOnly (throttling "") "getSlot" []
                    (freshWorld 0)) throttledResponse);
      vm_compute; reflexivity.
  - apply (proj1 (proj2 (exhaustion_modes epochOnly (unreachable (1 * Second))
                           "getSlot" [] (freshWorld 0)))
             "connection refused" "connection refused" "connection refused").
    vm_compute. reflexivity.
Defined.

(** C5. At an attempt index [i] after which attempts remain, a response with
    the code 429 that carries no Retry-After hint, or one that does not
    parse, makes the pass sleep baseDelay * 2^(i+1), and a transport failure
    makes it sleep baseDelay * 2^i, which is strictly shorter. *)
Theorem throttle_backoff_longer
  (timeParse : string -> string -> option Time) (env : Environment)
  (attempt : Z) (w : World) :
  0 <= attempt < maxRetries - 1 ->
  (forall e,
      settle timeParse env attempt (Err e) w
      = (Continue, worldOf (timeSleep env (baseDelay * 2 ^ attempt) w),
         [Sleep (baseDelay * 2 ^ attempt)]))
  /\ (forall resp errorMap,
        Error resp = IMap errorMap ->
        codeIs429 errorMap = true ->
        (forall retryAfter,
            errorMap !! "retryAfter" = Some (IString retryAfter) ->
            exists e, parseRetryAfter timeParse (clock w) retryAfter = Err e) ->
        settle timeParse env attempt (Ok resp) w
        = (Continue, worldOf (timeSleep env (baseDelay * 2 ^ (attempt + 1)) w),
           [Sleep (baseDelay * 2 ^ (attempt + 1))]))
  /\ baseDelay * 2 ^ attempt < baseDelay * 2 ^ (attempt + 1).
Proof.
  intros Hrange.
  assert (Hlast : (attempt =? maxRetries - 1) = false)
    by (apply Z.eqb_neq; lia).
  assert (Hback : backoff attempt = baseDelay * 2 ^ attempt
                  /\ backoff (attempt + 1) = baseDelay * 2 ^ (attempt + 1)).
  { assert (Hcases : attempt = 0 \/ attempt = 1)
      by (unfold maxRetries in Hrange; lia).
    destruct Hcases as [-> | ->]; split; vm_compute; reflexivity. }
  destruct Hback as [Hfail Hthrottle].
  split; [|split].
  - intros e. rewrite settle_transport_error, Hlast, Hfail. reflexivity.
  - intros resp errorMap Herror Hcode Hnohint.
    rewrite settle_throttled by (unfold isThrottled; rewrite Herror; exact Hcode).
    rewrite Hlast, Herror. cbn zeta.
    rewrite (throttleDelay_no_hint _ _ _ _ Hnohint), Hthrottle. reflexivity.
  - rewrite Z.pow_add_r by lia. unfold baseDelay, Second.
    assert (0 < 2 ^ attempt) by (apply Z.pow_pos_nonneg; lia). lia.
Qed.

Lemma throttle_backoff_longer_witness :
  settle epochOnly (throttling "soon") 0 (Err "connection refused") (freshWorld 0)
  = (Continue, worldOf (timeSleep (throttling "soon") (baseDelay * 2 ^ 0)
                          (freshWorld 0)),
     [Sleep (baseDelay * 2 ^ 0)])
  /\ settle epochOnly (throttling "soon") 0
       (valueOf (makeRPCCall (throttling "soon") "getSlot" [] (freshWorld 0)))
       (freshWorld 0)
     = (Continue, worldOf (timeSleep (throttling "soon") (baseDelay * 2 ^ (0 + 1))
                             (freshWorld 0)),
        [Sleep (baseDelay * 2 ^ (0 + 1))])
  /\ settle epochOnly (throttling "") 0 (Ok throttledResponse) (freshWorld 0)
     = (Continue, worldOf (timeSleep (throttling "") (baseDelay * 2 ^ (0 + 1))
                             (freshWorld 0)),
        [Sleep (baseDelay * 2 ^ (0 + 1))]).
Proof.
  assert (Hrange : 0 <= 0 < maxRetries - 1) by (unfold maxRetries; lia).
  split; [|split].
  - apply (proj1 (throttle_backoff_longer epochOnly (throttling "soon") 0
                    (freshWorld 0) Hrange)).
  - apply (proj1 (proj2 (throttle_backoff_longer epochOnly (throttling "soon") 0
                           (freshWorld 0) Hrange))
             _ (<["retryAfter" := IString "soon"]>
                  (<["code" := IFloat64 429%float]>
                     (<["message" := IString "Too many requests"]> ∅))));
      [reflexivity | reflexivity |].
    intros retryAfter Hra.
    assert (retryAfter = "soon") as -> by (vm_compute in Hra; congruence).
    eexists. reflexivity.
  - apply (proj1 (proj2 (throttle_backoff_longer epochOnly (throttling "") 0
                           (freshWorld 0) Hrange))
             throttledResponse
             (<["code" := IFloat64 429%float]>
                (<["message" := IString "Too many requests"]> ∅)));
      [reflexivity | reflexivity |].
    intros retryAfter Hra. vm_compute in Hra. discriminate.
Defined.

(** ** Block-time estimator *)

Section EstimatorFacts.

Variable timeParse : string -> string -> option Time.
Variable env : Environment.

Lemma sameEstimate_refl s : sameEstimate s s.
Proof. split; reflexivity. Qed.

Lemma sameEstimate_trans s1 s2 s3 :
  sameEstimate s1 s2 -> sameEstimate s2 s3 -> sameEstimate s1 s3.
Proof. intros [H1 H2] [H3 H4]. split; congruence. Qed.

Lemma makeRPCCall_client method params w :
  client (worldOf (makeRPCCall env method params w)) = client w.
Proof. reflexivity. Qed.

Lemma GetSlot_client w : client (worldOf (GetSlot env w)) = client w.
Proof.
  unfold GetSlot, bind.
  destruct (makeRPCCall env "getSlot" [] w) as [[r w1] t1] eqn:Hcall.
  assert (Hw1 : client w1 = client w)
    by (change w1 with (worldOf (r, w1, t1)); rewrite <- Hcall; reflexivity).
  destruct r as [resp|e]; [|exact Hw1].
  destruct (Result resp); exact Hw1.
Qed.

Lemma timeSleep_estimate d w :
  sameEstimate (client w) (client (worldOf (timeSleep env d w))).
Proof. split; reflexivity. Qed.

(** The world that a run of the estimator leaves, by the two readings of
    the chain height. *)
Lemma updateBlockTime_world w :
  worldOf (updateBlockTimeInBackground env w)
  = let first := GetSlot env w in
    match valueOf first with
    | Err _ => worldOf first
    | Ok currentSlot =>
        let second :=
          GetSlot env (worldOf (timeSleep env (3 * Second) (worldOf first))) in
        match valueOf second with
        | Err _ => worldOf second
        | Ok laterSlot =>
            if laterSlot <=? currentSlot then worldOf second
            else
              let blockTime :=
                PrimFloat.div 3.0%float
                  (Float64.ofInt ((laterSlot - currentSlot) mod 2 ^ 64)) in
              if plausible blockTime
              then {| client := withBlockTime (client (worldOf second)) blockTime
                                  (clock (worldOf second));
                      clock := clock (worldOf second);
                      requests := requests (worldOf second) |}
              else worldOf second
        end
    end.
Proof.
  unfold updateBlockTimeInBackground. unfold bind at 1.
  destruct (GetSlot env w) as [[r1 w1] t1].
  cbn [valueOf worldOf fst snd]. cbv zeta.
  destruct r1 as [currentSlot|e]; [|reflexivity].
  unfold bind at 1.
  destruct (timeSleep env (3 * Second) w1) as [[u w2] t2].
  cbn [valueOf worldOf fst snd]. unfold bind at 1.
  destruct (GetSlot env w2) as [[r2 w3] t3].
  cbn [valueOf worldOf fst snd].
  destruct r2 as [laterSlot|e]; [|reflexivity].
  destruct (laterSlot <=? currentSlot); [reflexivity|].
  destruct (plausible _); reflexivity.
Qed.

(** A run leaves the published pair alone or publishes a value of the band
    with the instant of the write. *)
Lemma updateBlockTime_estimate w :
  let w' := worldOf (updateBlockTimeInBackground env w) in
  sameEstimate (client w) (client w')
  \/ (plausible (lastBlockTime (client w')) = true
      /\ lastBlockTimeCheck (client w') = clock w').
Proof.
  cbv zeta. rewrite updateBlockTime_world. cbv zeta.
  pose proof (GetSlot_client w) as H1.
  destruct (valueOf (GetSlot env w)) as [currentSlot|e];
    [|left; rewrite H1; apply sameEstimate_refl].
  set (w1 := worldOf (timeSleep env (3 * Second) (worldOf (GetSlot env w)))).
  pose proof (GetSlot_client w1) as H2.
  assert (Hsame : sameEstimate (client w) (client (worldOf (GetSlot env w1)))).
  { rewrite H2. unfold w1.
    eapply sameEstimate_trans; [|apply timeSleep_estimate].
    rewrite H1. apply sameEstimate_refl. }
  destruct (valueOf (GetSlot env w1)) as [laterSlot|e]; [|left; exact Hsame].
  destruct (laterSlot <=? currentSlot); [left; exact Hsame|].
  destruct (plausible _) eqn:Hband; [|left; exact Hsame].
  right. split; [exact Hband | reflexivity].
Qed.

(** A run whose heights do not advance, or whose sample is outside of the
    band, leaves the published pair alone. *)
Lemma updateBlockTime_discards w currentSlot laterSlot :
  valueOf (GetSlot env w) = Ok currentSlot ->
  valueOf (GetSlot env (worldOf (timeSleep env (3 * Second)
                                   (worldOf (GetSlot env w)))))
  = Ok laterSlot ->
  laterSlot <= currentSlot
  \/ plausible (PrimFloat.div 3.0%float
                  (Float64.ofInt ((laterSlot - currentSlot) mod 2 ^ 64)))
     = false ->
  sameEstimate (client w) (client (worldOf (updateBlockTimeInBackground env w))).
Proof.
  intros Hfirst Hsecond Hdiscard.
  rewrite updateBlockTime_world. cbv zeta. rewrite Hfirst, Hsecond.
  set (w1 := worldOf (timeSleep env (3 * Second) (worldOf (GetSlot env w)))).
  assert (Hsame : sameEstimate (client w) (client (worldOf (GetSlot env w1)))).
  { rewrite (GetSlot_client w1). unfold w1.
    eapply sameEstimate_trans; [|apply timeSleep_estimate].
    rewrite (GetSlot_client w). apply sameEstimate_refl. }
  destruct (Z.leb_spec laterSlot currentSlot) as [Hle|Hgt]; [exact Hsame|].
  destruct Hdiscard as [Hle | Hband]; [lia|].
  rewrite Hband. exact Hsame.
Qed.

Lemma settle_estimate attempt r w :
  sameEstimate (client w) (client (worldOf (settle timeParse env attempt r w))).
Proof.
  destruct r as [resp|e].
  - destruct (isThrottled resp) eqn:Hthrottled.
    + rewrite settle_throttled by exact Hthrottled.
      destruct (attempt =? maxRetries - 1); split; reflexivity.
    + rewrite settle_other by exact Hthrottled. split; reflexivity.
  - rewrite settle_transport_error.
    destruct (attempt =? maxRetries - 1); split; reflexivity.
Qed.

Lemma iteration_estimate method params attempt w :
  sameEstimate (client w)
    (client (worldOf (iteration timeParse env method params attempt w))).
Proof.
  destruct (valueOf (checkRateLimit method w)) eqn:Hcheck.
  - rewrite iteration_dispatch by exact Hcheck. cbv zeta.
    eapply sameEstimate_trans; [|apply settle_estimate].
    split; reflexivity.
  - rewrite iteration_rate_limited by exact Hcheck. split; reflexivity.
Qed.

Lemma retryLoop_estimate method params remaining w :
  sameEstimate (client w)
    (client (worldOf (retryLoop timeParse env method params remaining w))).
Proof.
  revert w. induction remaining as [|remaining IH]; intros w.
  { split; reflexivity. }
  rewrite retryLoop_step. cbv zeta.
  pose proof (iteration_estimate method params
                (maxRetries - Z.of_nat (S remaining)) w) as Hpass.
  destruct (valueOf (iteration _ _ _ _ _ w)); [|exact Hpass].
  eapply sameEstimate_trans; [exact Hpass | apply IH].
Qed.

(** The published value of every client that can arise is in the band. *)
Lemma Reachable_plausible w :
  Reachable timeParse env w -> plausible (lastBlockTime (client w)) = true.
Proof.
  induction 1 as [url t
                 |w _ IH
                 |method params w _ IH
                 |method params w _ IH
                 |key data duration w _ IH
                 |method w _ IH
                 |d w _ IH
                 |t w _ IH _].
  - reflexivity.
  - destruct (updateBlockTime_estimate w) as [[Hsame _] | [Hband _]];
      [rewrite Hsame; exact IH | exact Hband].
  - destruct (retryLoop_estimate method params (Z.to_nat maxRetries) w)
      as [Hsame _].
    unfold makeRPCCallWithRetry. rewrite Hsame. exact IH.
  - exact IH.
  - exact IH.
  - exact IH.
  - exact IH.
  - exact IH.
Qed.

(** What a reader gets is the published value or the default of 0.4 s. *)
Lemma GetCachedBlockTime_plausible w :
  plausible (lastBlockTime (client w)) = true ->
  plausible (valueOf (GetCachedBlockTime w)) = true.
Proof.
  intros Hband.
  cbv beta iota zeta delta
    [GetCachedBlockTime bind getClient getClock ret emit valueOf fst].
  destruct (_ && _); [exact Hband|].
  cbv beta iota zeta.
  destruct (Float64.gt _ _); [exact Hband | reflexivity].
Qed.

End EstimatorFacts.

(** C7. The published block time starts at 0.4 s, inside the band from 0.1 s
    to 2.0 s, and stays inside it whatever the client goes through: a run of
    [updateBlockTimeInBackground] either leaves [lastBlockTime] and
    [lastBlockTimeCheck] as they were or writes a value of the band together
    with the instant of the write; a run whose second height is not above
    the first, or whose seconds per block fall outside of the band (as 5.0
    does), leaves both fields as they were; and what [GetCachedBlockTime]
    hands to a reader is in the band. *)
Theorem blockTime_stays_plausible
  (timeParse : string -> string -> option Time) (env : Environment) :
  (forall url,
      lastBlockTime (NewSolanaClient url) = 0.4%float
      /\ plausible (lastBlockTime (NewSolanaClient url)) = true)
  /\ (forall w,
        let w' := worldOf (updateBlockTimeInBackground env w) in
        sameEstimate (client w) (client w')
        \/ (plausible (lastBlockTime (client w')) = true
            /\ lastBlockTimeCheck (client w') = clock w'))
  /\ (forall w currentSlot laterSlot,
        let first := GetSlot env w in
        let second :=
          GetSlot env (worldOf (timeSleep env (3 * Second) (worldOf first))) in
        valueOf first = Ok currentSlot ->
        valueOf second = Ok laterSlot ->
        laterSlot <= currentSlot
        \/ plausible (PrimFloat.div 3.0%float
                        (Float64.ofInt ((laterSlot - currentSlot) mod 2 ^ 64)))
           = false ->
        sameEstimate (client w)
          (client (worldOf (updateBlockTimeInBackground env w))))
  /\ plausible 5.0%float = false
  /\ (forall w, Reachable timeParse env w ->
                plausible (lastBlockTime (client w)) = true
                /\ plausible (valueOf (GetCachedBlockTime w)) = true).
Proof.
  split; [intros url; split; reflexivity|].
  split; [apply updateBlockTime_estimate|].
  split; [|split; [reflexivity|]].
  - intros w currentSlot laterSlot. cbv zeta. apply updateBlockTime_discards.
  - intros w Hreach.
    pose proof (Reachable_plausible timeParse env w Hreach) as Hband.
    split; [exact Hband | apply GetCachedBlockTime_plausible; exact Hband].
Qed.

Lemma blockTime_stays_plausible_witness :
  sameEstimate (client (freshWorld 0))
    (client (worldOf (updateBlockTimeInBackground (node (advancing 0%float))
                        (freshWorld 0))))
  /\ sameEstimate (client (freshWorld 0))
       (client (worldOf (updateBlockTimeInBackground (node (advancing 1%float))
                           (freshWorld 0))))
  /\ plausible
       (lastBlockTime
          (client (worldOf (updateBlockTimeInBackground
                              (node (advancing 6%float)) (freshWorld 0)))))
     = true.
Proof.
  split; [|split].
  - apply (proj1 (proj2 (proj2 (blockTime_stays_plausible
                                  epochOnly (node (advancing 0%float)))))
             (freshWorld 0) 1000 1000);
      [vm_compute; reflexivity | vm_compute; reflexivity | left; lia].
  - apply (proj1 (proj2 (proj2 (blockTime_stays_plausible
                                  epochOnly (node (advancing 1%float)))))
             (freshWorld 0) 1000 1001);
      [vm_compute; reflexivity | vm_compute; reflexivity
      | right; vm_compute; reflexivity].
  - apply (proj2 (proj2 (proj2 (proj2 (blockTime_stays_plausible
                                         epochOnly (node (advancing 6%float))))))).
    apply ReachEstimate. apply (ReachNew _ _ _ 0).
Defined.

(** The three runs of the statement above: a chain that stands still, a
    chain that makes one slot in 3 s, and one that makes six. *)
Example estimator_runs :
  lastBlockTime (client (worldOf (updateBlockTimeInBackground
                                    (node (advancing 1%float)) (freshWorld 0))))
  = 0.4%float
  /\ lastBlockTime (client (worldOf (updateBlockTimeInBackground
                                       (node (advancing 6%float)) (freshWorld 0))))
     = 0.5%float
  /\ lastBlockTimeCheck
       (client (worldOf (updateBlockTimeInBackground
                           (node (advancing 6%float)) (freshWorld 0))))
     = 3 * Second.
Proof. repeat split; vm_compute; reflexivity. Qed.

(** * Further properties of the access layer *)

(** ** Retrying caller and transport *)

Section CallerFacts.

Variable timeParse : string -> string -> option Time.
Variable env : Environment.

Lemma updateRateLimit_run method w :
  updateRateLimit method w
  = (tt,
     {| client := withRateLimiter (client w)
                    (<[method := clock w]> (rateLimiter (client w)));
        clock := clock w;
        requests := requests w |},
     []).
Proof. reflexivity. Qed.


End CallerFacts.


(** X3. The Retry-After header of an HTTP 429 reaches the backoff: when a
    pass with attempts remaining gets a 429 reply whose header is an integer
    of [n] seconds and whose body is an error object with the code 429,
    [makeRPCCall] notes the header in the error object under "retryAfter" and
    the pass sleeps min(n s, 5 min) before it continues, for every [n]
    whose nanoseconds fit an int64. *)
Theorem server_hint_is_honoured
  (timeParse : string -> string -> option Time) (env : Environment)
  (method : string) (params : list iface) (attempt : Z) (w : World)
  (resp : HTTPResponse) (errorMap : gmap string iface) (n : Z) :
  valueOf (checkRateLimit method w) = true ->
  attempt <> maxRetries - 1 ->
  reply (post env (requests w) method params) = PostReplied resp ->
  StatusCode resp = 429 ->
  DecodeError resp = None ->
  Error (Body resp) = IMap errorMap ->
  codeIs429 errorMap = true ->
  RetryAfter resp <> "" ->
  Atoi (RetryAfter resp) = Some n ->
  -9223372036 <= n <= 9223372036 ->
  let annotated :=
    {| Result := Result (Body resp);
       Error := IMap (<["retryAfter" := IString (RetryAfter resp)]> errorMap) |} in
  let pass := iteration timeParse env method params attempt w in
  valueOf pass = Continue
  /\ traceOf pass
     = [Iteration attempt; Post method (Ok annotated);
        Sleep (Z.min (n * Second) (5 * Minute))].
Proof.
  intros Hcheck Hlast Hreply Hstatus Hdecode Herror Hcode Hheader Hint Hn
    annotated pass.
  set (call := makeRPCCall env method params (worldOf (updateRateLimit method w))).
  assert (Hcall : valueOf call = Ok annotated).
  { unfold call, makeRPCCall. rewrite updateRateLimit_run.
    cbn [worldOf valueOf fst snd requests].
    rewrite Hreply, Hstatus, Hdecode, Herror. cbn [Z.eqb Pos.eqb].
    apply String.eqb_neq in Hheader. rewrite Hheader. reflexivity. }
  assert (Hthrottled : isThrottled annotated = true).
  { unfold isThrottled, annotated, codeIs429 in *. cbn [Error].
    rewrite lookup_insert_ne by discriminate. exact Hcode. }
  assert (Hdelay : valueOf (throttleDelay timeParse
                              (<["retryAfter" := IString (RetryAfter resp)]>
                                 errorMap) attempt (worldOf call))
                   = Z.min (n * Second) (5 * Minute)).
  { apply (throttleDelay_hint timeParse _ attempt _ (RetryAfter resp));
      [apply lookup_insert_eq|].
    rewrite (parseRetryAfter_integer _ _ _ _ Hint).
    rewrite mul64_seconds by exact Hn. reflexivity. }
  unfold pass. rewrite iteration_dispatch by exact Hcheck. cbv zeta.
  fold call. rewrite Hcall, settle_throttled by exact Hthrottled.
  apply Z.eqb_neq in Hlast. rewrite Hlast. cbv zeta.
  cbn [Error annotated]. rewrite Hdelay. split; reflexivity.
Qed.


Lemma server_hint_is_honoured_witness :
  valueOf (iteration epochOnly (throttling "120") "getSlot" [] 0 (freshWorld 0))
  = Continue
  /\ traceOf (iteration epochOnly (throttling "120") "getSlot" [] 0
                (freshWorld 0))
     = [Iteration 0;
        Post "getSlot"
          (Ok {| Result := Result throttledResponse;
                 Error := IMap (<["retryAfter" := IString "120"]>
                                  (<["code" := IFloat64 429%float]>
                                     (<["message" := IString "Too many requests"]>
                                        ∅))) |});
        Sleep (Z.min (120 * Second) (5 * Minute))].
Proof.
  apply (server_hint_is_honoured epochOnly (throttling "120") "getSlot" [] 0
           (freshWorld 0)
           {| StatusCode := 429;
              RetryAfter := "120";
              Body := throttledResponse;
              DecodeError := None |}
           (<["code" := IFloat64 429%float]>
              (<["message" := IString "Too many requests"]> ∅)) 120);
    try reflexivity; try discriminate; lia.
Defined.

Section SoleCallerFacts.

Variable timeParse : string -> string -> option Time.
Variable env : Environment.

Lemma settle_continue attempt r w :
  valueOf (settle timeParse env attempt r w) = Continue ->
  exists d, settle timeParse env attempt r w
            = (Continue, worldOf (timeSleep env d w), [Sleep d]).
Proof.
  destruct r as [resp|e].
  - destruct (isThrottled resp) eqn:Hthrottled.
    + rewrite settle_throttled by exact Hthrottled.
      destruct (attempt =? maxRetries - 1); [discriminate|].
      intros _. eexists. reflexivity.
    + rewrite settle_other by exact Hthrottled. discriminate.
  - rewrite settle_transport_error.
    destruct (attempt =? maxRetries - 1); [discriminate|].
    intros _. eexists. reflexivity.
Qed.

Lemma Since_short now t :
  (Since now t <? 2 * Second) = (now - t <? 2 * Second).
Proof.
  unfold Since, Sub, minDuration, maxDuration, GoInt.minInt64, GoInt.maxInt64,
    Second.
  destruct (Z.ltb_spec (now - t) (2 * 1000000000));
    [apply Z.ltb_lt | apply Z.ltb_ge]; lia.
Qed.

(** After a dispatching pass that continues, the ledger entry of the method
    is the instant of that dispatch. *)
Lemma iteration_continue_ledger method params attempt w :
  soleCaller env method ->
  valueOf (checkRateLimit method w) = true ->
  valueOf (iteration timeParse env method params attempt w) = Continue ->
  rateLimiter (client (worldOf (iteration timeParse env method params attempt w)))
    !! method
  = Some (clock w).
Proof.
  intros Hsole Hcheck. rewrite iteration_dispatch by exact Hcheck. cbv zeta.
  cbn [valueOf worldOf fst snd]. intros Hcont.
  destruct (settle_continue _ _ _ Hcont) as [d Hd]. rewrite Hd.
  cbn [worldOf fst snd timeSleep client rateLimiter withRateLimiter].
  rewrite Hsole. apply lookup_insert_eq.
Qed.

End SoleCallerFacts.

(** X4. The caller's own dispatch holds the next pass back: with no other
    writer of the method's ledger entry, after a dispatching pass that
    continues the next check succeeds exactly when 2 s or more have gone by
    since the pass began. In particular a transport failure in the pass 0
    that took less than one second is followed by a rate-limited pass, as the
    backoff of 1 s is shorter than the quiescence interval. *)
Theorem own_dispatch_limits_next_pass
  (timeParse : string -> string -> option Time) (env : Environment)
  (method : string) (params : list iface) (attempt : Z) (w : World) :
  soleCaller env method ->
  valueOf (checkRateLimit method w) = true ->
  let pass := iteration timeParse env method params attempt w in
  (valueOf pass = Continue ->
   valueOf (checkRateLimit method (worldOf pass))
   = negb (clock (worldOf pass) - clock w <? 2 * Second))
  /\ (forall e,
        attempt = 0 ->
        valueOf (makeRPCCall env method params
                   (worldOf (updateRateLimit method w))) = Err e ->
        latency (post env (requests w) method params) < 1 * Second ->
        valueOf pass = Continue
        /\ valueOf (checkRateLimit method (worldOf pass)) = false).
Proof.
  intros Hsole Hcheck pass.
  assert (Hnext : valueOf pass = Continue ->
                  valueOf (checkRateLimit method (worldOf pass))
                  = negb (clock (worldOf pass) - clock w <? 2 * Second)).
  { intros Hcont. rewrite checkRateLimit_lookup.
    unfold pass.
    rewrite (iteration_continue_ledger timeParse env method params attempt w
               Hsole Hcheck Hcont).
    rewrite Since_short. reflexivity. }
  split; [exact Hnext|].
  intros e -> Hcall Hfast.
  assert (Hpass : pass
                  = (Continue,
                     worldOf (timeSleep env (backoff 0)
                                (worldOf (makeRPCCall env method params
                                            (worldOf (updateRateLimit method w))))),
                     [Iteration 0; Post method (Err e); Sleep (backoff 0)])).
  { unfold pass. rewrite iteration_dispatch by exact Hcheck. cbv zeta.
    rewrite Hcall, settle_transport_error. reflexivity. }
  assert (Hcont : valueOf pass = Continue) by (rewrite Hpass; reflexivity).
  split; [exact Hcont|].
  rewrite (Hnext Hcont), Hpass.
  cbn [worldOf fst snd timeSleep clock makeRPCCall updateRateLimit].
  rewrite updateRateLimit_run. cbn [worldOf fst snd clock requests].
  replace (backoff 0) with (1 * Second) by (vm_compute; reflexivity).
  apply negb_false_iff, Z.ltb_lt. unfold Second in *. lia.
Qed.

Lemma own_dispatch_limits_next_pass_witness :
  valueOf (iteration epochOnly (unreachable 0) "getSlot" [] 0 (freshWorld 0))
  = Continue
  /\ valueOf (checkRateLimit "getSlot"
                (worldOf (iteration epochOnly (unreachable 0) "getSlot" [] 0
                            (freshWorld 0))))
     = false.
Proof.
  apply (proj2 (own_dispatch_limits_next_pass epochOnly (unreachable 0)
                  "getSlot" [] 0 (freshWorld 0)
                  (fun _ _ => eq_refl) eq_refl)
           "connection refused");
    [reflexivity | reflexivity | vm_compute; reflexivity].
Defined.

Lemma posts_app t1 t2 : posts (t1 ++ t2) = posts t1 ++ posts t2.
Proof. unfold posts. apply omap_app. Qed.

(** X5. A call is never turned away without a request when nobody else
    writes the method's ledger entry and the entry is not in the future: the
    pass 0 dispatches, or it is rate limited and the pass 1 dispatches. *)
Theorem sole_caller_dispatches
  (timeParse : string -> string -> option Time) (env : Environment)
  (method : string) (params : list iface) (w : World) :
  soleCaller env method ->
  (forall lastCall, rateLimiter (client w) !! method = Some lastCall ->
                    lastCall <= clock w) ->
  exists out rest,
    posts (traceOf (makeRPCCallWithRetry timeParse env method params w))
    = out :: rest.
Proof.
  intros Hsole Hpast.
  change (makeRPCCallWithRetry timeParse env method params w)
    with (retryLoop timeParse env method params 3%nat w).
  assert (Hdispatch : forall remaining attempt w0,
             valueOf (checkRateLimit method w0) = true ->
             let pass := iteration timeParse env method params attempt w0 in
             exists out rest,
               posts (traceOf
                        match valueOf pass with
                        | Return r => (r, worldOf pass, traceOf pass)
                        | Continue =>
                            let rest := retryLoop timeParse env method params
                                          remaining (worldOf pass) in
                            (valueOf rest, worldOf rest,
                             traceOf pass ++ traceOf rest)
                        end)
               = out :: rest).
  { intros remaining attempt w0 Hcheck pass. unfold pass.
    rewrite iteration_dispatch by exact Hcheck. cbv zeta.
    destruct (settle timeParse env attempt _ _) as [[flow w1] t1].
    cbn [valueOf worldOf traceOf fst snd].
    destruct flow; unfold traceOf; cbn [snd]; [rewrite posts_app|];
      eexists; eexists; reflexivity. }
  destruct (valueOf (checkRateLimit method w)) eqn:Hcheck.
  - rewrite retryLoop_step. apply Hdispatch. exact Hcheck.
  - rewrite retryLoop_step, iteration_rate_limited by exact Hcheck.
    cbv zeta. cbn [valueOf worldOf traceOf fst snd].
    rewrite posts_app. cbn [posts omap list_omap app].
    rewrite retryLoop_step. apply Hdispatch.
    rewrite checkRateLimit_lookup in *.
    cbn [worldOf fst snd timeSleep client clock rateLimiter withRateLimiter].
    rewrite Hsole.
    destruct (rateLimiter (client w) !! method) as [lastCall|]; [|reflexivity].
    specialize (Hpast lastCall eq_refl).
    rewrite Since_short. apply negb_true_iff, Z.ltb_ge.
    unfold Second. lia.
Qed.

Lemma sole_caller_dispatches_witness :
  exists out rest,
    posts (traceOf (makeRPCCallWithRetry epochOnly (unreachable 0) "getSlot" []
                      justCalled))
    = out :: rest.
Proof.
  apply (sole_caller_dispatches epochOnly (unreachable 0) "getSlot" []
           justCalled (fun _ _ => eq_refl)).
  intros lastCall Hlast. vm_compute in Hlast.
  injection Hlast as <-. vm_compute. discriminate.
Defined.

Lemma Passes_last method attempt remaining t r :
  Passes method attempt remaining t r ->
  match last t with
  | Some (Post _ out) => r = out
  | _ => r = Err "max retries exceeded"
  end.
Proof.
  induction 1 as [attempt
                 |attempt remaining t r _ IH
                 |attempt remaining out _
                 |attempt remaining out delay t r _ _ _ IH].
  - reflexivity.
  - destruct t as [|e t]; [exact IH|].
    rewrite 2!last_cons_cons. exact IH.
  - reflexivity.
  - destruct t as [|e t]; [exact IH|].
    rewrite 3!last_cons_cons. exact IH.
Qed.

(** X6. The result of a call is the outcome of the last request it made,
    whenever a request is the last thing the call did; a call that ends
    otherwise, its final pass being rate limited, returns the error
    "max retries exceeded". *)
Theorem result_is_last_outcome
  (timeParse : string -> string -> option Time) (env : Environment)
  (method : string) (params : list iface) (w : World) :
  let r := makeRPCCallWithRetry timeParse env method params w in
  match last (traceOf r) with
  | Some (Post _ out) => valueOf r = out
  | _ => valueOf r = Err "max retries exceeded"
  end.
Proof.
  exact (Passes_last _ _ _ _ _
           (makeRPCCallWithRetry_passes timeParse env method params w)).
Qed.

Lemma result_is_last_outcome_witness :
  valueOf (makeRPCCallWithRetry epochOnly (unreachable 0) "getSlot" []
             (freshWorld 0))
  = Err "connection refused".
Proof.
  exact (result_is_last_outcome epochOnly (unreachable 0) "getSlot" []
           (freshWorld 0)).
Defined.

(** ** Retry-After parser, all forms *)

Lemma parseFallback_acceptable timeParse now formats s d :
  parseFallback timeParse now formats s = Some d -> 0 < d <= 5 * Minute.
Proof.
  induction formats as [|format rest IH]; cbn [parseFallback]; [discriminate|].
  destruct (timeParse format s) as [t|]; [|exact IH].
  destruct (Z.ltb_spec 0 (Until now t)); cbn [andb]; [|exact IH].
  destruct (Z.leb_spec (Until now t) (5 * Minute)); [|exact IH].
  intros [= <-]. lia.
Qed.

(** X7. Whatever the header, a wait that [parseRetryAfter] returns is at most
    5 minutes, and a wait that comes from a date form is strictly positive:
    a caller that sleeps the parsed wait never blocks longer than 5 minutes. *)
Theorem parseRetryAfter_bounded
  (timeParse : string -> string -> option Time) (now : Time)
  (s : string) (d : Duration) :
  parseRetryAfter timeParse now s = Ok d ->
  d <= 5 * Minute /\ (Atoi s = None -> 0 < d).
Proof.
  unfold parseRetryAfter. destruct (Atoi s) as [n|].
  - destruct (Z.ltb_spec (5 * Minute) (GoInt.mul64 n Second));
      intros [= <-]; split; try lia; discriminate.
  - destruct (timeParse RFC1123 s) as [t|].
    + destruct (Z.ltb_spec 0 (Until now t)); cbn [andb].
      * destruct (Z.leb_spec (Until now t) (5 * Minute)).
        -- intros [= <-]. split; [lia | intros _; lia].
        -- destruct (parseFallback timeParse now fallbackFormats s) as [d'|] eqn:Hf;
             [|discriminate].
           intros [= <-]. apply parseFallback_acceptable in Hf.
           split; [lia | intros _; lia].
      * destruct (parseFallback timeParse now fallbackFormats s) as [d'|] eqn:Hf;
          [|discriminate].
        intros [= <-]. apply parseFallback_acceptable in Hf.
        split; [lia | intros _; lia].
    + destruct (parseFallback timeParse now fallbackFormats s) as [d'|] eqn:Hf;
        [|discriminate].
      intros [= <-]. apply parseFallback_acceptable in Hf.
      split; [lia | intros _; lia].
Qed.

Lemma parseRetryAfter_bounded_witness :
  Z.leb (Until 0 (90 * Second)) (5 * Minute) = true
  /\ Z.ltb 0 (Until 0 (90 * Second)) = true.
Proof.
  assert (Hparse : parseRetryAfter
                     (fun layout _ =>
                        if String.eqb layout RFC3339 then Some (90 * Second)
                        else None)
                     0 "1970-01-01T00:01:30Z"
                   = Ok (Until 0 (90 * Second))) by reflexivity.
  destruct (parseRetryAfter_bounded _ _ _ _ Hparse) as [Hle Hpos].
  split; [apply Z.leb_le; exact Hle | apply Z.ltb_lt; apply Hpos; reflexivity].
Defined.

(** ** Queries *)

(** Runs a query up to the outcome of its request. *)
Ltac expose_call :=
  unfold bind;
  match goal with
  | |- context [makeRPCCall ?e ?m ?p ?w] =>
      let Hcall := fresh "Hcall" in
      let Htrace := fresh "Htrace" in
      pose proof (makeRPCCall_trace e m p w) as Htrace;
      destruct (makeRPCCall e m p w) as [[out w1] t1] eqn:Hcall;
      cbn [valueOf worldOf traceOf fst snd] in Htrace |- *;
      subst t1
  end.

Lemma omap_asMap_filter (samples : list iface) :
  IMap <$> omap asMap samples
  = filter (fun v => is_Some (asMap v)) samples.
Proof.
  induction samples as [|v rest IH]; [reflexivity|].
  rewrite filter_cons. destruct v; cbn [omap list_omap asMap fmap list_fmap];
    first [ rewrite decide_True by (eexists; reflexivity);
            cbn [fmap list_fmap]; f_equal; exact IH
          | rewrite decide_False by (intros [? ?]; discriminate); exact IH ].
Qed.

Lemma omap_asMap_length (samples : list iface) :
  (length (omap asMap samples) <= length samples)%nat.
Proof.
  induction samples as [|v rest IH]; [reflexivity|].
  destruct v; cbn [omap list_omap asMap length]; lia.
Qed.

(** X8. [GetPerformanceSamples] makes one request. On a reply whose result
    is a list it keeps exactly the objects of the list, in their order, and
    drops every other element, whether or not the reply also carries an
    error object; a result that is no list is the error "invalid performance
    samples response", and a transport failure is handed on. *)
Theorem GetPerformanceSamples_keeps_objects (env : Environment) (limit : Z)
  (w : World) :
  let call := makeRPCCall env "getRecentPerformanceSamples"
                [IFloat64 (Float64.ofInt limit)] w in
  let r := GetPerformanceSamples env limit w in
  traceOf r = [Post "getRecentPerformanceSamples" (valueOf call)]
  /\ worldOf r = worldOf call
  /\ (forall e, valueOf call = Err e -> valueOf r = Err e)
  /\ (forall resp samples,
        valueOf call = Ok resp -> Result resp = ISlice samples ->
        exists l, valueOf r = Ok l
                  /\ IMap <$> l = filter (fun v => is_Some (asMap v)) samples
                  /\ (length l <= length samples)%nat)
  /\ (forall resp,
        valueOf call = Ok resp ->
        (forall samples, Result resp <> ISlice samples) ->
        valueOf r = Err "invalid performance samples response").
Proof.
  cbv zeta. unfold GetPerformanceSamples. expose_call.
  destruct out as [resp|e].
  - destruct (Result resp) as [| | | |samples|] eqn:Hresult;
      (split; [reflexivity|]); (split; [reflexivity|]);
      (split; [discriminate|]); split;
      try (intros resp' samples' [= <-] Hres; congruence);
      try (intros resp' [= <-] Hnot; reflexivity).
    + intros resp' samples' [= <-] Hres. rewrite Hresult in Hres.
      injection Hres as <-. eexists. split; [reflexivity|].
      split; [apply omap_asMap_filter | apply omap_asMap_length].
    + intros resp' [= <-] Hnot. destruct (Hnot samples). exact Hresult.
  - split; [reflexivity|]. split; [reflexivity|].
    split; [intros e' [= <-]; reflexivity|].
    split; intros; discriminate.
Qed.

Lemma GetPerformanceSamples_keeps_objects_witness :
  exists l,
    valueOf (GetPerformanceSamples
               (answering (ISlice [IMap (perfSample 100%float 10%float);
                                   IString "n/a"]) INil)
               20 (freshWorld 0))
    = Ok l
    /\ IMap <$> l
       = filter (fun v => is_Some (asMap v))
           [IMap (perfSample 100%float 10%float); IString "n/a"]
    /\ (length l <= 2)%nat.
Proof.
  apply (proj1 (proj2 (proj2 (proj2
           (GetPerformanceSamples_keeps_objects
              (answering (ISlice [IMap (perfSample 100%float 10%float);
                                  IString "n/a"]) INil)
              20 (freshWorld 0)))))
           {| Result := ISlice [IMap (perfSample 100%float 10%float);
                                IString "n/a"];
              Error := INil |});
    reflexivity.
Defined.

(** X9. [GetAccountInfo] makes one request and fails only when the
    transport fails. On any reply it returns an account for the address
    asked: a valid one exactly when the reply has no error object and its
    result is an object whose "value" is an object, with the balance
    lamports / 1e9, the lamports converted to uint64 (a negative number
    wraps around modulo 2^64, as [Float64.toUint64] has it) and the owner of
    that value; otherwise the record [{Address, IsValid: false}] with every
    other field zero. *)
Theorem GetAccountInfo_degrades (env : Environment) (address : string)
  (w : World) :
  let call := makeRPCCall env "getAccountInfo" [IString address] w in
  let r := GetAccountInfo env address w in
  traceOf r = [Post "getAccountInfo" (valueOf call)]
  /\ worldOf r = worldOf call
  /\ (forall e, valueOf call = Err e -> valueOf r = Err e)
  /\ (forall resp,
        valueOf call = Ok resp ->
        exists info,
          valueOf r = Ok info
          /\ Address info = address
          /\ (IsValid info = false -> info = invalidAccount address)
          /\ (IsValid info = true ->
              Error resp = INil
              /\ exists result value,
                   Result resp = IMap result
                   /\ result !! "value" = Some (IMap value)
                   /\ Balance info
                      = PrimFloat.div (float64Field value "lamports") 1e9%float
                   /\ Lamports info
                      = Float64.toUint64 (float64Field value "lamports")
                   /\ Owner info = stringField value "owner")
          /\ (forall result value,
                Error resp = INil ->
                Result resp = IMap result ->
                result !! "value" = Some (IMap value) ->
                IsValid info = true)).
Proof.
  cbv zeta. unfold GetAccountInfo. expose_call.
  destruct out as [resp|e].
  2:{ split; [reflexivity|]. split; [reflexivity|].
      split; [intros e' [= <-]; reflexivity | intros; discriminate]. }
  assert (Hinvalid :
            (Error resp <> INil
             \/ forall result value,
                  Result resp = IMap result ->
                  result !! "value" <> Some (IMap value)) ->
            exists info,
              Ok (invalidAccount address) = Ok info
              /\ Address info = address
              /\ (IsValid info = false -> info = invalidAccount address)
              /\ (IsValid info = true ->
                  Error resp = INil
                  /\ exists result value,
                       Result resp = IMap result
                       /\ result !! "value" = Some (IMap value)
                       /\ Balance info
                          = PrimFloat.div (float64Field value "lamports")
                              1e9%float
                       /\ Lamports info
                          = Float64.toUint64 (float64Field value "lamports")
                       /\ Owner info = stringField value "owner")
              /\ (forall result value,
                    Error resp = INil ->
                    Result resp = IMap result ->
                    result !! "value" = Some (IMap value) ->
                    IsValid info = true)).
  { intros Hwhy. exists (invalidAccount address).
    split; [reflexivity|]. split; [reflexivity|]. split; [reflexivity|].
    split; [discriminate|].
    intros result value Herr Hres Hval. exfalso.
    destruct Hwhy as [Hwhy | Hwhy]; [exact (Hwhy Herr)|].
    exact (Hwhy result value Hres Hval). }
  destruct (Error resp) eqn:Herror; cbn [notNil];
    try (split; [reflexivity|]; split; [reflexivity|];
         split; [discriminate|];
         intros resp' [= <-]; rewrite Herror;
         apply Hinvalid; left; discriminate).
  destruct (Result resp) as [| | | | |result] eqn:Hresult; cbn [notNil negb];
    try (split; [reflexivity|]; split; [reflexivity|];
         split; [discriminate|];
         intros resp' [= <-]; rewrite Herror, Hresult;
         apply Hinvalid; right; intros; discriminate).
  destruct (result !! "value") as [[| | | | |value]|] eqn:Hvalue;
    try (split; [reflexivity|]; split; [reflexivity|];
         split; [discriminate|];
         intros resp' [= <-]; rewrite Herror, Hresult;
         apply Hinvalid; right; intros result' value' [= <-];
         rewrite Hvalue; discriminate).
  split; [reflexivity|]. split; [reflexivity|]. split; [discriminate|].
  intros resp' [= <-]. rewrite Herror, Hresult.
  eexists. split; [reflexivity|]. cbn [Address IsValid Balance Lamports Owner].
  split; [reflexivity|]. split; [discriminate|].
  split; [|reflexivity].
  intros _. split; [reflexivity|].
  exists result, value. repeat split; [exact Hvalue].
Qed.

Lemma GetAccountInfo_degrades_witness :
  (exists info,
      valueOf (GetAccountInfo (answering walletResult INil) "wallet"
                 (freshWorld 0))
      = Ok info
      /\ IsValid info = true
      /\ Balance info = 1.5%float
      /\ Lamports info = 1500000000)
  /\ (exists info,
        valueOf (GetAccountInfo
                   (answering
                      (IMap (<["value" :=
                                 IMap (<["lamports" := IFloat64 (-1)%float]> ∅)]>
                               ∅))
                      INil)
                   "wallet" (freshWorld 0))
        = Ok info
        /\ Lamports info = 18446744073709551615).
Proof.
  split.
  - destruct (proj2 (proj2 (proj2 (GetAccountInfo_degrades
                                     (answering walletResult INil) "wallet"
                                     (freshWorld 0))))
                {| Result := walletResult; Error := INil |} eq_refl)
      as (info & Hinfo & _ & _ & Hvalid & Hshape).
    exists info. split; [exact Hinfo|].
    assert (Hok : IsValid info = true)
      by (apply (Hshape (<["value" := IMap walletValue]> ∅) walletValue);
          reflexivity).
    split; [exact Hok|].
    destruct (Hvalid Hok) as (_ & result & value & Hres & Hval & Hbal & Hlam & _).
    injection Hres as <-. vm_compute in Hval. injection Hval as <-.
    split; [rewrite Hbal | rewrite Hlam]; vm_compute; reflexivity.
  - destruct (proj2 (proj2 (proj2 (GetAccountInfo_degrades
                                     (answering
                                        (IMap (<["value" :=
                                                   IMap (<["lamports" :=
                                                             IFloat64 (-1)%float]>
                                                           ∅)]> ∅))
                                        INil)
                                     "wallet" (freshWorld 0))))
                {| Result :=
                     IMap (<["value" :=
                               IMap (<["lamports" := IFloat64 (-1)%float]> ∅)]> ∅);
                   Error := INil |} eq_refl)
      as (info & Hinfo & _ & _ & Hvalid & Hshape).
    exists info. split; [exact Hinfo|].
    assert (Hok : IsValid info = true)
      by (apply (Hshape (<["value" :=
                             IMap (<["lamports" := IFloat64 (-1)%float]> ∅)]> ∅)
                   (<["lamports" := IFloat64 (-1)%float]> ∅));
          reflexivity).
    destruct (Hvalid Hok) as (_ & result & value & Hres & Hval & _ & Hlam & _).
    injection Hres as <-. vm_compute in Hval. injection Hval as <-.
    rewrite Hlam. vm_compute. reflexivity.
Defined.

(** Case analysis on every [match] and [if] of the goal. *)
Ltac destruct_matches :=
  repeat match goal with
         | |- context [match ?x with _ => _ end] =>
             lazymatch type of x with
             | prod _ _ => fail
             | _ => destruct x eqn:?
             end
         end.

Section QueryRuns.

Variable env : Environment.

Lemma GetAccountInfo_run address w :
  traceOf (GetAccountInfo env address w)
  = [Post "getAccountInfo"
       (valueOf (makeRPCCall env "getAccountInfo" [IString address] w))]
  /\ worldOf (GetAccountInfo env address w)
     = worldOf (makeRPCCall env "getAccountInfo" [IString address] w).
Proof.
  unfold GetAccountInfo. expose_call. destruct_matches; split; reflexivity.
Qed.

Lemma GetEpochInfo_run w :
  traceOf (GetEpochInfo env w)
  = [Post "getEpochInfo" (valueOf (makeRPCCall env "getEpochInfo" [] w))]
  /\ worldOf (GetEpochInfo env w)
     = worldOf (makeRPCCall env "getEpochInfo" [] w).
Proof.
  unfold GetEpochInfo. expose_call. destruct_matches; split; reflexivity.
Qed.

Lemma GetValidatorCount_run w :
  traceOf (GetValidatorCount env w)
  = [Post "getVoteAccounts" (valueOf (makeRPCCall env "getVoteAccounts" [] w))]
  /\ worldOf (GetValidatorCount env w)
     = worldOf (makeRPCCall env "getVoteAccounts" [] w).
Proof.
  unfold GetValidatorCount. expose_call. destruct_matches; split; reflexivity.
Qed.

Lemma GetPerformanceSamples_run limit w :
  traceOf (GetPerformanceSamples env limit w)
  = [Post "getRecentPerformanceSamples"
       (valueOf (makeRPCCall env "getRecentPerformanceSamples"
                   [IFloat64 (Float64.ofInt limit)] w))]
  /\ worldOf (GetPerformanceSamples env limit w)
     = worldOf (makeRPCCall env "getRecentPerformanceSamples"
                  [IFloat64 (Float64.ofInt limit)] w).
Proof.
  unfold GetPerformanceSamples. expose_call.
  destruct_matches; split; reflexivity.
Qed.

Lemma GetSlot_run w :
  traceOf (GetSlot env w)
  = [Post "getSlot" (valueOf (makeRPCCall env "getSlot" [] w))]
  /\ worldOf (GetSlot env w) = worldOf (makeRPCCall env "getSlot" [] w).
Proof.
  unfold GetSlot. expose_call. destruct_matches; split; reflexivity.
Qed.

End QueryRuns.

(** X10. [GetBalance] makes one request and returns a balance exactly when
    the reply has no error object and its result is an object whose "value"
    is a number; the balance is then value / 1e9. Unlike [GetAccountInfo] it
    turns an error object of the node into an error of its own. *)
Theorem GetBalance_outcomes (env : Environment) (formatValue : iface -> string)
  (address : string) (w : World) :
  let call := makeRPCCall env "getBalance" [IString address] w in
  let r := GetBalance env formatValue address w in
  traceOf r = [Post "getBalance" (valueOf call)]
  /\ (forall e, valueOf call = Err e -> valueOf r = Err e)
  /\ (forall resp,
        valueOf call = Ok resp ->
        (forall balance,
            valueOf r = Ok balance
            <-> Error resp = INil
                /\ exists result value,
                     Result resp = IMap result
                     /\ result !! "value" = Some (IFloat64 value)
                     /\ balance = PrimFloat.div value 1e9%float)
        /\ (Error resp <> INil ->
            valueOf r
            = Err (String.append "RPC error: " (formatValue (Error resp))))).
Proof.
  cbv zeta. unfold GetBalance. expose_call.
  destruct out as [resp|e].
  2:{ split; [reflexivity|].
      split; [intros e' [= <-]; reflexivity | intros; discriminate]. }
  split.
  { destruct_matches; reflexivity. }
  split; [discriminate|].
  intros resp' [= <-]. split.
  - intros balance.
    destruct (Error resp) eqn:Herror; cbn [notNil valueOf ret fst];
      try (split; [discriminate | intros [? _]; discriminate]).
    destruct (Result resp) as [| | | | |result] eqn:Hresult;
      cbn [valueOf ret fst];
      try (split; [discriminate | intros (_ & ? & ? & ? & _); discriminate]).
    destruct (result !! "value") as [[| |value| | |]|] eqn:Hvalue;
      cbn [valueOf ret fst];
      try (split; [discriminate
                  | intros (_ & ? & ? & [= <-] & Hv & _); rewrite Hvalue in Hv;
                    discriminate]).
    split.
    + intros [= <-]. split; [reflexivity|].
      exists result, value. repeat split. exact Hvalue.
    + intros (_ & result' & value' & [= <-] & Hv & ->).
      rewrite Hvalue in Hv. injection Hv as <-. reflexivity.
  - intros Hnil. destruct (Error resp); try reflexivity.
    destruct Hnil. reflexivity.
Qed.

Lemma GetBalance_outcomes_witness :
  valueOf (GetBalance (answering (IMap (<["value" := IFloat64 1500000000%float]> ∅))
                         INil)
             opaqueValue "wallet" (freshWorld 0))
  = Ok 1.5%float
  /\ valueOf (GetBalance (answering INil (IMap (<["code" := IFloat64 (-32602)%float]> ∅)))
                opaqueValue "wallet" (freshWorld 0))
     = Err "RPC error: <value>".
Proof.
  split.
  - apply (proj1 (proj2 (proj2 (GetBalance_outcomes
                                  (answering (IMap (<["value" := IFloat64 1500000000%float]> ∅))
                                     INil)
                                  opaqueValue "wallet" (freshWorld 0)))
                    {| Result := IMap (<["value" := IFloat64 1500000000%float]> ∅);
                       Error := INil |} eq_refl)).
    split; [reflexivity|].
    exists (<["value" := IFloat64 1500000000%float]> ∅), 1500000000%float.
    repeat split; vm_compute; reflexivity.
  - apply (proj2 (proj2 (proj2 (GetBalance_outcomes
                                  (answering INil (IMap (<["code" := IFloat64 (-32602)%float]> ∅)))
                                  opaqueValue "wallet" (freshWorld 0)))
                    {| Result := INil;
                       Error := IMap (<["code" := IFloat64 (-32602)%float]> ∅) |}
                    eq_refl)).
    discriminate.
Defined.

Lemma digits_nonneg s acc n :
  0 <= acc -> Strconv.digits s acc = Some n -> 0 <= n.
Proof.
  revert acc. induction s as [|c rest IH]; intros acc Hacc; cbn [Strconv.digits].
  - intros [= <-]. exact Hacc.
  - unfold Strconv.digit.
    destruct ((48 <=? Z.of_N (N_of_ascii c)) && (Z.of_N (N_of_ascii c) <=? 57))
      eqn:Hdigit; [|discriminate].
    apply andb_true_iff in Hdigit as [Hlow _]. apply Z.leb_le in Hlow.
    apply IH. lia.
Qed.

Lemma ParseUint_range s n : ParseUint s = Some n -> 0 <= n < 2 ^ 64.
Proof.
  unfold ParseUint. destruct s as [|c rest]; [discriminate|].
  destruct (Strconv.digits (String c rest) 0) as [m|] eqn:Hdigits;
    [|discriminate].
  destruct (Z.ltb_spec m (2 ^ 64)); [|discriminate].
  intros [= <-]. split; [|assumption].
  eapply digits_nonneg; [|exact Hdigits]. lia.
Qed.

(** X11. [GetTokenSupply] fails only when its first request fails in the
    transport. A reply without error object whose result holds a "value"
    object gives a valid token, whatever becomes of the account lookup that
    follows: the lookup is a second request, its failure is swallowed, and
    [IsInitialized] is set exactly when it returns a valid account. The
    supply is the amount when it is an unsigned 64-bit decimal and 0
    otherwise. The token is valid for these replies only: a reply with an
    error object, or whose result holds no "value" object, gives
    [{MintAddress, IsValid: false}] after the one request. *)
Theorem GetTokenSupply_tolerates_lookup (env : Environment)
  (mathPow : float -> float -> float) (mintAddress : string) (w : World) :
  let call := makeRPCCall env "getTokenSupply" [IString mintAddress] w in
  let r := GetTokenSupply env mathPow mintAddress w in
  (forall e,
      valueOf call = Err e ->
      valueOf r = Err e /\ traceOf r = [Post "getTokenSupply" (Err e)])
  /\ (forall resp,
        valueOf call = Ok resp ->
        exists info,
          valueOf r = Ok info
          /\ (TokenInfo.IsValid info = true
              <-> Error resp = INil
                  /\ exists result value,
                       Result resp = IMap result
                       /\ result !! "value" = Some (IMap value))
          /\ TokenInfo.MintAddress info = mintAddress
          /\ 0 <= TokenInfo.Supply info < 2 ^ 64
          /\ (TokenInfo.IsValid info = false ->
              info = TokenInfo.invalid mintAddress
              /\ traceOf r = [Post "getTokenSupply" (Ok resp)])
          /\ (TokenInfo.IsValid info = true ->
              let lookup := GetAccountInfo env mintAddress (worldOf call) in
              traceOf r = Post "getTokenSupply" (Ok resp) :: traceOf lookup
              /\ (TokenInfo.IsInitialized info = true
                  <-> exists account,
                        valueOf lookup = Ok account /\ IsValid account = true))
          /\ (forall result value,
                Error resp = INil ->
                Result resp = IMap result ->
                result !! "value" = Some (IMap value) ->
                TokenInfo.IsValid info = true
                /\ TokenInfo.Supply info
                   = default 0 (ParseUint (stringField value "amount"))
                /\ TokenInfo.ActualSupply info
                   = PrimFloat.div
                       (Float64.ofInt
                          (default 0 (ParseUint (stringField value "amount"))))
                       (mathPow 10%float (float64Field value "decimals")))).
Proof.
  cbv zeta. unfold GetTokenSupply. expose_call.
  destruct out as [resp|e].
  2:{ split; [intros e' [= <-]; split; reflexivity | intros; discriminate]. }
  split; [discriminate|]. intros resp' [= <-].
  assert (Hinvalid :
            forall t,
              t = [Post "getTokenSupply" (Ok resp)] ->
              (Error resp <> INil
               \/ forall result value,
                    Result resp = IMap result ->
                    result !! "value" <> Some (IMap value)) ->
              exists info,
                Ok (TokenInfo.invalid mintAddress) = Ok info
                /\ (TokenInfo.IsValid info = true
                    <-> Error resp = INil
                        /\ exists result value,
                             Result resp = IMap result
                             /\ result !! "value" = Some (IMap value))
                /\ TokenInfo.MintAddress info = mintAddress
                /\ 0 <= TokenInfo.Supply info < 2 ^ 64
                /\ (TokenInfo.IsValid info = false ->
                    info = TokenInfo.invalid mintAddress
                    /\ t = [Post "getTokenSupply" (Ok resp)])
                /\ (TokenInfo.IsValid info = true ->
                    t = Post "getTokenSupply" (Ok resp)
                          :: traceOf (GetAccountInfo env mintAddress w1)
                    /\ (TokenInfo.IsInitialized info = true
                        <-> exists account,
                              valueOf (GetAccountInfo env mintAddress w1)
                              = Ok account
                              /\ IsValid account = true))
                /\ (forall result value,
                      Error resp = INil ->
                      Result resp = IMap result ->
                      result !! "value" = Some (IMap value) ->
                      TokenInfo.IsValid info = true
                      /\ TokenInfo.Supply info
                         = default 0 (ParseUint (stringField value "amount"))
                      /\ TokenInfo.ActualSupply info
                         = PrimFloat.div
                             (Float64.ofInt
                                (default 0
                                   (ParseUint (stringField value "amount"))))
                             (mathPow 10%float
                                (float64Field value "decimals")))).
  { intros t -> Hwhy. exists (TokenInfo.invalid mintAddress).
    split; [reflexivity|].
    split.
    { split; [discriminate|].
      intros (Herr & result & value & Hres & Hval). exfalso.
      destruct Hwhy as [Hwhy | Hwhy]; [exact (Hwhy Herr)|].
      exact (Hwhy result value Hres Hval). }
    split; [reflexivity|].
    split; [cbn; lia|]. split; [split; reflexivity|].
    split; [discriminate|].
    intros result value Herr Hres Hval. exfalso.
    destruct Hwhy as [Hwhy | Hwhy]; [exact (Hwhy Herr)|].
    exact (Hwhy result value Hres Hval). }
  destruct (Error resp) eqn:Herror; cbn [notNil];
    try (apply Hinvalid; [reflexivity | left; discriminate]).
  destruct (Result resp) as [| | | | |result] eqn:Hresult;
    try (apply Hinvalid; [reflexivity | right; intros; discriminate]).
  destruct (result !! "value") as [[| | | | |value]|] eqn:Hvalue;
    try (apply Hinvalid;
         [reflexivity
         | right; intros result' value' [= <-]; rewrite Hvalue; discriminate]).
  clear Hinvalid.
  set (supply := match ParseUint (stringField value "amount") with
                 | Some n => n
                 | None => 0
                 end).
  assert (Hsupply : 0 <= supply < 2 ^ 64).
  { unfold supply.
    destruct (ParseUint (stringField value "amount")) as [n|] eqn:Hparse;
      [exact (ParseUint_range _ _ Hparse) | lia]. }
  destruct (GetAccountInfo env mintAddress w1) as [[lookup w2] t2] eqn:Hlookup.
  cbn [valueOf worldOf traceOf fst snd].
  destruct lookup as [account|e];
    [destruct (IsValid account) eqn:Hvalid|];
    cbn [ret app]; rewrite app_nil_r;
    (eexists; split; [reflexivity|]);
    cbn [TokenInfo.initialized TokenInfo.MintAddress TokenInfo.Supply
           TokenInfo.IsValid TokenInfo.IsInitialized TokenInfo.ActualSupply];
    (split;
     [split;
      [intros _; split;
       [reflexivity | exists result, value; split; [reflexivity | exact Hvalue]]
      | intros _; reflexivity]|]);
    (split; [reflexivity|]); (split; [exact Hsupply|]);
    (split; [discriminate|]); split;
    try (intros result' value' _ [= <-] Hv; rewrite Hvalue in Hv;
         injection Hv as <-; repeat split; reflexivity);
    intros _; (split; [reflexivity|]); split;
    try discriminate.
  - intros _. exists account. split; [reflexivity | exact Hvalid].
  - intros _. reflexivity.
  - intros (account' & [= <-] & Hv). congruence.
  - intros (account' & [=] & _).
Qed.

Lemma GetTokenSupply_tolerates_lookup_witness :
  (exists info,
      valueOf (GetTokenSupply mintOnly powOfTen "mint" (freshWorld 0)) = Ok info
      /\ TokenInfo.IsValid info = true
      /\ TokenInfo.Supply info = 123456
      /\ TokenInfo.ActualSupply info = 1234.56%float)
  /\ valueOf (GetTokenSupply (answering INil (IString "no such mint")) powOfTen
                "mint" (freshWorld 0))
     = Ok (TokenInfo.invalid "mint").
Proof.
  split.
  2:{ destruct (proj2 (GetTokenSupply_tolerates_lookup
                         (answering INil (IString "no such mint")) powOfTen
                         "mint" (freshWorld 0))
                  {| Result := INil; Error := IString "no such mint" |} eq_refl)
        as (info & Hinfo & Hiff & _ & _ & Hinvalid & _).
      rewrite Hinfo. f_equal. apply Hinvalid.
      destruct (TokenInfo.IsValid info); [|reflexivity].
      destruct (proj1 Hiff eq_refl) as [Herr _]. discriminate Herr. }
  destruct (proj2 (GetTokenSupply_tolerates_lookup mintOnly powOfTen "mint"
                     (freshWorld 0))
              {| Result := IMap (<["value" :=
                                     IMap (<["amount" := IString "123456"]>
                                             (<["decimals" := IFloat64 2%float]>
                                                ∅))]> ∅);
                 Error := INil |} eq_refl)
    as (info & Hinfo & _ & _ & _ & _ & _ & Hshape).
  exists info. split; [exact Hinfo|].
  destruct (Hshape _ (<["amount" := IString "123456"]>
                        (<["decimals" := IFloat64 2%float]> ∅))
              eq_refl eq_refl eq_refl)
    as (Hvalid & Hsupply & Hactual).
  split; [exact Hvalid|].
  split; [rewrite Hsupply | rewrite Hactual]; vm_compute; reflexivity.
Defined.

(** ** Token holders *)

Lemma asMaps_mapsValue l : asMaps (mapsValue l) = Some l.
Proof.
  unfold asMaps, mapsValue. induction l as [|m rest IH]; [reflexivity|].
  cbn [fmap list_fmap mapM asMap mbind option_bind]. cbn in IH |- *.
  rewrite IH. reflexivity.
Qed.

Lemma collectHolders_from limit i value :
  collectHolders limit i value
  = holderOf <$> omap asMap (take (Z.to_nat (limit - i)) value).
Proof.
  revert i. induction value as [|account rest IH]; intros i;
    cbn [collectHolders]; [rewrite take_nil; reflexivity|].
  destruct (Z.leb_spec limit i) as [Hdone|Hmore].
  - replace (Z.to_nat (limit - i)) with O by lia. reflexivity.
  - replace (Z.to_nat (limit - i)) with (S (Z.to_nat (limit - (i + 1))))
      by lia.
    rewrite IH.
    destruct account; reflexivity.
Qed.

(** X12. The holders that [GetTokenAccountsByMint] builds are the entries of
    the objects among the first [limit] elements of the node's list, in their
    order: an element that is no object uses up a position of the limit
    without giving a holder, so there are at most [limit] holders, none when
    the limit is zero or negative, and each holder carries the address of
    its account. *)
Theorem collectHolders_first_entries (limit : Z) (value : list iface) :
  collectHolders limit 0 value
  = holderOf <$> omap asMap (take (Z.to_nat limit) value)
  /\ (length (collectHolders limit 0 value) <= Z.to_nat limit)%nat
  /\ (length (collectHolders limit 0 value) <= length value)%nat
  /\ (limit <= 0 -> collectHolders limit 0 value = [])
  /\ (forall holder,
        holder ∈ collectHolders limit 0 value ->
        exists accountMap,
          IMap accountMap ∈ value
          /\ holder !! "address" = Some (index accountMap "address")).
Proof.
  assert (Heq : collectHolders limit 0 value
                = holderOf <$> omap asMap (take (Z.to_nat limit) value)).
  { rewrite collectHolders_from. rewrite Z.sub_0_r. reflexivity. }
  assert (Hlen : (length (collectHolders limit 0 value)
                  <= length (take (Z.to_nat limit) value))%nat).
  { rewrite Heq, length_fmap. apply omap_asMap_length. }
  rewrite length_take in Hlen.
  split; [exact Heq|]. split; [lia|]. split; [lia|]. split.
  - intros Hneg. rewrite Heq. replace (Z.to_nat limit) with O by lia.
    reflexivity.
  - intros holder. rewrite Heq. intros Hin.
    apply list_elem_of_fmap in Hin as (accountMap & -> & Hin).
    apply list_elem_of_omap in Hin as (v & Hv & Hmap).
    destruct v; try discriminate. injection Hmap as ->.
    exists accountMap. split.
    + eapply subseteq_take. exact Hv.
    + unfold holderOf. apply lookup_insert_eq.
Qed.

Lemma collectHolders_first_entries_witness :
  collectHolders 0 0 [IMap walletValue] = []
  /\ collectHolders 1 0 [IString "n/a"; IMap walletValue] = [].
Proof.
  split.
  - apply (proj1 (proj2 (proj2 (proj2 (collectHolders_first_entries 0
                                         [IMap walletValue]))))).
    lia.
  - rewrite (proj1 (collectHolders_first_entries 1
                      [IString "n/a"; IMap walletValue])).
    reflexivity.
Defined.

Section HolderFacts.

Variable timeParse : string -> string -> option Time.
Variable env : Environment.

Lemma settle_cache attempt r w :
  cache (client (worldOf (settle timeParse env attempt r w))) = cache (client w).
Proof.
  destruct r as [resp|e].
  - destruct (isThrottled resp) eqn:Hthrottled.
    + rewrite settle_throttled by exact Hthrottled.
      destruct (attempt =? maxRetries - 1); reflexivity.
    + rewrite settle_other by exact Hthrottled. reflexivity.
  - rewrite settle_transport_error.
    destruct (attempt =? maxRetries - 1); reflexivity.
Qed.

Lemma iteration_cache method params attempt w :
  cache (client (worldOf (iteration timeParse env method params attempt w)))
  = cache (client w).
Proof.
  destruct (valueOf (checkRateLimit method w)) eqn:Hcheck.
  - rewrite iteration_dispatch by exact Hcheck. cbv zeta.
    cbn [worldOf fst snd]. rewrite settle_cache. reflexivity.
  - rewrite iteration_rate_limited by exact Hcheck. reflexivity.
Qed.

Lemma retryLoop_cache method params remaining w :
  cache (client (worldOf (retryLoop timeParse env method params remaining w)))
  = cache (client w).
Proof.
  revert w. induction remaining as [|remaining IH]; intros w; [reflexivity|].
  rewrite retryLoop_step. cbv zeta.
  pose proof (iteration_cache method params
                (maxRetries - Z.of_nat (S remaining)) w) as Hpass.
  destruct (valueOf (iteration _ _ _ _ _ w)); [|exact Hpass].
  cbn [worldOf fst snd]. rewrite IH. exact Hpass.
Qed.

Lemma makeRPCCallWithRetry_cache method params w :
  cache (client (worldOf (makeRPCCallWithRetry timeParse env method params w)))
  = cache (client w).
Proof. apply retryLoop_cache. Qed.

(** The run of [GetTokenAccountsByMint], by what the cache holds, what the
    rate limiter says and what the retrying call returns. *)
Lemma GetTokenAccountsByMint_run mintAddress limit w :
  GetTokenAccountsByMint timeParse env mintAddress limit w
  = match cachedMaps (holdersKey mintAddress limit) w with
    | Some holders => (Ok holders, w, [])
    | None =>
        if negb (valueOf (checkRateLimit "getTokenLargestAccounts" w))
        then (Ok [], w, [])
        else
          let call := makeRPCCallWithRetry timeParse env
                        "getTokenLargestAccounts" [IString mintAddress] w in
          match holdersValue (valueOf call) with
          | Some value =>
              (Ok (collectHolders limit 0 value),
               worldOf (setCache (holdersKey mintAddress limit)
                          (mapsValue (collectHolders limit 0 value))
                          (5 * Minute) (worldOf call)),
               traceOf call)
          | None => (Ok [], worldOf call, traceOf call)
          end
    end.
Proof.
  unfold GetTokenAccountsByMint, cachedMaps. unfold bind at 1.
  rewrite getFromCache_lookup. cbn [valueOf fst snd].
  set (found := match cache (client w) !! holdersKey mintAddress limit with
                | Some entry =>
                    if After (clock w) (ExpiresAt entry) then (INil, false)
                    else (Data entry, true)
                | None => (INil, false)
                end).
  destruct (if snd found then asMaps (fst found) else None) as [holders|];
    [reflexivity|].
  unfold bind at 1. rewrite checkRateLimit_pure. cbn [valueOf fst snd].
  destruct (valueOf (checkRateLimit "getTokenLargestAccounts" w));
    [|reflexivity].
  cbn [negb app]. cbv zeta. unfold bind at 1.
  destruct (makeRPCCallWithRetry timeParse env "getTokenLargestAccounts"
              [IString mintAddress] w) as [[out w1] t1].
  cbn [valueOf worldOf traceOf fst snd]. unfold holdersValue.
  destruct out as [resp|e]; [|cbn; rewrite app_nil_r; reflexivity].
  destruct (notNil (Error resp)); [cbn; rewrite app_nil_r; reflexivity|].
  destruct (Result resp) as [| | | | |result];
    try (cbn; rewrite app_nil_r; reflexivity).
  destruct (result !! "value") as [[| | | |value|]|];
    cbn; rewrite app_nil_r; reflexivity.
Qed.

End HolderFacts.

(** X13. [GetTokenAccountsByMint] never returns an error. A usable
    cached list is returned as it is, without a look at the rate limiter.
    When the cache has no usable list for the query and the rate limiter
    refuses, it
    returns the empty list without a request; when the retrying call fails,
    or returns an error object or a result of another shape, it returns the
    empty list and stores nothing: the cache is as it was. Whatever happens,
    the entries of other keys stay as they were. *)
Theorem GetTokenAccountsByMint_never_fails
  (timeParse : string -> string -> option Time) (env : Environment)
  (mintAddress : string) (limit : Z) (w : World) :
  let key := holdersKey mintAddress limit in
  let call := makeRPCCallWithRetry timeParse env "getTokenLargestAccounts"
                [IString mintAddress] w in
  let r := GetTokenAccountsByMint timeParse env mintAddress limit w in
  (exists holders, valueOf r = Ok holders)
  /\ (forall holders, cachedMaps key w = Some holders ->
                      r = (Ok holders, w, []))
  /\ (cachedMaps key w = None ->
      valueOf (checkRateLimit "getTokenLargestAccounts" w) = false ->
      r = (Ok [], w, []))
  /\ (cachedMaps key w = None ->
      valueOf (checkRateLimit "getTokenLargestAccounts" w) = true ->
      holdersValue (valueOf call) = None ->
      valueOf r = Ok []
      /\ traceOf r = traceOf call
      /\ cache (client (worldOf r)) = cache (client w))
  /\ (forall key', key' <> key ->
        cache (client (worldOf r)) !! key' = cache (client w) !! key').
Proof.
  cbv zeta. rewrite GetTokenAccountsByMint_run. cbv zeta.
  pose proof (makeRPCCallWithRetry_cache timeParse env
                "getTokenLargestAccounts" [IString mintAddress] w) as Hcache.
  split; [|split; [|split; [|split]]].
  - destruct_matches; eexists; reflexivity.
  - intros holders ->. reflexivity.
  - intros -> ->. reflexivity.
  - intros -> -> ->. cbn [negb valueOf worldOf traceOf fst snd].
    split; [reflexivity|]. split; [reflexivity | exact Hcache].
  - intros key' Hne.
    destruct (cachedMaps _ w); [reflexivity|].
    destruct (negb _); [reflexivity|].
    destruct (holdersValue _) as [value|]; cbn [worldOf fst snd].
    + rewrite setCache_cache, lookup_insert_ne by congruence.
      rewrite Hcache. reflexivity.
    + rewrite Hcache. reflexivity.
Qed.

Lemma GetTokenAccountsByMint_never_fails_witness :
  GetTokenAccountsByMint epochOnly (unreachable 0) "mint" 10 holdersJustCalled
  = (Ok [], holdersJustCalled, [])
  /\ valueOf (GetTokenAccountsByMint epochOnly (unreachable 0) "mint" 10
                (freshWorld 0))
     = Ok [].
Proof.
  split.
  - apply (proj1 (proj2 (proj2 (GetTokenAccountsByMint_never_fails epochOnly
                                  (unreachable 0) "mint" 10 holdersJustCalled))));
      reflexivity.
  - apply (proj1 (proj2 (proj2 (proj2 (GetTokenAccountsByMint_never_fails
                                         epochOnly (unreachable 0) "mint" 10
                                         (freshWorld 0))))));
      reflexivity.
Defined.

(** X14. A list of holders that [GetTokenAccountsByMint] builds from the
    node's reply is stored under the key of the query for 5 minutes, and the
    same query asked again at any instant up to the expiry is answered with
    that list from the cache: no request, no change of the client. *)
Theorem GetTokenAccountsByMint_caches
  (timeParse : string -> string -> option Time) (env : Environment)
  (mintAddress : string) (limit : Z) (w : World) (value : list iface) :
  let key := holdersKey mintAddress limit in
  let call := makeRPCCallWithRetry timeParse env "getTokenLargestAccounts"
                [IString mintAddress] w in
  let r := GetTokenAccountsByMint timeParse env mintAddress limit w in
  cachedMaps key w = None ->
  valueOf (checkRateLimit "getTokenLargestAccounts" w) = true ->
  holdersValue (valueOf call) = Some value ->
  valueOf r = Ok (collectHolders limit 0 value)
  /\ traceOf r = traceOf call
  /\ cache (client (worldOf r)) !! key
     = Some {| Data := mapsValue (collectHolders limit 0 value);
               ExpiresAt := clock (worldOf r) + 5 * Minute |}
  /\ (forall t,
        t <= clock (worldOf r) + 5 * Minute ->
        GetTokenAccountsByMint timeParse env mintAddress limit
          (atTime t (worldOf r))
        = (valueOf r, atTime t (worldOf r), [])).
Proof.
  cbv zeta. intros Hmiss Hcheck Hvalue.
  rewrite GetTokenAccountsByMint_run. cbv zeta.
  rewrite Hmiss, Hcheck, Hvalue. cbn [negb valueOf worldOf traceOf fst snd].
  set (call := makeRPCCallWithRetry timeParse env "getTokenLargestAccounts"
                 [IString mintAddress] w).
  set (holders := collectHolders limit 0 value).
  set (stored := snd (fst (setCache (holdersKey mintAddress limit)
                             (mapsValue holders) (5 * Minute)
                             (snd (fst call))))).
  assert (Hentry : cache (client stored) !! holdersKey mintAddress limit
                   = Some {| Data := mapsValue holders;
                             ExpiresAt := clock stored + 5 * Minute |}).
  { unfold stored. apply lookup_insert_eq. }
  split; [reflexivity|]. split; [reflexivity|]. split; [exact Hentry|].
  intros t Ht. change (t <= clock stored + 5 * Minute) in Ht.
  change (worldOf (setCache (holdersKey mintAddress limit) (mapsValue holders)
                     (5 * Minute) (worldOf call))) with stored.
  rewrite GetTokenAccountsByMint_run.
  assert (Hhit : cachedMaps (holdersKey mintAddress limit) (atTime t stored)
                 = Some holders).
  { unfold cachedMaps. rewrite getFromCache_lookup.
    cbn [valueOf fst atTime client clock]. rewrite Hentry.
    cbn [ExpiresAt Data]. unfold After.
    replace (clock stored + 5 * Minute <? t) with false
      by (symmetry; apply Z.ltb_ge; lia).
    cbn [fst snd]. apply asMaps_mapsValue. }
  rewrite Hhit. reflexivity.
Qed.

Lemma GetTokenAccountsByMint_caches_witness :
  valueOf (GetTokenAccountsByMint epochOnly (answering largestAccounts INil)
             "mint" 1 (freshWorld 0))
  = Ok [holderOf (<["address" := IString "holderA"]>
                    (<["amount" := IString "900"]> ∅))]
  /\ traceOf (GetTokenAccountsByMint epochOnly (answering largestAccounts INil)
                "mint" 1
                (atTime (4 * Minute)
                   (worldOf (GetTokenAccountsByMint epochOnly
                               (answering largestAccounts INil) "mint" 1
                               (freshWorld 0)))))
     = [].
Proof.
  destruct (GetTokenAccountsByMint_caches epochOnly
              (answering largestAccounts INil) "mint" 1 (freshWorld 0)
              [IMap (<["address" := IString "holderA"]>
                       (<["amount" := IString "900"]> ∅));
               IMap (<["address" := IString "holderB"]>
                       (<["amount" := IString "100"]> ∅))]
              eq_refl eq_refl eq_refl)
    as (Hvalue & _ & _ & Hagain).
  split; [exact Hvalue|].
  rewrite (Hagain (4 * Minute)); [reflexivity|].
  vm_compute. discriminate.
Defined.

(** ** The handlers *)

(** X15. The limit that [/api/performance] passes to the node is at most
    360 and is not bounded from below: an integer [limit] parameter is taken
    as it is up to 360, one that does not parse counts as 50, and without the
    parameter the time range decides: "5m" gives 5, "20m" gives 20, "1h"
    gives 60, "6h" gives 360, and every other range gives 20. The cache
    duration of a reply is between 15 seconds and 2 minutes. *)
Theorem performanceLimit_bounds (timeRange limitStr : string) :
  performanceLimit timeRange limitStr <= 360
  /\ (forall n, limitStr <> "" -> Atoi limitStr = Some n ->
                performanceLimit timeRange limitStr = Z.min n 360)
  /\ (limitStr <> "" -> Atoi limitStr = None ->
      performanceLimit timeRange limitStr = 50)
  /\ (limitStr = "" ->
      performanceLimit timeRange limitStr ∈ [5; 20; 60; 360]
      /\ (timeRange = "5m" -> performanceLimit timeRange limitStr = 5)
      /\ (timeRange = "20m" -> performanceLimit timeRange limitStr = 20)
      /\ (timeRange = "1h" -> performanceLimit timeRange limitStr = 60)
      /\ (timeRange = "6h" -> performanceLimit timeRange limitStr = 360)
      /\ (timeRange ∉ ["5m"; "20m"; "1h"; "6h"] ->
          performanceLimit timeRange limitStr = 20))
  /\ 15 * Second <= performanceCacheDuration timeRange <= 2 * Minute.
Proof.
  unfold performanceLimit, performanceCacheDuration.
  split; [|split; [|split; [|split]]].
  - destruct (negb (String.eqb limitStr "")).
    + destruct (Atoi limitStr) as [n|];
        [destruct (Z.ltb_spec 360 n); lia | destruct (Z.ltb_spec 360 50); lia].
    + destruct_matches; lia.
  - intros n Hne Hint. apply String.eqb_neq in Hne. rewrite Hne, Hint.
    cbn [negb]. destruct (Z.ltb_spec 360 n); lia.
  - intros Hne Hint. apply String.eqb_neq in Hne. rewrite Hne, Hint.
    reflexivity.
  - intros ->. cbn [String.eqb negb]. split.
    { destruct (String.eqb timeRange "5m"); [set_solver|].
      destruct (String.eqb timeRange "20m"); [set_solver|].
      destruct (String.eqb timeRange "1h"); [set_solver|].
      destruct (String.eqb timeRange "6h"); set_solver. }
    split; [intros ->; reflexivity|]. split; [intros ->; reflexivity|].
    split; [intros ->; reflexivity|]. split; [intros ->; reflexivity|].
    intros Hother.
    destruct (String.eqb_spec timeRange "5m") as [->|_]; [set_solver|].
    destruct (String.eqb_spec timeRange "20m") as [->|_]; [set_solver|].
    destruct (String.eqb_spec timeRange "1h") as [->|_]; [set_solver|].
    destruct (String.eqb_spec timeRange "6h") as [->|_]; [set_solver|].
    reflexivity.
  - unfold Minute, Second. destruct_matches; lia.
Qed.

Lemma performanceLimit_bounds_witness :
  performanceLimit "1h" "-5" = Z.min (-5) 360
  /\ performanceLimit "1h" "1000" = Z.min 1000 360
  /\ performanceLimit "1h" "many" = 50
  /\ performanceLimit "6h" "" = 360
  /\ performanceLimit "2d" "" = 20.
Proof.
  split; [|split; [|split; [|split]]].
  - apply (proj1 (proj2 (performanceLimit_bounds "1h" "-5")));
      [discriminate | reflexivity].
  - apply (proj1 (proj2 (performanceLimit_bounds "1h" "1000")));
      [discriminate | reflexivity].
  - apply (proj1 (proj2 (proj2 (performanceLimit_bounds "1h" "many"))));
      [discriminate | reflexivity].
  - apply (proj1 (proj2 (proj2 (proj2 (performanceLimit_bounds "6h" "")))));
      reflexivity.
  - apply (proj1 (proj2 (proj2 (proj2 (performanceLimit_bounds "2d" "")))));
      [reflexivity|].
    intros Hin. repeat (apply elem_of_cons in Hin as [Hin | Hin];
                        [discriminate|]).
    apply elem_of_nil in Hin. exact Hin.
Defined.

Section HandlerFacts.

Variable env : Environment.


End HandlerFacts.



Lemma GetCachedBlockTime_run w :
  GetCachedBlockTime w
  = (valueOf (GetCachedBlockTime w), w,
     if (Since (clock w) (lastBlockTimeCheck (client w)) <? 30 * Second)
        && Float64.gt (lastBlockTime (client w)) 0%float
     then []
     else [Spawn "updateBlockTimeInBackground"])
  /\ Float64.gt (valueOf (GetCachedBlockTime w)) 0%float = true
  /\ (Float64.gt (lastBlockTime (client w)) 0%float = true ->
      valueOf (GetCachedBlockTime w) = lastBlockTime (client w))
  /\ (Float64.gt (lastBlockTime (client w)) 0%float = false ->
      valueOf (GetCachedBlockTime w) = 0.4%float).
Proof.
  unfold GetCachedBlockTime, bind, getClient, getClock, ret, emit.
  cbn [valueOf fst snd app].
  destruct (Float64.gt (lastBlockTime (client w)) 0) eqn:Hpos;
    destruct (Since (clock w) (lastBlockTimeCheck (client w)) <? 30 * Second);
    cbn [andb]; cbv beta iota; rewrite ?Hpos; cbn [valueOf fst snd app];
    (split; [reflexivity|]); (split; [first [exact Hpos | reflexivity]|]);
    split; first [reflexivity | discriminate | intros; reflexivity].
Qed.

(** The runs that a trace starts. *)
Lemma background_spawn env routine w :
  worldOf (background env [Spawn routine] w)
  = worldOf (updateBlockTimeInBackground env w).
Proof.
  cbn [background]. unfold bind.
  destruct (updateBlockTimeInBackground env w) as [[u w'] t]. reflexivity.
Qed.

Lemma background_post env method out t w :
  background env (Post method out :: t) w = background env t w.
Proof. reflexivity. Qed.

Lemma updateBlockTime_cache env w :
  cache (client (worldOf (updateBlockTimeInBackground env w)))
  = cache (client w).
Proof.
  rewrite updateBlockTime_world. cbv zeta.
  pose proof (GetSlot_client env w) as H1.
  destruct (valueOf (GetSlot env w)) as [currentSlot|e];
    [|rewrite H1; reflexivity].
  set (w1 := worldOf (timeSleep env (3 * Second) (worldOf (GetSlot env w)))).
  pose proof (GetSlot_client env w1) as H2.
  assert (Hcache : cache (client (worldOf (GetSlot env w1))) = cache (client w)).
  { rewrite H2. unfold w1, timeSleep.
    cbn [worldOf fst snd client cache withRateLimiter].
    rewrite H1. reflexivity. }
  destruct (valueOf (GetSlot env w1)) as [laterSlot|e]; [|exact Hcache].
  destruct (laterSlot <=? currentSlot); [exact Hcache|].
  destruct (plausible _); exact Hcache.
Qed.

(** X17. [GetCachedBlockTime] never waits for the node. When the published
    estimate is less than 30 s old and positive it returns it and starts
    nothing; otherwise it starts one run of the estimator with [go] and,
    without waiting for it, returns the published block time when that is
    positive and the default of 0.4 s otherwise. The reader itself makes no
    request and leaves the client as it is; the run it started is what
    changes the client afterwards. Whatever the client holds, the value
    returned is strictly positive, a published zero, negative value or NaN
    included. *)
Theorem cached_block_time_is_positive (env : Environment) (w : World) :
  let r := GetCachedBlockTime w in
  let fresh := (Since (clock w) (lastBlockTimeCheck (client w)) <? 30 * Second)
               && Float64.gt (lastBlockTime (client w)) 0%float in
  worldOf r = w
  /\ traceOf r = (if fresh then [] else [Spawn "updateBlockTimeInBackground"])
  /\ worldOf (background env (traceOf r) (worldOf r))
     = (if fresh then w else worldOf (updateBlockTimeInBackground env w))
  /\ Float64.gt (valueOf r) 0%float = true
  /\ (Float64.gt (lastBlockTime (client w)) 0%float = true ->
      valueOf r = lastBlockTime (client w))
  /\ (Float64.gt (lastBlockTime (client w)) 0%float = false ->
      valueOf r = 0.4%float
      /\ traceOf r = [Spawn "updateBlockTimeInBackground"]).
Proof.
  cbv zeta.
  destruct (GetCachedBlockTime_run w) as (Hrun & Hpositive & Hpublished & Hdefault).
  rewrite Hrun. cbn [valueOf worldOf traceOf fst snd].
  split; [reflexivity|]. split; [reflexivity|].
  split.
  { destruct (_ && _); [reflexivity | apply background_spawn]. }
  split; [exact Hpositive|]. split; [exact Hpublished|].
  intros Hnot. split; [apply Hdefault; exact Hnot|].
  rewrite Hnot, andb_false_r. reflexivity.
Qed.

Lemma cached_block_time_is_positive_witness :
  valueOf (GetCachedBlockTime
             {| client := withBlockTime (NewSolanaClient "u") nan 0;
                clock := 0;
                requests := 0 |})
  = 0.4%float
  /\ traceOf (GetCachedBlockTime
                {| client := withBlockTime (NewSolanaClient "u") nan 0;
                   clock := 0;
                   requests := 0 |})
     = [Spawn "updateBlockTimeInBackground"]
  /\ valueOf (GetCachedBlockTime (freshWorld (40 * Second))) = 0.4%float.
Proof.
  split; [|split].
  - apply (proj2 (proj2 (proj2 (proj2 (proj2
             (cached_block_time_is_positive (unreachable 0)
                {| client := withBlockTime (NewSolanaClient "u") nan 0;
                   clock := 0;
                   requests := 0 |})))))).
    reflexivity.
  - apply (proj2 (proj2 (proj2 (proj2 (proj2
             (cached_block_time_is_positive (unreachable 0)
                {| client := withBlockTime (NewSolanaClient "u") nan 0;
                   clock := 0;
                   requests := 0 |})))))).
    reflexivity.
  - apply (proj1 (proj2 (proj2 (proj2 (proj2
             (cached_block_time_is_positive (unreachable 0)
                (freshWorld (40 * Second)))))))).
    reflexivity.
Defined.

Lemma networkHealth_label tps validatorCount :
  networkHealth tps validatorCount ∈ ["Healthy"; "Good"; "Fair"; "Poor"].
Proof. unfold networkHealth. destruct_matches; set_solver. Qed.

(** X18. [/api/metrics] asks the node for the slot, the epoch info, the
    vote accounts and the performance samples, in this order, and stops at
    the first query that fails: it then hands 500 and the message of that
    very query to [c.JSON], having made the requests up to that query and no
    other. When the four queries succeed it hands over 200 and the metrics
    computed from the four results, stamped with the instant of the answer,
    with a strictly positive block time, one of the four health labels and
    the connection status "Connected"; the JSON body is written when the
    TPS, the block time and the epoch progress are finite, and no body
    otherwise. The handler itself never writes the client. On the success
    path it starts a run of the estimator in the background exactly when
    the published block time is not fresh, and once that run is over the
    cache is as it was and the block time is as it was or a value of the
    band, published at the end of the run. *)
Theorem metricsHandler_stops_at_first_failure (env : Environment) (w : World) :
  let r := metricsHandler env w in
  let q1 := GetSlot env w in
  let q2 := GetEpochInfo env (worldOf q1) in
  let q3 := GetValidatorCount env (worldOf q2) in
  let q4 := GetPerformanceSamples env 150 (worldOf q3) in
  let failure what :=
    {| Status := StatusInternalServerError;
       Body_ := ErrorPayload (String.append "Failed to get " what) |} in
  client (worldOf r) = client w
  /\ (forall e,
        valueOf q1 = Err e ->
        r = (failure "slot", worldOf q1, traceOf q1)
        /\ methodsOf (traceOf r) = ["getSlot"])
  /\ (forall slot e,
        valueOf q1 = Ok slot -> valueOf q2 = Err e ->
        r = (failure "epoch info", worldOf q2, traceOf q1 ++ traceOf q2)
        /\ methodsOf (traceOf r) = ["getSlot"; "getEpochInfo"])
  /\ (forall slot epochInfo e,
        valueOf q1 = Ok slot -> valueOf q2 = Ok epochInfo ->
        valueOf q3 = Err e ->
        r = (failure "validator count", worldOf q3,
             traceOf q1 ++ traceOf q2 ++ traceOf q3)
        /\ methodsOf (traceOf r)
           = ["getSlot"; "getEpochInfo"; "getVoteAccounts"])
  /\ (forall slot epochInfo validatorCount e,
        valueOf q1 = Ok slot -> valueOf q2 = Ok epochInfo ->
        valueOf q3 = Ok validatorCount -> valueOf q4 = Err e ->
        r = (failure "performance samples", worldOf q4,
             traceOf q1 ++ traceOf q2 ++ traceOf q3 ++ traceOf q4)
        /\ methodsOf (traceOf r)
           = ["getSlot"; "getEpochInfo"; "getVoteAccounts";
              "getRecentPerformanceSamples"])
  /\ (forall slot epochInfo validatorCount samples,
        valueOf q1 = Ok slot -> valueOf q2 = Ok epochInfo ->
        valueOf q3 = Ok validatorCount -> valueOf q4 = Ok samples ->
        let w4 := worldOf q4 in
        let fresh :=
          (Since (clock w4) (lastBlockTimeCheck (client w)) <? 30 * Second)
          && Float64.gt (lastBlockTime (client w)) 0%float in
        let metrics :=
          {| TPS := calculateTPS samples;
             AverageBlockTime := valueOf (GetCachedBlockTime w4);
             CurrentSlot := slot;
             Epoch := Float64.toUint64 (float64Field epochInfo "epoch");
             ValidatorCount := validatorCount;
             Timestamp := clock w4;
             EpochProgress :=
               fst (epochProgress (float64Field epochInfo "slotIndex")
                      (float64Field epochInfo "slotsInEpoch"));
             SlotsInEpoch :=
               Float64.toUint64 (float64Field epochInfo "slotsInEpoch");
             SlotIndex := Float64.toUint64 (float64Field epochInfo "slotIndex");
             NetworkHealth := networkHealth (calculateTPS samples) validatorCount;
             ConnectionStatus := "Connected" |} in
        let after := worldOf (background env (traceOf r) (worldOf r)) in
        r = ({| Status := StatusOK;
                Body_ := if encodableMetrics metrics
                         then MetricsPayload metrics
                         else Unencodable |},
             w4,
             traceOf q1 ++ traceOf q2 ++ traceOf q3 ++ traceOf q4
             ++ (if fresh then [] else [Spawn "updateBlockTimeInBackground"]))
        /\ methodsOf (traceOf r)
           = ["getSlot"; "getEpochInfo"; "getVoteAccounts";
              "getRecentPerformanceSamples"]
        /\ Float64.gt (AverageBlockTime metrics) 0%float = true
        /\ NetworkHealth metrics ∈ ["Healthy"; "Good"; "Fair"; "Poor"]
        /\ after = (if fresh then w4
                    else worldOf (updateBlockTimeInBackground env w4))
        /\ cache (client after) = cache (client w)
        /\ (sameEstimate (client w) (client after)
            \/ (plausible (lastBlockTime (client after)) = true
                /\ lastBlockTimeCheck (client after) = clock after))).
Proof.
  cbv zeta.
  pose proof (GetSlot_run env w) as [T1 W1].
  pose proof (GetEpochInfo_run env (worldOf (GetSlot env w))) as [T2 W2].
  pose proof (GetValidatorCount_run env
                (worldOf (GetEpochInfo env (worldOf (GetSlot env w)))))
    as [T3 W3].
  pose proof (GetPerformanceSamples_run env 150
                (worldOf (GetValidatorCount env
                            (worldOf (GetEpochInfo env (worldOf (GetSlot env w)))))))
    as [T4 W4].
  apply (f_equal client) in W1, W2, W3, W4.
  rewrite makeRPCCall_client in W1, W2, W3, W4.
  unfold metricsHandler, bind.
  destruct (GetSlot env w) as [[o1 w1] t1].
  cbn [valueOf worldOf traceOf fst snd] in *. cbv beta iota. subst t1.
  destruct o1 as [slot|e1].
  2:{ cbn [valueOf worldOf traceOf fst snd ret app methodsOf omap list_omap].
      split; [exact W1|].
      split; [intros e _; split; reflexivity|].
      repeat split; intros; discriminate. }
  destruct (GetEpochInfo env w1) as [[o2 w2] t2].
  cbn [valueOf worldOf traceOf fst snd] in *. cbv beta iota. subst t2.
  assert (C2 : client w2 = client w) by congruence.
  destruct o2 as [epochInfo|e2].
  2:{ cbn [valueOf worldOf traceOf fst snd ret app methodsOf omap list_omap].
      split; [exact C2|].
      split; [intros; discriminate|].
      split; [intros slot' e _ _; split; reflexivity|].
      repeat split; intros; discriminate. }
  destruct (GetValidatorCount env w2) as [[o3 w3] t3].
  cbn [valueOf worldOf traceOf fst snd] in *. cbv beta iota. subst t3.
  assert (C3 : client w3 = client w) by congruence.
  destruct o3 as [validatorCount|e3].
  2:{ cbn [valueOf worldOf traceOf fst snd ret app methodsOf omap list_omap].
      split; [exact C3|].
      split; [intros; discriminate|].
      split; [intros; discriminate|].
      split; [intros slot' epochInfo' e _ _ _; split; reflexivity|].
      repeat split; intros; discriminate. }
  destruct (GetPerformanceSamples env 150 w3) as [[o4 w4] t4].
  cbn [valueOf worldOf traceOf fst snd] in *. cbv beta iota. subst t4.
  assert (C4 : client w4 = client w) by congruence.
  destruct o4 as [samples|e4].
  2:{ cbn [valueOf worldOf traceOf fst snd ret app methodsOf omap list_omap].
      split; [exact C4|].
      split; [intros; discriminate|].
      split; [intros; discriminate|].
      split; [intros; discriminate|].
      split; [intros slot' epochInfo' validatorCount' e _ _ _ _;
              split; reflexivity|].
      intros; discriminate. }
  destruct (GetCachedBlockTime_run w4) as (Hread & Hpositive & _).
  rewrite C4 in Hread.
  set (reading := valueOf (GetCachedBlockTime w4)) in *.
  rewrite Hread. unfold getClock, ret.
  cbn [valueOf worldOf traceOf fst snd app clock].
  split; [exact C4|].
  split; [intros; discriminate|].
  split; [intros; discriminate|].
  split; [intros; discriminate|].
  split; [intros; discriminate|].
  intros slot' epochInfo' validatorCount' samples' [= <-] [= <-] [= <-] [= <-].
  rewrite !app_nil_r.
  split; [reflexivity|].
  cbn [AverageBlockTime NetworkHealth].
  destruct ((Since (clock w4) (lastBlockTimeCheck (client w)) <? 30 * Second)
            && Float64.gt (lastBlockTime (client w)) 0).
  - cbn [methodsOf omap list_omap app background ret worldOf fst snd].
    split; [reflexivity|]. split; [exact Hpositive|].
    split; [apply networkHealth_label|]. split; [reflexivity|].
    rewrite C4. split; [reflexivity | left; apply sameEstimate_refl].
  - cbn [methodsOf omap list_omap app].
    split; [reflexivity|]. split; [exact Hpositive|].
    split; [apply networkHealth_label|].
    rewrite !background_post, background_spawn.
    split; [reflexivity|].
    rewrite updateBlockTime_cache, C4. split; [reflexivity|].
    rewrite <- C4. apply updateBlockTime_estimate.
Qed.

Lemma metricsHandler_stops_at_first_failure_witness :
  metricsHandler (unreachable 0) (freshWorld 0)
  = ({| Status := StatusInternalServerError;
        Body_ := ErrorPayload "Failed to get slot" |},
     worldOf (GetSlot (unreachable 0) (freshWorld 0)),
     traceOf (GetSlot (unreachable 0) (freshWorld 0)))
  /\ methodsOf (traceOf (metricsHandler (node (advancing 0%float))
                           (freshWorld 0)))
     = ["getSlot"; "getEpochInfo"]
  /\ methodsOf (traceOf (metricsHandler (cluster steadyWindow) (freshWorld 0)))
     = ["getSlot"; "getEpochInfo"; "getVoteAccounts";
        "getRecentPerformanceSamples"]
  /\ Body_ (valueOf (metricsHandler
                       (cluster [perfSample 0x1p1023%float 0.5%float])
                       (freshWorld 0)))
     = Unencodable.
Proof.
  split; [|split; [|split]].
  - apply (proj1 (proj2 (metricsHandler_stops_at_first_failure
                           (unreachable 0) (freshWorld 0)))
             "connection refused").
    reflexivity.
  - apply (proj1 (proj2 (proj2 (metricsHandler_stops_at_first_failure
                                  (node (advancing 0%float)) (freshWorld 0))))
             1000 "invalid epoch info response");
      vm_compute; reflexivity.
  - apply (proj2 (proj2 (proj2 (proj2 (proj2
             (metricsHandler_stops_at_first_failure (cluster steadyWindow)
                (freshWorld 0))))))
             250000000
             (<["epoch" := IFloat64 600%float]>
                (<["slotIndex" := IFloat64 25%float]>
                   (<["slotsInEpoch" := IFloat64 100%float]> ∅)))
             3 steadyWindow);
      vm_compute; reflexivity.
  - rewrite (proj1 (proj2 (proj2 (proj2 (proj2 (proj2
               (metricsHandler_stops_at_first_failure
                  (cluster [perfSample 0x1p1023%float 0.5%float])
                  (freshWorld 0))))))
               250000000
               (<["epoch" := IFloat64 600%float]>
                  (<["slotIndex" := IFloat64 25%float]>
                     (<["slotsInEpoch" := IFloat64 100%float]> ∅)))
               3 [perfSample 0x1p1023%float 0.5%float]
               ltac:(vm_compute; reflexivity) ltac:(vm_compute; reflexivity)
               ltac:(vm_compute; reflexivity) ltac:(vm_compute; reflexivity))).
    vm_compute. reflexivity.
Defined.

Lemma GetAccountInfo_value env address w :
  match valueOf (makeRPCCall env "getAccountInfo" [IString address] w) with
  | Err e => valueOf (GetAccountInfo env address w) = Err e
  | Ok _ =>
      exists info,
        valueOf (GetAccountInfo env address w) = Ok info
        /\ Address info = address
  end.
Proof.
  unfold GetAccountInfo. expose_call.
  destruct out as [resp|e]; [|reflexivity].
  destruct_matches; eexists; split; reflexivity.
Qed.

(** X19. [/api/account/:address], for an address that is not empty (the
    router hands no other to the handler), makes one request and answers 500
    exactly when that request fails in the transport, and 200 on every reply
    of the node: an unknown account or a reply of an unexpected shape is a
    200 whose account has the address asked (and [isValid] false), never a
    500. *)
Theorem accountHandler_statuses (env : Environment) (address : string)
  (w : World) :
  address <> "" ->
  let call := makeRPCCall env "getAccountInfo" [IString address] w in
  let r := accountHandler env address w in
  traceOf r = [Post "getAccountInfo" (valueOf call)]
  /\ (forall e,
        valueOf call = Err e ->
        valueOf r
        = {| Status := StatusInternalServerError;
             Body_ := ErrorPayload "Failed to get account info" |})
  /\ (forall resp,
        valueOf call = Ok resp ->
        exists info,
          valueOf r = {| Status := StatusOK; Body_ := AccountPayload info |}
          /\ Address info = address
          /\ valueOf (GetAccountInfo env address w) = Ok info).
Proof.
  intros Hne. cbv zeta. unfold accountHandler.
  apply String.eqb_neq in Hne. rewrite Hne.
  pose proof (GetAccountInfo_value env address w) as Hvalue.
  pose proof (GetAccountInfo_run env address w) as [Htrace _].
  unfold bind.
  destruct (GetAccountInfo env address w) as [[out w1] t1].
  cbn [valueOf worldOf traceOf fst snd] in *. subst t1.
  destruct (valueOf (makeRPCCall env "getAccountInfo" [IString address] w))
    as [resp|e].
  - destruct Hvalue as (info & -> & Haddr).
    split; [reflexivity|]. split; [discriminate|].
    intros resp' _. exists info. repeat split. exact Haddr.
  - subst out. split; [reflexivity|].
    split; [reflexivity | discriminate].
Qed.

Lemma accountHandler_statuses_witness :
  valueOf (accountHandler (answering INil INil) "nobody" (freshWorld 0))
  = {| Status := StatusOK;
       Body_ := AccountPayload (invalidAccount "nobody") |}
  /\ valueOf (accountHandler (unreachable 0) "nobody" (freshWorld 0))
     = {| Status := StatusInternalServerError;
          Body_ := ErrorPayload "Failed to get account info" |}.
Proof.
  split.
  - destruct (proj2 (proj2 (accountHandler_statuses
                              (answering INil INil) "nobody" (freshWorld 0)
                              ltac:(discriminate)))
                {| Result := INil; Error := INil |} eq_refl)
      as (info & -> & _ & Hinfo).
    vm_compute in Hinfo. injection Hinfo as <-. reflexivity.
  - apply (proj1 (proj2 (accountHandler_statuses (unreachable 0)
                           "nobody" (freshWorld 0) ltac:(discriminate)))
             "connection refused").
    reflexivity.
Defined.

(** X20. [/api/token/:mintAddress/holders] never answers 500: for every
    mint address that is not empty it answers 200 with the list that
    [GetTokenAccountsByMint] returns for the limit of the query, which is 10
    when the parameter is missing or is no integer. *)
Theorem holdersHandler_always_ok
  (timeParse : string -> string -> option Time) (env : Environment)
  (mintAddress : string) (query : gmap string string) (w : World) :
  mintAddress <> "" ->
  let limit := default 10 (Atoi (DefaultQuery query "limit" "10")) in
  let fetch := GetTokenAccountsByMint timeParse env mintAddress limit w in
  exists holders,
    valueOf fetch = Ok holders
    /\ holdersHandler timeParse env mintAddress query w
       = ({| Status := StatusOK;
             Body_ := HoldersPayload mintAddress holders |},
          worldOf fetch, traceOf fetch)
    /\ (query !! "limit" = None -> limit = 10)
    /\ (forall text, query !! "limit" = Some text -> Atoi text = None ->
                     limit = 10).
Proof.
  intros Hne. cbv zeta. unfold holdersHandler.
  apply String.eqb_neq in Hne. rewrite Hne.
  assert (Hlimit : match Atoi (DefaultQuery query "limit" "10") with
                   | Some n => n
                   | None => 10
                   end
                   = default 10 (Atoi (DefaultQuery query "limit" "10")))
    by (destruct (Atoi _); reflexivity).
  rewrite Hlimit.
  set (limit := default 10 (Atoi (DefaultQuery query "limit" "10"))).
  assert (Hok : exists holders,
             valueOf (GetTokenAccountsByMint timeParse env mintAddress limit w)
             = Ok holders).
  { rewrite GetTokenAccountsByMint_run. cbv zeta.
    destruct_matches; eexists; reflexivity. }
  destruct Hok as [holders Hholders]. exists holders.
  split; [exact Hholders|]. split.
  - unfold bind.
    destruct (GetTokenAccountsByMint timeParse env mintAddress limit w)
      as [[out w1] t1].
    cbn [valueOf fst] in Hholders. subst out.
    cbn [valueOf worldOf traceOf fst snd ret]. rewrite app_nil_r. reflexivity.
  - unfold limit, DefaultQuery. split.
    + intros ->. reflexivity.
    + intros text Hq Ha. rewrite Hq.
      change (default "10" (Some text)) with text.
      rewrite Ha. reflexivity.
Qed.

Lemma holdersHandler_always_ok_witness :
  exists holders,
    holdersHandler epochOnly (unreachable 0) "mint" (<["limit" := "ten"]> ∅)
      (freshWorld 0)
    = ({| Status := StatusOK; Body_ := HoldersPayload "mint" holders |},
       worldOf (GetTokenAccountsByMint epochOnly (unreachable 0) "mint" 10
                  (freshWorld 0)),
       traceOf (GetTokenAccountsByMint epochOnly (unreachable 0) "mint" 10
                  (freshWorld 0))).
Proof.
  destruct (holdersHandler_always_ok epochOnly (unreachable 0) "mint"
              (<["limit" := "ten"]> ∅) (freshWorld 0) ltac:(discriminate))
    as (holders & _ & Hrun & _).
  exists holders. exact Hrun.
Defined.

(** ** Time and footprint of a retried call *)

Lemma parseRetryAfter_cap (timeParse : string -> string -> option Time)
  (now : Time) (s : string) (d : Duration) :
  parseRetryAfter timeParse now s = Ok d -> d <= 5 * Minute.
Proof.
  unfold parseRetryAfter. destruct (Atoi s) as [n|].
  - destruct (Z.ltb_spec (5 * Minute) (GoInt.mul64 n Second));
      intros [= <-]; lia.
  - assert (Hfallback : forall e : error,
             match parseFallback timeParse now fallbackFormats s with
             | Some d' => Ok d'
             | None => Err e
             end = Ok d -> d <= 5 * Minute).
    { intros e. destruct (parseFallback timeParse now fallbackFormats s) as [d'|] eqn:Hf;
        [|discriminate].
      intros [= <-]. apply parseFallback_acceptable in Hf. lia. }
    destruct (timeParse RFC1123 s) as [t|]; [|apply Hfallback].
    destruct (Z.ltb_spec 0 (Until now t)); cbn [andb]; [|apply Hfallback].
    destruct (Z.leb_spec (Until now t) (5 * Minute)); [|apply Hfallback].
    intros [= <-]. lia.
Qed.

Lemma backoff_first_values :
  backoff 0 = 1 * Second /\ backoff 1 = 2 * Second /\ backoff 2 = 4 * Second.
Proof. vm_compute. split; [|split]; reflexivity. Qed.

Section Elapsed.

Variable timeParse : string -> string -> option Time.
Variable env : Environment.
Variable L : Duration.
Hypothesis L_nonneg : 0 <= L.
Hypothesis latency_bound : forall n m p, latency (post env n m p) <= L.

Lemma throttleDelay_cap errorMap attempt w :
  attempt = 0 \/ attempt = 1 ->
  valueOf (throttleDelay timeParse errorMap attempt w) <= 5 * Minute.
Proof.
  intros Hattempt.
  assert (Hbackoff : backoff (attempt + 1) <= 5 * Minute).
  { destruct backoff_first_values as (_ & H1 & H2).
    destruct Hattempt as [-> | ->];
      [change (0 + 1) with 1; rewrite H1 | change (1 + 1) with 2; rewrite H2];
      unfold Minute, Second; lia. }
  unfold throttleDelay.
  destruct (errorMap !! "retryAfter") as [[| | | retryAfter | |]|];
    try exact Hbackoff.
  unfold bind, getClock. cbn.
  destruct (parseRetryAfter timeParse (clock w) retryAfter) as [d|e] eqn:Hparse;
    [|exact Hbackoff].
  cbn. exact (parseRetryAfter_cap _ _ _ _ Hparse).
Qed.

Lemma timeSleep_clock d w :
  clock (worldOf (timeSleep env d w)) = clock w + Z.max 0 d.
Proof. reflexivity. Qed.

Lemma settle_elapsed attempt r w :
  0 <= attempt <= 2 ->
  clock w <= clock (worldOf (settle timeParse env attempt r w))
  /\ clock (worldOf (settle timeParse env attempt r w))
     <= clock w + (if attempt =? 2 then 0 else 5 * Minute).
Proof.
  intros Hattempt.
  assert (Hsleep : forall d, d <= 5 * Minute ->
             clock w <= clock (worldOf (timeSleep env d w))
             /\ clock (worldOf (timeSleep env d w)) <= clock w + 5 * Minute).
  { intros d Hd. rewrite timeSleep_clock. unfold Minute, Second in *. lia. }
  assert (Hstay : clock w <= clock w
                  /\ clock w <= clock w + (if attempt =? 2 then 0 else 5 * Minute)).
  { destruct (attempt =? 2); unfold Minute, Second; lia. }
  change (maxRetries - 1) with 2 in *.
  destruct r as [resp|e].
  - destruct (isThrottled resp) eqn:Hthrottled.
    + rewrite settle_throttled by exact Hthrottled.
      change (maxRetries - 1) with 2.
      destruct (Z.eqb_spec attempt 2) as [->|Hne]; [exact Hstay|].
      cbv zeta. cbn [worldOf fst snd]. apply Hsleep.
      destruct (Error resp) as [| | | | |errorMap];
        try (unfold Minute, Second; lia).
      apply throttleDelay_cap. lia.
    + rewrite settle_other by exact Hthrottled. exact Hstay.
  - rewrite settle_transport_error. change (maxRetries - 1) with 2.
    destruct (Z.eqb_spec attempt 2) as [->|Hne]; [exact Hstay|].
    cbn [worldOf fst snd]. apply Hsleep.
    destruct backoff_first_values as (H0 & H1 & _).
    assert (Hcases : attempt = 0 \/ attempt = 1) by lia.
    destruct Hcases as [-> | ->]; rewrite ?H0, ?H1; unfold Minute, Second; lia.
Qed.

Lemma iteration_elapsed method params attempt w :
  0 <= attempt <= 2 ->
  clock w <= clock (worldOf (iteration timeParse env method params attempt w))
  /\ clock (worldOf (iteration timeParse env method params attempt w))
     <= clock w + L + (if attempt =? 2 then 2 * Second else 5 * Minute).
Proof.
  intros Hattempt.
  destruct (valueOf (checkRateLimit method w)) eqn:Hcheck.
  - rewrite iteration_dispatch by exact Hcheck. cbv zeta.
    cbn [worldOf fst snd].
    set (call := makeRPCCall env method params
                   (worldOf (updateRateLimit method w))).
    pose proof (settle_elapsed attempt (valueOf call) (worldOf call) Hattempt)
      as [Hlow Hhigh].
    assert (Hcall : clock w <= clock (worldOf call)
                    /\ clock (worldOf call) <= clock w + L).
    { subst call. cbn.
      pose proof (latency_bound (requests w) method params). lia. }
    destruct (attempt =? 2); unfold Minute, Second in *; lia.
  - rewrite iteration_rate_limited by exact Hcheck.
    cbn [worldOf fst snd]. rewrite timeSleep_clock.
    destruct (attempt =? 2); unfold Minute, Second; lia.
Qed.

Lemma retryLoop_elapsed method params remaining w :
  (remaining <= 3)%nat ->
  clock w <= clock (worldOf (retryLoop timeParse env method params remaining w))
  /\ clock (worldOf (retryLoop timeParse env method params remaining w))
     + (if 0 <? Z.of_nat remaining then 5 * Minute - 2 * Second else 0)
     <= clock w + Z.of_nat remaining * (L + 5 * Minute).
Proof.
  revert w. induction remaining as [|remaining IH]; intros w Hle.
  { cbn [retryLoop ret worldOf fst snd].
    change (Z.of_nat 0) with 0. change (0 <? 0) with false. cbv iota. lia. }
  rewrite retryLoop_step. cbv zeta.
  assert (Hattempt : 0 <= maxRetries - Z.of_nat (S remaining) <= 2)
    by (unfold maxRetries; lia).
  pose proof (iteration_elapsed method params _ w Hattempt) as [Hlow Hhigh].
  assert (Hlast : (maxRetries - Z.of_nat (S remaining) =? 2)
                  = negb (0 <? Z.of_nat remaining)).
  { unfold maxRetries.
    destruct (Z.eqb_spec (3 - Z.of_nat (S remaining)) 2),
             (Z.ltb_spec 0 (Z.of_nat remaining)); try reflexivity; lia. }
  rewrite Hlast in Hhigh.
  replace (0 <? Z.of_nat (S remaining)) with true
    by (symmetry; apply Z.ltb_lt; lia).
  set (attempt := maxRetries - Z.of_nat (S remaining)) in *.
  rewrite Nat2Z.inj_succ, Z.mul_succ_l.
  set (rest := Z.of_nat remaining * (L + 5 * Minute)) in *.
  assert (Hrest : 0 < Z.of_nat remaining -> L + 5 * Minute <= rest).
  { intros Hpos. subst rest. unfold Minute, Second. nia. }
  destruct (valueOf (iteration _ _ _ _ _ w)).
  - cbn [worldOf fst snd].
    specialize (IH (worldOf (iteration timeParse env method params attempt w))
                  ltac:(lia)) as [IHlow IHhigh].
    fold rest in IHhigh.
    destruct (Z.ltb_spec 0 (Z.of_nat remaining)); cbn [negb] in Hhigh;
      unfold Minute, Second in *; lia.
  - cbn [worldOf fst snd].
    destruct (Z.ltb_spec 0 (Z.of_nat remaining)) as [Hpos|Hzero];
      cbn [negb] in Hhigh.
    + specialize (Hrest Hpos). unfold Minute, Second in *. lia.
    + assert (Hnone : Z.of_nat remaining = 0) by lia.
      assert (rest = 0) by (subst rest; rewrite Hnone; reflexivity).
      unfold Minute, Second in *. lia.
Qed.

Lemma settle_ledger attempt r w other :
  soleCaller env other ->
  rateLimiter (client (worldOf (settle timeParse env attempt r w))) !! other
  = rateLimiter (client w) !! other.
Proof.
  intros Hsole.
  assert (Hsleep : forall d,
             rateLimiter (client (worldOf (timeSleep env d w))) !! other
             = rateLimiter (client w) !! other).
  { intros d. cbn. apply Hsole. }
  destruct r as [resp|e].
  - destruct (isThrottled resp) eqn:Hthrottled.
    + rewrite settle_throttled by exact Hthrottled.
      destruct (attempt =? maxRetries - 1); [reflexivity | apply Hsleep].
    + rewrite settle_other by exact Hthrottled. reflexivity.
  - rewrite settle_transport_error.
    destruct (attempt =? maxRetries - 1); [reflexivity | apply Hsleep].
Qed.

Lemma iteration_ledger method params attempt w other :
  other <> method ->
  soleCaller env other ->
  rateLimiter (client (worldOf (iteration timeParse env method params attempt w)))
    !! other
  = rateLimiter (client w) !! other.
Proof.
  intros Hne Hsole.
  destruct (valueOf (checkRateLimit method w)) eqn:Hcheck.
  - rewrite iteration_dispatch by exact Hcheck. cbv zeta.
    cbn [worldOf fst snd]. rewrite settle_ledger by exact Hsole.
    cbn. apply lookup_insert_ne. congruence.
  - rewrite iteration_rate_limited by exact Hcheck. cbn. apply Hsole.
Qed.

Lemma retryLoop_ledger method params remaining w other :
  other <> method ->
  soleCaller env other ->
  rateLimiter (client (worldOf (retryLoop timeParse env method params remaining w)))
    !! other
  = rateLimiter (client w) !! other.
Proof.
  intros Hne Hsole. revert w.
  induction remaining as [|remaining IH]; intros w; [reflexivity|].
  rewrite retryLoop_step. cbv zeta.
  pose proof (iteration_ledger method params
                (maxRetries - Z.of_nat (S remaining)) w other Hne Hsole)
    as Hpass.
  destruct (valueOf (iteration _ _ _ _ _ w)); [|exact Hpass].
  cbn [worldOf fst snd]. rewrite IH. exact Hpass.
Qed.

End Elapsed.

(** X21. A retried call returns in bounded time. When no request to the
    node takes longer than [L], [makeRPCCallWithRetry] returns at most
    3 L + 10 min + 2 s after it was called, whatever the node answers and
    whatever Retry-After values it sends: there are three passes, a wait
    follows only the first two, and no wait is longer than 5 minutes. The
    clock never goes back. *)
Theorem makeRPCCallWithRetry_returns_in_time
  (timeParse : string -> string -> option Time) (env : Environment)
  (method : string) (params : list iface) (L : Duration) (w : World) :
  0 <= L ->
  (forall n m p, latency (post env n m p) <= L) ->
  let r := makeRPCCallWithRetry timeParse env method params w in
  clock w <= clock (worldOf r)
  /\ clock (worldOf r) <= clock w + 3 * L + 10 * Minute + 2 * Second.
Proof.
  intros HL Hlatency. cbv zeta. unfold makeRPCCallWithRetry.
  change (Z.to_nat maxRetries) with 3%nat.
  pose proof (retryLoop_elapsed timeParse env L HL Hlatency method params 3 w
                ltac:(lia)) as [Hlow Hhigh].
  change (0 <? Z.of_nat 3) with true in Hhigh. cbv iota in Hhigh.
  change (Z.of_nat 3) with 3 in Hhigh.
  unfold Minute, Second in *. lia.
Qed.

Lemma makeRPCCallWithRetry_returns_in_time_witness :
  0 <= clock (worldOf (makeRPCCallWithRetry epochOnly (throttling "300")
                         "getSlot" [] (freshWorld 0)))
  /\ clock (worldOf (makeRPCCallWithRetry epochOnly (throttling "300")
                       "getSlot" [] (freshWorld 0)))
     <= 0 + 3 * 0 + 10 * Minute + 2 * Second.
Proof.
  apply (makeRPCCallWithRetry_returns_in_time epochOnly (throttling "300")
           "getSlot" [] 0 (freshWorld 0)).
  - lia.
  - intros n m p. cbn. lia.
Defined.

(** X22. Rate limiting is per method, and a retried call leaves the rest of
    the client alone: [makeRPCCallWithRetry] for one method does not change
    the ledger entry of any other method (one that no concurrent caller
    writes), nor the cache, nor the block-time estimate. *)
Theorem makeRPCCallWithRetry_footprint
  (timeParse : string -> string -> option Time) (env : Environment)
  (method other : string) (params : list iface) (w : World) :
  other <> method ->
  soleCaller env other ->
  let s := client (worldOf (makeRPCCallWithRetry timeParse env method params w)) in
  rateLimiter s !! other = rateLimiter (client w) !! other
  /\ cache s = cache (client w)
  /\ lastBlockTime s = lastBlockTime (client w)
  /\ lastBlockTimeCheck s = lastBlockTimeCheck (client w).
Proof.
  intros Hne Hsole. cbv zeta. split; [|split].
  - apply retryLoop_ledger; assumption.
  - apply retryLoop_cache.
  - pose proof (retryLoop_estimate timeParse env method params
                  (Z.to_nat maxRetries) w) as [Htime Hcheck].
    split; assumption.
Qed.

Lemma makeRPCCallWithRetry_footprint_witness :
  rateLimiter (client (worldOf (makeRPCCallWithRetry epochOnly (unreachable 0)
                                  "getEpochInfo" [] justCalled)))
    !! "getSlot"
  = Some 0.
Proof.
  etransitivity.
  - apply (proj1 (makeRPCCallWithRetry_footprint epochOnly (unreachable 0)
                    "getEpochInfo" "getSlot" [] justCalled
                    ltac:(discriminate) ltac:(intros t ledger; reflexivity))).
  - reflexivity.
Defined.

(** ** Health bands *)

(** A value above a threshold is above every lower threshold of a smaller
    binary exponent; NaN is above none. *)
Lemma ltb_threshold (hi lo x : float) :
  match Prim2SF hi, Prim2SF lo with
  | S754_finite false _ e1, S754_finite false _ e2 => e2 <? e1
  | _, _ => false
  end = true ->
  PrimFloat.ltb hi x = true -> PrimFloat.ltb lo x = true.
Proof.
  rewrite !ltb_spec. unfold SFltb.
  destruct (Prim2SF hi) as [| | |[] m1 e1]; try discriminate.
  destruct (Prim2SF lo) as [| | |[] m2 e2]; try discriminate.
  intros He%Z.ltb_lt.
  destruct (Prim2SF x) as [s|[]| |[] m e]; cbn; try discriminate;
    try reflexivity.
  destruct (Z.compare_spec e1 e) as [->|Hlt|Hgt]; try discriminate.
  - intros _. destruct (Z.compare_spec e2 e); try reflexivity; lia.
  - intros _. destruct (Z.compare_spec e2 e); try reflexivity; lia.
Qed.

(** X23. The health label by bands. The label is "Poor" exactly when the TPS
    is not above 10 (a NaN included), whatever the number of validators; it
    is "Healthy" exactly when the TPS is above 100 with more than 1000
    validators; "Good" exactly when the TPS is above 50 with more than 500
    validators and the "Healthy" condition fails; and with 500 validators or
    fewer a TPS above 10 is "Fair", however high. *)
Theorem networkHealth_bands (tps : float) (validatorCount : Z) :
  (networkHealth tps validatorCount = "Poor" <-> Float64.gt tps 10%float = false)
  /\ (networkHealth tps validatorCount = "Healthy"
      <-> Float64.gt tps 100%float = true /\ 1000 < validatorCount)
  /\ (networkHealth tps validatorCount = "Good"
      <-> Float64.gt tps 50%float = true /\ 500 < validatorCount
          /\ (Float64.gt tps 100%float = false \/ validatorCount <= 1000))
  /\ (Float64.gt tps 10%float = true -> validatorCount <= 500 ->
      networkHealth tps validatorCount = "Fair").
Proof.
  assert (H100 : Float64.gt tps 100%float = true -> Float64.gt tps 50%float = true)
    by (apply ltb_threshold; vm_compute; reflexivity).
  assert (H50 : Float64.gt tps 50%float = true -> Float64.gt tps 10%float = true)
    by (apply ltb_threshold; vm_compute; reflexivity).
  unfold networkHealth.
  destruct (Float64.gt tps 100%float) eqn:E100,
           (Float64.gt tps 50%float) eqn:E50,
           (Float64.gt tps 10%float) eqn:E10,
           (Z.ltb_spec 1000 validatorCount),
           (Z.ltb_spec 500 validatorCount);
    cbn [andb];
    try (specialize (H100 eq_refl); discriminate);
    try (specialize (H50 eq_refl); discriminate);
    try lia;
    (split; [|split; [|split]]);
    try (split; intros; try discriminate; try reflexivity; try lia;
         intuition (try discriminate; lia));
    try (intros; try reflexivity; lia).
Qed.

Lemma networkHealth_bands_witness :
  networkHealth nan 5000 = "Poor" /\ networkHealth 100000%float 500 = "Fair".
Proof.
  split.
  - apply (proj1 (networkHealth_bands nan 5000)). reflexivity.
  - apply (proj2 (proj2 (proj2 (networkHealth_bands 100000%float 500)))).
    + reflexivity.
    + lia.
Defined.

(** ** Cache keys *)

Lemma append_nil s : String.append "" s = s.
Proof. reflexivity. Qed.

Lemma append_cons c a s :
  String.append (String c a) s = String c (String.append a s).
Proof. reflexivity. Qed.

Lemma mentions_app c a b :
  mentions c (String.append a (String c b)) = true.
Proof.
  induction a as [|c' a IH]; rewrite ?append_cons, ?append_nil; cbn [mentions].
  - rewrite Ascii.eqb_refl. reflexivity.
  - rewrite IH. apply orb_true_r.
Qed.

Lemma pretty_N_go_plain x s :
  mentions "_" s = false -> mentions "_" (pretty_N_go x s) = false.
Proof.
  revert s. induction (N.lt_wf_0 x) as [x _ IH]; intros s Hs.
  assert (Hx : (x = 0 \/ 0 < x)%N) by lia.
  destruct Hx as [-> | Hpos]; [rewrite pretty_N_go_0; exact Hs|].
  rewrite pretty_N_go_step by exact Hpos. apply IH.
  - apply N.div_lt; [exact Hpos | reflexivity].
  - cbn [mentions]. rewrite Hs. unfold pretty_N_char.
    repeat case_match; reflexivity.
Qed.

Lemma pretty_Z_plain (z : Z) : mentions "_" (pretty z) = false.
Proof.
  assert (Hpos : forall q : positive, mentions "_" (pretty q) = false).
  { intros q. unfold pretty, pretty_positive, pretty, pretty_N.
    case_decide; [reflexivity|]. apply pretty_N_go_plain. reflexivity. }
  destruct z as [|q|q]; [reflexivity | apply Hpos |].
  change (pretty (Z.neg q)) with (String "-" (pretty q)).
  cbn [mentions]. rewrite Hpos. reflexivity.
Qed.

(** A key is read back into its fields at its last underscore. *)
Lemma fields_split a1 a2 b1 b2 :
  mentions "_" b1 = false -> mentions "_" b2 = false ->
  String.append a1 (String "_" b1) = String.append a2 (String "_" b2) ->
  a1 = a2 /\ b1 = b2.
Proof.
  intros Hb1 Hb2. revert a2.
  induction a1 as [|c1 a1 IH]; intros [|c2 a2];
    rewrite ?append_cons, ?append_nil.
  - intros [= ->]. split; reflexivity.
  - intros [= <- ->]. rewrite mentions_app in Hb1. discriminate.
  - intros [= -> <-]. rewrite mentions_app in Hb2. discriminate.
  - intros [= -> Hrest]. destruct (IH _ Hrest) as [-> ->].
    split; reflexivity.
Qed.

(** X24. Cache keys are unambiguous: two token-holder requests share a
    cache entry only when both the mint address and the limit agree, two
    performance requests only when both the time range and the limit agree,
    and a token-holder key is never a performance key, whatever characters
    the mint address and the time range of the request contain. *)
Theorem cache_keys_unambiguous (a1 a2 : string) (limit1 limit2 : Z) :
  (holdersKey a1 limit1 = holdersKey a2 limit2 -> a1 = a2 /\ limit1 = limit2)
  /\ (performanceKey a1 limit1 = performanceKey a2 limit2 ->
      a1 = a2 /\ limit1 = limit2)
  /\ holdersKey a1 limit1 <> performanceKey a2 limit2.
Proof.
  assert (Hfields :
            String.append a1 (String.append "_" (pretty limit1))
            = String.append a2 (String.append "_" (pretty limit2)) ->
            a1 = a2 /\ limit1 = limit2).
  { intros Heq. rewrite !(append_cons "_"), !append_nil in Heq.
    apply fields_split in Heq as [-> Hlimit]; try apply pretty_Z_plain.
    split; [reflexivity|]. exact (pretty_Z_inj _ _ Hlimit). }
  unfold holdersKey, performanceKey. split; [|split].
  - intros Heq. apply Hfields.
    rewrite !(append_cons _ _ (String.append a1 _)),
      !(append_cons _ _ (String.append a2 _)), !append_nil in Heq.
    injection Heq as Heq. exact Heq.
  - intros Heq. apply Hfields.
    rewrite !(append_cons _ _ (String.append a1 _)),
      !(append_cons _ _ (String.append a2 _)), !append_nil in Heq.
    injection Heq as Heq. exact Heq.
  - rewrite !append_cons. discriminate.
Qed.

Lemma cache_keys_unambiguous_witness :
  holdersKey "a_1" 2 = "token_holders_a_1_2"
  /\ ("a_1" = "a" /\ 2 = 12 -> False)
  /\ (holdersKey "a_1" 2 = holdersKey "a" 12 -> False).
Proof.
  split; [reflexivity|]. split; [intros [Hname _]; discriminate|].
  intros Heq.
  destruct (proj1 (cache_keys_unambiguous "a_1" "a" 2 12) Heq) as [Hname _].
  discriminate.
Defined.

(** ** Footprint of the estimator *)

Lemma GetSlot_world env w :
  worldOf (GetSlot env w)
  = {| client := client w;
       clock := clock w + Z.max 0 (latency (post env (requests w) "getSlot" []));
       requests := S (requests w) |}.
Proof. rewrite (proj2 (GetSlot_run env w)). reflexivity. Qed.

(** X25. What a run of [updateBlockTimeInBackground] costs. It never writes
    the cache. When the first reading of the slot fails it ends after that
    one request, without the wait; otherwise it makes exactly two requests,
    3 s apart or more, whether or not it publishes an estimate. Its requests
    go through [makeRPCCall], so it writes no entry of the rate-limit
    ledger: what the ledger holds afterwards is what concurrent callers
    wrote during the wait. *)
Theorem updateBlockTimeInBackground_footprint (env : Environment) (w : World) :
  let w' := worldOf (updateBlockTimeInBackground env w) in
  let first := GetSlot env w in
  cache (client w') = cache (client w)
  /\ (forall e,
        valueOf first = Err e ->
        requests w' = S (requests w)
        /\ clock w' = clock (worldOf first)
        /\ rateLimiter (client w') = rateLimiter (client w))
  /\ (forall currentSlot,
        valueOf first = Ok currentSlot ->
        requests w' = S (S (requests w))
        /\ clock (worldOf first) + 3 * Second <= clock w'
        /\ rateLimiter (client w')
           = others env (clock (worldOf first) + 3 * Second)
               (rateLimiter (client w))).
Proof.
  cbv zeta. rewrite updateBlockTime_world. cbv zeta.
  pose proof (GetSlot_world env w) as Hfirst.
  destruct (valueOf (GetSlot env w)) as [currentSlot|e].
  - set (w1 := worldOf (timeSleep env (3 * Second) (worldOf (GetSlot env w)))).
    pose proof (GetSlot_world env w1) as Hsecond.
    assert (Hw1 : client w1
                  = withRateLimiter (client w)
                      (others env (clock (worldOf (GetSlot env w)) + 3 * Second)
                         (rateLimiter (client w)))
                  /\ clock w1 = clock (worldOf (GetSlot env w)) + 3 * Second
                  /\ requests w1 = S (requests w)).
    { subst w1. rewrite Hfirst. cbn. repeat split. }
    destruct Hw1 as (Hclient & Hclock & Hrequests).
    assert (Hend : let w2 := worldOf (GetSlot env w1) in
                   cache (client w2) = cache (client w)
                   /\ requests w2 = S (S (requests w))
                   /\ clock (worldOf (GetSlot env w)) + 3 * Second <= clock w2
                   /\ rateLimiter (client w2)
                      = others env (clock (worldOf (GetSlot env w)) + 3 * Second)
                          (rateLimiter (client w))).
    { cbv zeta. rewrite Hsecond. cbn [client clock requests].
      rewrite Hclient, Hclock, Hrequests. cbn.
      split; [reflexivity|]. split; [reflexivity|]. split; [lia | reflexivity]. }
    cbv zeta in Hend. destruct Hend as (Hcache & Hcount & Hlater & Hledger).
    assert (Hpick : forall w2,
               cache (client w2) = cache (client (worldOf (GetSlot env w1))) ->
               requests w2 = requests (worldOf (GetSlot env w1)) ->
               clock w2 = clock (worldOf (GetSlot env w1)) ->
               rateLimiter (client w2)
               = rateLimiter (client (worldOf (GetSlot env w1))) ->
               cache (client w2) = cache (client w)
               /\ (forall e, Ok currentSlot = Err e ->
                     requests w2 = S (requests w)
                     /\ clock w2 = clock (worldOf (GetSlot env w))
                     /\ rateLimiter (client w2) = rateLimiter (client w))
               /\ (forall slot, Ok currentSlot = Ok slot ->
                     requests w2 = S (S (requests w))
                     /\ clock (worldOf (GetSlot env w)) + 3 * Second <= clock w2
                     /\ rateLimiter (client w2)
                        = others env (clock (worldOf (GetSlot env w)) + 3 * Second)
                            (rateLimiter (client w)))).
    { intros w2 H1 H2 H3 H4. rewrite H1, H2, H3, H4.
      split; [exact Hcache|]. split; [discriminate|].
      intros _ _. split; [exact Hcount|]. split; [exact Hlater | exact Hledger]. }
    destruct (valueOf (GetSlot env w1)) as [laterSlot|e];
      [|apply Hpick; reflexivity].
    destruct (laterSlot <=? currentSlot); [apply Hpick; reflexivity|].
    destruct (plausible _); apply Hpick; reflexivity.
  - rewrite Hfirst. cbn [client clock requests].
    split; [reflexivity|]. split; [|discriminate].
    intros _ _. repeat split.
Qed.

Lemma updateBlockTimeInBackground_footprint_witness :
  requests (worldOf (updateBlockTimeInBackground (unreachable 0) (freshWorld 0)))
  = 1%nat
  /\ requests (worldOf (updateBlockTimeInBackground
                          (node (advancing 8%float)) (freshWorld 0)))
     = 2%nat.
Proof.
  split.
  - apply (proj1 (proj2 (updateBlockTimeInBackground_footprint
                           (unreachable 0) (freshWorld 0)))
             "connection refused").
    reflexivity.
  - apply (proj2 (proj2 (updateBlockTimeInBackground_footprint
                           (node (advancing 8%float)) (freshWorld 0)))
             (Float64.toUint64 1000%float)).
    reflexivity.
Defined.
